(** * Conversational scheduling assistant: availability engine, tool adapters
      and agent loop

    A shallow embedding of [backend/services/calendar_service.py],
    [backend/services/ai_agent.py] and [backend/main.py], followed by the
    properties of the specification that were checked against it.

    Conventions of the embedding.
    - Python [str] values are [string]s (byte strings; non-ASCII text is kept
      as its UTF-8 bytes).
    - A Python exception is a value of [exn]: its class, on which the
      [except] clauses discriminate, and the text [str(e)] gives.  A
      computation that may raise returns a [result].
    - Code that talks to the calendar provider or reads the clock runs in the
      monad [M]: it threads a [World] (the requests sent so far, the number
      of clock readings so far) and may raise.  What the outside answers is an
      [Env] of oracles, universally quantified in every theorem.
    - [print] calls are diagnostics and are not part of the model. *)

From Stdlib Require Import ZArith List String Ascii Bool Lia.
From Equations Require Import Equations.
From stdpp Require Import base tactics option list sorting gmap strings pretty.

Local Open Scope string_scope.
Local Open Scope list_scope.
Local Open Scope Z_scope.

(* ===================================================================== *)
(** * Python string operations used by the code *)
(* ===================================================================== *)

Module PyString.

(** [sub in s] *)
Fixpoint contains (sub s : string) : bool :=
  String.prefix sub s ||
  match s with
  | EmptyString => false
  | String _ s' => contains sub s'
  end.

(** [s.split(sep)] for a non-empty separator: pieces between the
    non-overlapping occurrences of [sep], scanned from the left.  [skip]
    counts the characters of a separator just matched that are still to be
    passed over; [cur] is the piece being collected. *)
Fixpoint split_go (sep : string) (skip : nat) (cur : string) (s : string)
  : list string :=
  match s with
  | EmptyString => [cur]
  | String c s' =>
      match skip with
      | S k => split_go sep k cur s'
      | O =>
          if String.prefix sep s
          then cur :: split_go sep (String.length sep - 1) "" s'
          else split_go sep 0 (cur +:+ String c "") s'
      end
  end.

Definition split (sep s : string) : list string := split_go sep 0 "" s.

(** [s.replace(old, new)] for a non-empty [old]. *)
Fixpoint replace_go (old new : string) (skip : nat) (s : string) : string :=
  match s with
  | EmptyString => ""
  | String c s' =>
      match skip with
      | S k => replace_go old new k s'
      | O =>
          if String.prefix old s
          then new +:+ replace_go old new (String.length old - 1) s'
          else String c (replace_go old new 0 s')
      end
  end.

Definition replace (old new s : string) : string := replace_go old new 0 s.

(** [c.isspace()] on the ASCII range: tab, line feed, vertical tab, form
    feed, carriage return, the four separators 0x1c-0x1f and the space. *)
Definition isspace (c : ascii) : bool :=
  let n := nat_of_ascii c in
  ((9 <=? n) && (n <=? 13) || (28 <=? n) && (n <=? 32))%nat.

Fixpoint lstrip (s : string) : string :=
  match s with
  | EmptyString => ""
  | String c s' => if isspace c then lstrip s' else s
  end.

Definition rstrip (s : string) : string := String.rev (lstrip (String.rev s)).

(** [s.strip()] *)
Definition strip (s : string) : string := rstrip (lstrip s).

Definition lower_ascii (c : ascii) : ascii :=
  let n := nat_of_ascii c in
  if ((65 <=? n) && (n <=? 90))%nat then ascii_of_nat (n + 32) else c.

(** [s.lower()] (on the ASCII letters). *)
Fixpoint lower (s : string) : string :=
  match s with
  | EmptyString => ""
  | String c s' => String (lower_ascii c) (lower s')
  end.

(** [s[a:b]] with [0 <= a <= b]. *)
Definition slice (a b : nat) (s : string) : string := substring a (b - a) s.

(** [s[a:]] *)
Definition slice_from (a : nat) (s : string) : string :=
  substring a (String.length s - a) s.

(** [s.find(c)] for a single character: the index of its first occurrence. *)
Fixpoint find_char (c : ascii) (s : string) : option nat :=
  match s with
  | EmptyString => None
  | String d s' =>
      if Ascii.eqb c d then Some O else S <$> find_char c s'
  end.

Definition digit_of_ascii (c : ascii) : option Z :=
  let n := nat_of_ascii c in
  if ((48 <=? n) && (n <=? 57))%nat then Some (Z.of_nat (n - 48)) else None.

(** The number written by a string of decimal digits; [None] when the
    string is empty or holds another character. *)
Fixpoint digits_go (acc : Z) (s : string) : option Z :=
  match s with
  | EmptyString => Some acc
  | String c s' =>
      match digit_of_ascii c with
      | Some d => digits_go (acc * 10 + d) s'
      | None => None
      end
  end.

Definition parse_digits (s : string) : option Z :=
  match s with
  | EmptyString => None
  | _ => digits_go 0 s
  end.

Definition ascii_of_digit (d : Z) : ascii :=
  ascii_of_nat (48 + Z.to_nat (d mod 10)).

(** ["%0<width>d" % n] for [0 <= n < 10^width]. *)
Fixpoint zfill (width : nat) (n : Z) : string :=
  match width with
  | O => ""
  | S w => zfill w (n / 10) +:+ String (ascii_of_digit n) ""
  end.

(** [s.join(parts)] *)
Fixpoint join (s : string) (parts : list string) : string :=
  match parts with
  | [] => ""
  | [p] => p
  | p :: rest => p +:+ s +:+ join s rest
  end.

End PyString.

(* ===================================================================== *)
(** * Exceptions *)
(* ===================================================================== *)

(** The exception classes the code can meet.  [HttpError] is the provider
    client's error class, the only one [get_events], [create_event] and
    [delete_event] name in an [except] clause; every class is caught by
    [except Exception]. *)
Inductive exn_class :=
| HttpError
| ValueError
| OverflowError
| AttributeError
| HTTPException
| OtherException.

Record exn := Exn { exn_cls : exn_class; exn_str : string }.

Definition is_HttpError (e : exn) : bool :=
  match exn_cls e with
  | HttpError => true
  | _ => false
  end.

(** Outcome of a computation that may raise. *)
Inductive result (A : Type) :=
| Ok (a : A)
| Raise (e : exn).
Arguments Ok {A} a.
Arguments Raise {A} e.

Definition rbind {A B} (k : A -> result B) (r : result A) : result B :=
  match r with
  | Ok a => k a
  | Raise e => Raise e
  end.

#[global] Instance result_ret : MRet result := fun A a => Ok a.
#[global] Instance result_bind : MBind result := fun A B k r => rbind k r.

(* ===================================================================== *)
(** * The [datetime] module *)
(* ===================================================================== *)

(** Dates are kept as their proleptic Gregorian ordinal ([date.toordinal()],
    day 1 is 0001-01-01), on which [weekday()], the addition of a
    [timedelta] and the comparison of dates are defined; the civil
    year/month/day appear where text is parsed or produced, through the
    library's [_ymd2ord] and [_ord2ymd]. *)
Module Datetime.

Definition MINYEAR : Z := 1.
Definition MAXYEAR : Z := 9999.
Definition _MAXORDINAL : Z := 3652059.

Definition _is_leap (year : Z) : bool :=
  (year mod 4 =? 0) && (negb (year mod 100 =? 0) || (year mod 400 =? 0)).

Definition _days_before_year (year : Z) : Z :=
  let y := year - 1 in y * 365 + y / 4 - y / 100 + y / 400.

Definition _DAYS_IN_MONTH : list Z :=
  [31; 28; 31; 30; 31; 30; 31; 31; 30; 31; 30; 31].

Definition _DAYS_BEFORE_MONTH : list Z :=
  [0; 31; 59; 90; 120; 151; 181; 212; 243; 273; 304; 334].

Definition month_entry (table : list Z) (month : Z) : Z :=
  nth (Z.to_nat (month - 1)) table 0.

Definition _days_in_month (year month : Z) : Z :=
  if (month =? 2) && _is_leap year then 29
  else month_entry _DAYS_IN_MONTH month.

Definition _days_before_month (year month : Z) : Z :=
  month_entry _DAYS_BEFORE_MONTH month
  + (if (2 <? month) && _is_leap year then 1 else 0).

Definition _ymd2ord (year month day : Z) : Z :=
  _days_before_year year + _days_before_month year month + day.

Definition _DI400Y : Z := 146097.
Definition _DI100Y : Z := 36524.
Definition _DI4Y : Z := 1461.

Definition _ord2ymd (ordinal : Z) : Z * Z * Z :=
  let n := ordinal - 1 in
  let n400 := n / _DI400Y in
  let n := n mod _DI400Y in
  let year := n400 * 400 + 1 in
  let n100 := n / _DI100Y in
  let n := n mod _DI100Y in
  let n4 := n / _DI4Y in
  let n := n mod _DI4Y in
  let n1 := n / 365 in
  let n := n mod 365 in
  let year := year + n100 * 100 + n4 * 4 + n1 in
  if (n1 =? 4) || (n100 =? 4) then (year - 1, 12, 31)
  else
    let leapyear := (n1 =? 3) && (negb (n4 =? 24) || (n100 =? 3)) in
    let month := Z.shiftr (n + 50) 5 in
    let preceding :=
      month_entry _DAYS_BEFORE_MONTH month
      + (if (2 <? month) && leapyear then 1 else 0) in
    if n <? preceding then
      let month := month - 1 in
      let preceding :=
        preceding
        - (month_entry _DAYS_IN_MONTH month
           + (if (month =? 2) && leapyear then 1 else 0)) in
      (year, month, n - preceding + 1)
    else (year, month, n - preceding + 1).

(** A [datetime]: the ordinal of its date, its time of day, and the
    offset of its [tzinfo] in microseconds ([None] for a naive value). *)
Record datetime := mk_datetime {
  toordinal : Z;
  hour : Z;
  minute : Z;
  second : Z;
  microsecond : Z;
  tzinfo : option Z
}.

(** [dt.date()] *)
Definition date (dt : datetime) : Z := toordinal dt.

(** [d.weekday()]: Monday is 0, Sunday is 6. *)
Definition weekday (d : Z) : Z := (d + 6) mod 7.

(** [datetime.combine(d, datetime.min.time().replace(hour=h))] *)
Definition combine_hour (d : Z) (h : Z) : datetime :=
  mk_datetime d h 0 0 0 None.

(** [dt.replace(tzinfo=None)] *)
Definition replace_tzinfo_None (dt : datetime) : datetime :=
  mk_datetime (toordinal dt) (hour dt) (minute dt) (second dt)
              (microsecond dt) None.

Definition US_PER_DAY : Z := 86400000000.

Definition us_of_day (dt : datetime) : Z :=
  ((hour dt * 60 + minute dt) * 60 + second dt) * 1000000 + microsecond dt.

(** Position of a naive [datetime] on the time line, in microseconds; the
    order of naive values is the order of these. *)
Definition instant (dt : datetime) : Z :=
  toordinal dt * US_PER_DAY + us_of_day dt.

Definition ltb (a b : datetime) : bool := instant a <? instant b.
Definition gtb (a b : datetime) : bool := instant b <? instant a.

(** [d + timedelta(days=n)] on a date. *)
Definition date_add_days (d : Z) (n : Z) : result Z :=
  let o := d + n in
  if (0 <? o) && (o <=? _MAXORDINAL) then Ok o
  else Raise (Exn OverflowError "date value out of range").

(** [dt + timedelta(minutes=m)] *)
Definition add_minutes (dt : datetime) (m : Z) : result datetime :=
  let total := instant dt + m * 60000000 in
  let days := total / US_PER_DAY in
  let rest := total mod US_PER_DAY in
  if (0 <? days) && (days <=? _MAXORDINAL) then
    Ok (mk_datetime days
          (rest / 3600000000)
          (rest / 60000000 mod 60)
          (rest / 1000000 mod 60)
          (rest mod 1000000)
          (tzinfo dt))
  else Raise (Exn OverflowError "date value out of range").

(** ** [datetime.fromisoformat]

    The grammar [YYYY-MM-DD[*HH[:MM[:SS[.fff[fff]]]][+HH:MM[:SS[.ffffff]]]]]
    of Python 3.7 to 3.10. *)

Definition invalid_isoformat (date_string : string) : exn :=
  Exn ValueError ("Invalid isoformat string: '" +:+ date_string +:+ "'").

Definition _parse_isoformat_date (dtstr : string) : option (Z * Z * Z) :=
  if negb (String.length dtstr =? 10)%nat then None
  else
    year ← PyString.parse_digits (PyString.slice 0 4 dtstr);
    month ← PyString.parse_digits (PyString.slice 5 7 dtstr);
    day ← PyString.parse_digits (PyString.slice 8 10 dtstr);
    if String.eqb (PyString.slice 4 5 dtstr) "-"
       && String.eqb (PyString.slice 7 8 dtstr) "-"
    then Some (year, month, day) else None.

(** [HH[:MM[:SS]]] from position 0: the components read, and the position
    reached.  [comp] counts the components still allowed. *)
Fixpoint _parse_hh_mm_ss (comps : nat) (tstr : string) : option (list Z * string) :=
  match comps with
  | O => Some ([], tstr)
  | S k =>
      v ← PyString.parse_digits (PyString.slice 0 2 tstr);
      if (String.length tstr <? 2)%nat then None
      else
        let rest := PyString.slice_from 2 tstr in
        match rest, k with
        | EmptyString, _ => Some ([v], rest)
        | _, O => Some ([v], rest)
        | String c rest', _ =>
            if Ascii.eqb c ":" then
              '(vs, r) ← _parse_hh_mm_ss k rest';
              Some (v :: vs, r)
            else None
        end
  end.

Definition _parse_hh_mm_ss_ff (tstr : string) : option (Z * Z * Z * Z) :=
  '(comps, rest) ← _parse_hh_mm_ss 3 tstr;
  let hh := nth 0 comps 0 in
  let mm := nth 1 comps 0 in
  let ss := nth 2 comps 0 in
  match rest with
  | EmptyString => Some (hh, mm, ss, 0)
  | String c frac =>
      if negb (Ascii.eqb c ".") then None
      else
        let len_remainder := String.length frac in
        ff ← PyString.parse_digits frac;
        if (len_remainder =? 3)%nat then Some (hh, mm, ss, ff * 1000)
        else if (len_remainder =? 6)%nat then Some (hh, mm, ss, ff)
        else None
  end.

(** The time and the offset of the time zone, in microseconds. *)
Definition _parse_isoformat_time (tstr : string)
  : option (Z * Z * Z * Z * option Z) :=
  if (String.length tstr <? 2)%nat then None
  else
    let tz_pos :=
      match PyString.find_char "-" tstr with
      | Some i => Some i
      | None => PyString.find_char "+" tstr
      end in
    match tz_pos with
    | None =>
        '(hh, mm, ss, ff) ← _parse_hh_mm_ss_ff tstr;
        Some (hh, mm, ss, ff, None)
    | Some i =>
        '(hh, mm, ss, ff) ← _parse_hh_mm_ss_ff (PyString.slice 0 i tstr);
        let tzstr := PyString.slice_from (S i) tstr in
        let n := String.length tzstr in
        if negb ((n =? 5) || (n =? 8) || (n =? 15))%nat then None
        else
          '(th, tm, ts, tf) ← _parse_hh_mm_ss_ff tzstr;
          let off := ((th * 60 + tm) * 60 + ts) * 1000000 + tf in
          let tzsign := if String.eqb (PyString.slice i (S i) tstr) "-" then -1 else 1 in
          if off <? US_PER_DAY then Some (hh, mm, ss, ff, Some (tzsign * off))
          else None
    end.

(** The range checks of the [datetime] constructor. *)
Definition _check_fields (year month day hh mm ss ff : Z) : bool :=
  (MINYEAR <=? year) && (year <=? MAXYEAR)
  && (1 <=? month) && (month <=? 12)
  && (1 <=? day) && (day <=? _days_in_month year month)
  && (0 <=? hh) && (hh <=? 23)
  && (0 <=? mm) && (mm <=? 59)
  && (0 <=? ss) && (ss <=? 59)
  && (0 <=? ff) && (ff <=? 999999).

Definition fromisoformat (date_string : string) : result datetime :=
  let dstr := PyString.slice 0 10 date_string in
  let tstr := PyString.slice_from 11 date_string in
  let parsed :=
    '(year, month, day) ← _parse_isoformat_date dstr;
    '(hh, mm, ss, ff, tz) ←
       match tstr with
       | EmptyString => Some (0, 0, 0, 0, None)
       | _ => _parse_isoformat_time tstr
       end;
    if _check_fields year month day hh mm ss ff
    then Some (mk_datetime (_ymd2ord year month day) hh mm ss ff tz)
    else None in
  match parsed with
  | Some dt => Ok dt
  | None => Raise (invalid_isoformat date_string)
  end.

(** ** Text output *)

Definition format_date (d : Z) : string :=
  let '(y, m, dd) := _ord2ymd d in
  PyString.zfill 4 y +:+ "-" +:+ PyString.zfill 2 m +:+ "-" +:+ PyString.zfill 2 dd.

Definition format_offset (off : Z) : string :=
  let sign := if off <? 0 then "-" else "+" in
  let a := Z.abs off in
  let hh := a / 3600000000 in
  let mm := a / 60000000 mod 60 in
  let ss := a / 1000000 mod 60 in
  let ff := a mod 1000000 in
  sign +:+ PyString.zfill 2 hh +:+ ":" +:+ PyString.zfill 2 mm
  +:+ (if (ss =? 0) && (ff =? 0) then ""
       else ":" +:+ PyString.zfill 2 ss
            +:+ (if ff =? 0 then "" else "." +:+ PyString.zfill 6 ff)).

(** [dt.isoformat()] *)
Definition isoformat (dt : datetime) : string :=
  format_date (toordinal dt) +:+ "T"
  +:+ PyString.zfill 2 (hour dt) +:+ ":" +:+ PyString.zfill 2 (minute dt)
  +:+ ":" +:+ PyString.zfill 2 (second dt)
  +:+ (if microsecond dt =? 0 then "" else "." +:+ PyString.zfill 6 (microsecond dt))
  +:+ match tzinfo dt with
      | None => ""
      | Some off => format_offset off
      end.

Definition day_name (wd : Z) : string :=
  nth (Z.to_nat wd)
      ["Monday"; "Tuesday"; "Wednesday"; "Thursday"; "Friday"; "Saturday"; "Sunday"] "".

Definition month_name (m : Z) : string :=
  nth (Z.to_nat (m - 1))
      ["January"; "February"; "March"; "April"; "May"; "June"; "July";
       "August"; "September"; "October"; "November"; "December"] "".

(** [dt.strftime('%A, %B %d at %I:%M %p')] *)
Definition strftime_slot (dt : datetime) : string :=
  let '(_, m, dd) := _ord2ymd (toordinal dt) in
  let h12 := if hour dt mod 12 =? 0 then 12 else hour dt mod 12 in
  day_name (weekday (toordinal dt)) +:+ ", " +:+ month_name m +:+ " "
  +:+ PyString.zfill 2 dd +:+ " at " +:+ PyString.zfill 2 h12 +:+ ":"
  +:+ PyString.zfill 2 (minute dt) +:+ " "
  +:+ (if hour dt <? 12 then "AM" else "PM").

(** [dt.strftime('%Y-%m-%d')] *)
Definition strftime_ymd (dt : datetime) : string := format_date (toordinal dt).

End Datetime.

(* ===================================================================== *)
(** * The outside world *)
(* ===================================================================== *)

(** An item of the provider's event list, with the keys the code reads. *)
Record GEventTime := { g_dateTime : option string; g_date : option string }.

Record GEvent := {
  g_id : string;
  g_summary : option string;
  g_start : GEventTime;
  g_end : GEventTime;
  g_description : option string;
  g_attendees : option (list (option string))   (* each attendee's 'email' *)
}.

(** The body [create_event] sends to the provider. *)
Record EventBody := {
  body_summary : string;
  body_description : string;
  body_start : string * string;   (* dateTime, timeZone *)
  body_end : string * string;
  body_attendees : list string    (* the 'email' of each *)
}.

(** The event dictionary [create_event] returns: the one the provider
    answers with, or the mock one. *)
Record EventResource := {
  er_id : option string;
  er_summary : option string;
  er_description : option string;
  er_start_dateTime : option string;
  er_end_dateTime : option string;
  er_status : option string
}.

(** Requests executed against the provider; each carries [calendarId]. *)
Inductive Request :=
| EventsList (calendarId : option string) (timeMin timeMax : string)
| EventsInsert (calendarId : option string) (body : EventBody)
| EventsDelete (calendarId : option string) (eventId : string).

(** What the outside answers.  The provider may answer a request with
    respect to all the requests it has received before; the clock is read
    by [datetime.now()], its [n]-th reading being [now n], of which
    [now_timestamp n] is the text of [.timestamp()]. *)
Record Env := {
  now : nat -> Datetime.datetime;
  now_timestamp : nat -> string;
  execute_list : list Request -> option string -> string -> string -> result (list GEvent);
  execute_insert : list Request -> option string -> EventBody -> result EventResource;
  execute_delete : list Request -> option string -> string -> result unit
}.

Record World := {
  requests : list Request;   (* sent to the provider so far, oldest first *)
  clock_reads : nat          (* readings of the clock so far *)
}.

(** Computations over a state [S] that may raise; the state reached when
    the exception is raised is kept. *)
Definition ST (S A : Type) : Type := S -> result A * S.

#[global] Instance ST_ret {S} : MRet (ST S) := fun A a s => (Ok a, s).
#[global] Instance ST_bind {S} : MBind (ST S) := fun A B k m s =>
  match m s with
  | (Ok a, s') => k a s'
  | (Raise e, s') => (Raise e, s')
  end.

(** The computations of the calendar service and of the tools. *)
Abbreviation M := (ST World).

Definition lift {S A} (r : result A) : ST S A := fun s => (r, s).

(** [try: body / except <classes accepted by catches>: handler] *)
Definition try_except {S A} (body : ST S A) (catches : exn -> bool)
           (handler : exn -> ST S A) : ST S A :=
  fun s =>
    match body s with
    | (Ok a, s') => (Ok a, s')
    | (Raise e, s') => if catches e then handler e s' else (Raise e, s')
    end.

(** [except Exception] *)
Definition Exception (e : exn) : bool := true.

Section Effects.
Context (env : Env).

Definition tick (w : World) : World :=
  {| requests := requests w; clock_reads := S (clock_reads w) |}.

Definition sent (r : Request) (w : World) : World :=
  {| requests := requests w ++ [r]; clock_reads := clock_reads w |}.

(** [datetime.now()] *)
Definition datetime_now : M Datetime.datetime :=
  fun w => (Ok (now env (clock_reads w)), tick w).

(** [datetime.now().timestamp()], as text *)
Definition datetime_now_timestamp : M string :=
  fun w => (Ok (now_timestamp env (clock_reads w)), tick w).

(** [service.events().list(...).execute().get('items', [])] *)
Definition events_list (calendarId : option string) (timeMin timeMax : string)
  : M (list GEvent) :=
  fun w => (execute_list env (requests w) calendarId timeMin timeMax,
            sent (EventsList calendarId timeMin timeMax) w).

(** [service.events().insert(calendarId=..., body=...).execute()] *)
Definition events_insert (calendarId : option string) (body : EventBody)
  : M EventResource :=
  fun w => (execute_insert env (requests w) calendarId body,
            sent (EventsInsert calendarId body) w).

(** [service.events().delete(calendarId=..., eventId=...).execute()] *)
Definition events_delete (calendarId : option string) (eventId : string) : M unit :=
  fun w => (execute_delete env (requests w) calendarId eventId,
            sent (EventsDelete calendarId eventId) w).
End Effects.

(** [range(a, b)] *)
Definition range (a b : Z) : list Z := seqZ a (b - a).

(** Reading the answer of a computation together with the equation that
    gives it. *)
Definition inspect {A} (a : A) : { b : A | a = b } := exist _ a eq_refl.

(* ===================================================================== *)
(** * [calendar_service.py] *)
(* ===================================================================== *)

Module CalendarService.
Import Datetime.

(** The attributes of a [CalendarService] the methods read;
    [is_available] is what [__init__] concluded from authentication. *)
Record t := {
  calendar_id : option string;
  is_available : bool
}.

(** The dictionaries [get_events] returns. *)
Record Event := {
  ev_id : string;
  ev_title : string;
  ev_start_time : option string;
  ev_end_time : option string;
  ev_description : string;
  ev_attendees : list (option string)
}.

(** The dictionaries [get_availability] returns. *)
Record Slot := {
  start_time : string;
  end_time : string;
  available : bool
}.

Definition _check_availability (self : t) : bool * option string :=
  if negb (is_available self)
  then (false, Some "Google Calendar service is not available. Please check your credentials.")
  else (true, None).

(** [d.get('dateTime', d.get('date'))] *)
Definition get_dateTime_or_date (d : GEventTime) : option string :=
  match g_dateTime d with
  | Some s => Some s
  | None => g_date d
  end.

Definition format_event (event : GEvent) : Event :=
  {| ev_id := g_id event;
     ev_title := default "No Title" (g_summary event);
     ev_start_time := get_dateTime_or_date (g_start event);
     ev_end_time := get_dateTime_or_date (g_end event);
     ev_description := default "" (g_description event);
     ev_attendees := default [] (g_attendees event) |}.

(** [datetime.fromisoformat(event[key].replace('Z', '+00:00'))], then
    [replace(tzinfo=None)] when the value carries a time zone. *)
Definition event_datetime (value : option string) : result datetime :=
  match value with
  | None => Raise (Exn AttributeError "'NoneType' object has no attribute 'replace'")
  | Some s =>
      dt ← fromisoformat (PyString.replace "Z" "+00:00" s);
      mret (match tzinfo dt with
            | Some _ => replace_tzinfo_None dt
            | None => dt
            end)
  end.

(** The overlap test of [get_availability]:
    [slot_start < event_end and slot_end > event_start]. *)
Definition overlaps (slot_start slot_end event_start event_end : datetime) : bool :=
  ltb slot_start event_end && gtb slot_end event_start.

(** The conflict check of one slot: the [for event in existing_events]
    loop, left by [break] at the first overlapping event.  The answer is
    the final [is_available]. *)
Fixpoint slot_is_available (slot_start slot_end : datetime)
         (existing_events : list Event) : result bool :=
  match existing_events with
  | [] => Ok true
  | event :: rest =>
      event_start ← event_datetime (ev_start_time event);
      event_end ← event_datetime (ev_end_time event);
      if overlaps slot_start slot_end event_start event_end
      then Ok false
      else slot_is_available slot_start slot_end rest
  end.

Definition mk_slot (slot_start slot_end : datetime) : Slot :=
  {| start_time := isoformat slot_start;
     end_time := isoformat slot_end;
     available := true |}.

(** [for hour in range(9, 17)] on one date. *)
Fixpoint hours_loop (hours : list Z) (current_date duration_minutes : Z)
         (existing_events : list Event) (available_slots : list Slot)
  : result (list Slot) :=
  match hours with
  | [] => Ok available_slots
  | hour :: rest =>
      let slot_start := combine_hour current_date hour in
      slot_end ← add_minutes slot_start duration_minutes;
      is_available ← slot_is_available slot_start slot_end existing_events;
      hours_loop rest current_date duration_minutes existing_events
        (if is_available : bool
         then available_slots ++ [mk_slot slot_start slot_end]
         else available_slots)
  end.

(** One iteration of [while current_date <= end_dt.date()], up to the
    increment of [current_date]. *)
Definition day_body (current_date duration_minutes : Z)
           (existing_events : list Event) (available_slots : list Slot)
  : result (list Slot) :=
  if weekday current_date <? 5
  then hours_loop (range 9 17) current_date duration_minutes existing_events
                  available_slots
  else Ok available_slots.

Equations? days_loop (existing_events : list Event) (duration_minutes end_date : Z)
           (current_date : Z) (available_slots : list Slot)
  : result (list Slot) by wf (Z.to_nat (end_date + 1 - current_date)) lt :=
  days_loop existing_events duration_minutes end_date current_date available_slots
    with decide (current_date <= end_date) => {
    | right _ => Ok available_slots
    | left _ with day_body current_date duration_minutes existing_events
                           available_slots => {
        | Raise e => Raise e
        | Ok slots with inspect (date_add_days current_date 1) => {
            | exist _ (Raise e) _ => Raise e
            | exist _ (Ok next) _ =>
                days_loop existing_events duration_minutes end_date next slots } } }.
Proof.
  unfold date_add_days in *. case_match; simplify_eq. lia.
Qed.

(** [for hour in [9, 11, 14, 16]] of the mock computation. *)
Fixpoint mock_hours_loop (hours : list Z) (current_date duration_minutes : Z)
         (available_slots : list Slot) : result (list Slot) :=
  match hours with
  | [] => Ok available_slots
  | hour :: rest =>
      let slot_start := combine_hour current_date hour in
      slot_end ← add_minutes slot_start duration_minutes;
      mock_hours_loop rest current_date duration_minutes
        (available_slots ++ [mk_slot slot_start slot_end])
  end.

Definition mock_day_body (current_date duration_minutes : Z)
           (available_slots : list Slot) : result (list Slot) :=
  if weekday current_date <? 5
  then mock_hours_loop [9; 11; 14; 16] current_date duration_minutes available_slots
  else Ok available_slots.

Equations? mock_days_loop (duration_minutes end_date : Z)
           (current_date : Z) (available_slots : list Slot)
  : result (list Slot) by wf (Z.to_nat (end_date + 1 - current_date)) lt :=
  mock_days_loop duration_minutes end_date current_date available_slots
    with decide (current_date <= end_date /\ (length available_slots < 10)%nat) => {
    | right _ => Ok available_slots
    | left _ with mock_day_body current_date duration_minutes available_slots => {
        | Raise e => Raise e
        | Ok slots with inspect (date_add_days current_date 1) => {
            | exist _ (Raise e) _ => Raise e
            | exist _ (Ok next) _ =>
                mock_days_loop duration_minutes end_date next slots } } }.
Proof.
  unfold date_add_days in *. case_match; simplify_eq. lia.
Qed.

Definition _get_mock_availability (self : t) (start_date end_date : string)
           (duration_minutes : Z) : result (list Slot) :=
  start_dt ← fromisoformat start_date;
  end_dt ← fromisoformat end_date;
  available_slots ← mock_days_loop duration_minutes (date end_dt) (date start_dt) [];
  mret (take 10 available_slots).

Section Methods.
Context (env : Env).

Definition get_events (self : t) (start_date end_date : string) : M (list Event) :=
  let '(available, error) := _check_availability self in
  if negb available then mret []
  else
    try_except
      (start_dt ← lift (fromisoformat start_date);
       let start_time := isoformat start_dt +:+ "Z" in
       end_dt ← lift (fromisoformat end_date);
       let end_time := isoformat end_dt +:+ "Z" in
       events ← events_list env (calendar_id self) start_time end_time;
       mret (map format_event events))
      is_HttpError
      (fun error => mret []).

(** The body of the [try] block of [get_availability]. *)
Definition real_availability (self : t) (start_date end_date : string)
           (duration_minutes : Z) : M (list Slot) :=
  existing_events ← get_events self start_date end_date;
  start_dt ← lift (fromisoformat start_date);
  end_dt ← lift (fromisoformat end_date);
  available_slots ← lift (days_loop existing_events duration_minutes
                                    (date end_dt) (date start_dt) []);
  mret (take 20 available_slots).

Definition get_availability (self : t) (start_date end_date : string)
           (duration_minutes : Z) : M (list Slot) :=
  let '(available, error) := _check_availability self in
  if negb available
  then lift (_get_mock_availability self start_date end_date duration_minutes)
  else
    try_except
      (real_availability self start_date end_date duration_minutes)
      Exception
      (fun e => lift (_get_mock_availability self start_date end_date duration_minutes)).

(** The [event] dictionary [create_event] builds for the provider. *)
Definition insert_body (self : t) (title description start_time end_time : string)
           (attendee_email : option string) : EventBody :=
  {| body_summary := title;
     body_description := description;
     body_start := (start_time, "UTC");
     body_end := (end_time, "UTC");
     body_attendees :=
       match attendee_email with
       | Some email =>
           if negb (String.eqb email "") && is_available self
           then [email] else []
       | None => []
       end |}.

Definition create_event (self : t) (title description start_time end_time : string)
           (attendee_email : option string) : M EventResource :=
  let '(available, error) := _check_availability self in
  if negb available then
    ts ← datetime_now_timestamp env;
    mret {| er_id := Some ("mock_event_" +:+ ts);
            er_summary := Some title;
            er_description := Some description;
            er_start_dateTime := Some start_time;
            er_end_dateTime := Some end_time;
            er_status := Some "mock_created" |}
  else
    try_except
      (let event := insert_body self title description start_time end_time
                                attendee_email in
       created_event ← events_insert env (calendar_id self) event;
       mret created_event)
      is_HttpError
      (fun error => lift (Raise error)).

Definition delete_event (self : t) (event_id : string) : M bool :=
  let '(available, error) := _check_availability self in
  if negb available then mret true
  else
    try_except
      (_ ← events_delete env (calendar_id self) event_id;
       mret true)
      is_HttpError
      (fun error => mret false).
End Methods.

End CalendarService.

(* ===================================================================== *)
(** * [ai_agent.py] *)
(* ===================================================================== *)

Module Agent.
Import Datetime.

Definition nl : string := String (ascii_of_nat 10) "".
Definition double_quote : string := String (ascii_of_nat 34) "".

(** The messages of a [ChatMessageHistory]. *)
Inductive Message :=
| HumanMessage (content : string)
| AIMessage (content : string).

Record Tool := {
  name : string;
  description : string;
  func : string -> M string
}.

(** The dictionary handed to [AgentExecutor.ainvoke]. *)
Record AgentInput := {
  input : string;
  chat_history : string;
  current_date : string
}.

(** What the model gives back at one step of the loop, as the output
    parser reads it. *)
Inductive ModelOutput :=
| Action (tool tool_input : string)
| FinalAnswer (text : string)
| Malformed (text : string).

(** The language model: given the input of the invocation and the
    scratchpad (the steps taken so far, each with its observation), its
    next output, or the error of the call. *)
Definition LLM : Type :=
  AgentInput -> list (ModelOutput * string) -> result ModelOutput.

Record AgentExecutor := {
  llm : LLM;
  tools : list Tool;
  verbose : bool;
  handle_parsing_errors : bool;
  max_iterations : nat;
  early_stopping_method : string
}.

Section Tools.
Context (env : Env) (calendar_service : CalendarService.t).

(** The [try] block of [parse_date_range]: [None] stands for leaving it
    without [return], by falling through or by an exception. *)
Definition explicit_date_range (input_str : string) : option (string * string) :=
  if String.eqb input_str "" then None
  else
    let input_str :=
      PyString.replace "'" ""
        (PyString.replace double_quote "" (PyString.strip input_str)) in
    if PyString.contains "to" input_str then
      match PyString.split "to" input_str with
      | [start; end_] => Some (PyString.strip start, PyString.strip end_)
      | _ => None
      end
    else None.

Definition parse_date_range (input_str : string) : M (string * string) :=
  match explicit_date_range input_str with
  | Some r => mret r
  | None =>
      now1 ← datetime_now env;
      let today := strftime_ymd now1 in
      now2 ← datetime_now env;
      later ← lift (add_minutes now2 (7 * 1440));
      let future := strftime_ymd later in
      mret (today, future)
  end.

(** [for i, slot in enumerate(availability[:10], 1)] *)
Fixpoint format_slots (i : nat) (slots : list CalendarService.Slot)
         (slots_text : string) : result string :=
  match slots with
  | [] => Ok slots_text
  | slot :: rest =>
      start_time ← fromisoformat (CalendarService.start_time slot);
      format_slots (S i) rest
        (slots_text +:+ pretty i +:+ ". " +:+ strftime_slot start_time +:+ nl)
  end.

(** The [try] block of [check_availability_tool]. *)
Definition check_availability_try (date_range : string) : M string :=
    ('(start_date, end_date) ← parse_date_range date_range;
     availability ← CalendarService.get_availability env calendar_service
                      start_date end_date 60;
     match availability with
     | [] => mret "No available slots found for the specified date range."
     | _ =>
         let calendar_note :=
           if negb (CalendarService.is_available calendar_service)
           then nl +:+ nl +:+ "📝 Note: Showing demo availability (Google Calendar not connected)"
           else "" in
         slots_text ← lift (format_slots 1 (take 10 availability)
                                         ("Available time slots:" +:+ nl));
         mret (slots_text +:+ calendar_note)
     end).

Definition check_availability_tool (date_range : string) : M string :=
  try_except
    (check_availability_try date_range)
    Exception
    (fun e => mret ("Error checking availability: " +:+ exn_str e)).

(** The [try] block of [book_appointment_tool]. *)
Definition book_appointment_try (booking_details : string) : M string :=
    (let parts := PyString.split "|" booking_details in
     if (length parts <? 4)%nat then
       mret "Invalid booking format. Please provide: title|description|start_time|end_time|email"
     else
       let title := PyString.strip (nth 0 parts "") in
       let description := PyString.strip (nth 1 parts "") in
       let start_time := PyString.strip (nth 2 parts "") in
       let end_time := PyString.strip (nth 3 parts "") in
       let email :=
         if (4 <? length parts)%nat
         then Some (PyString.strip (nth 4 parts "")) else None in
       let start_time :=
         if negb (PyString.contains "T" start_time)
         then start_time +:+ "T00:00:00" else start_time in
       let end_time :=
         if negb (PyString.contains "T" end_time)
         then end_time +:+ "T00:00:00" else end_time in
       _ ← lift (fromisoformat start_time);
       _ ← lift (fromisoformat end_time);
       event ← CalendarService.create_event env calendar_service
                 title description start_time end_time email;
       let calendar_note :=
         if negb (CalendarService.is_available calendar_service)
         then nl +:+ nl +:+ "📝 Note: This is a demo booking (Google Calendar not connected)"
         else "" in
       mret ("✅ Appointment booked successfully! Event ID: "
             +:+ default "None" (er_id event) +:+ calendar_note)).

Definition book_appointment_tool (booking_details : string) : M string :=
  try_except
    (book_appointment_try booking_details)
    Exception
    (fun e => mret ("Error booking appointment: " +:+ exn_str e)).

(** [for event in events] of [get_existing_events_tool]. *)
Fixpoint format_events (events : list CalendarService.Event)
         (events_text : string) : result string :=
  match events with
  | [] => Ok events_text
  | event :: rest =>
      start_time ←
        match CalendarService.ev_start_time event with
        | Some s => fromisoformat (PyString.replace "Z" "" s)
        | None => Raise (Exn AttributeError "'NoneType' object has no attribute 'replace'")
        end;
      format_events rest
        (events_text +:+ "• " +:+ CalendarService.ev_title event +:+ " - "
         +:+ strftime_slot start_time +:+ nl)
  end.

(** The [try] block of [get_existing_events_tool]. *)
Definition get_existing_events_try (date_range : string) : M string :=
    ('(start_date, end_date) ← parse_date_range date_range;
     events ← CalendarService.get_events env calendar_service start_date end_date;
     match events with
     | [] =>
         let calendar_note :=
           if negb (CalendarService.is_available calendar_service)
           then nl +:+ nl +:+ "📝 Note: No events shown (Google Calendar not connected)"
           else "" in
         mret ("No existing events found for the specified date range." +:+ calendar_note)
     | _ =>
         lift (format_events events ("Existing events:" +:+ nl))
     end).

Definition get_existing_events_tool (date_range : string) : M string :=
  try_except
    (get_existing_events_try date_range)
    Exception
    (fun e => mret ("Error getting events: " +:+ exn_str e)).

Definition _create_tools : list Tool :=
  [ {| name := "check_availability";
       description := "Check calendar availability for booking appointments.";
       func := check_availability_tool |};
    {| name := "book_appointment";
       description := "Book a new appointment. Format: title|description|start_time|end_time|email";
       func := book_appointment_tool |};
    {| name := "get_existing_events";
       description := "Fetch existing events from calendar for a given date range.";
       func := get_existing_events_tool |} ].

Definition _create_agent (the_llm : LLM) : AgentExecutor :=
  {| llm := the_llm;
     tools := _create_tools;
     verbose := true;
     handle_parsing_errors := true;
     max_iterations := 5;
     early_stopping_method := "force" |}.
End Tools.

(** ** The agent executor *)

(** What an invocation of the agent can touch: the [World] its tools act
    on, and the language model, whose calls are counted. *)
Record Runtime := {
  world : World;
  model_calls : nat
}.

Definition in_world {A} (m : M A) : ST Runtime A :=
  fun r =>
    let '(a, w) := m (world r) in
    (a, {| world := w; model_calls := model_calls r |}).

(** The result dictionary of an invocation. *)
Abbreviation Response := (gmap string string).

Definition call_llm (the_llm : LLM) (inputs : AgentInput)
           (scratchpad : list (ModelOutput * string)) : ST Runtime ModelOutput :=
  fun r =>
    (the_llm inputs scratchpad,
     {| world := world r; model_calls := S (model_calls r) |}).

Fixpoint find_tool (tool : string) (available : list Tool) : option Tool :=
  match available with
  | [] => None
  | t :: rest => if String.eqb (name t) tool then Some t else find_tool tool rest
  end.

(** The observation an action yields: the text of the tool, or a notice
    that no tool has this name. *)
Definition run_tool (available : list Tool) (tool tool_input : string)
  : ST Runtime string :=
  match find_tool tool available with
  | Some t => in_world (func t tool_input)
  | None =>
      mret (tool +:+ " is not a valid tool, try one of ["
            +:+ PyString.join ", " (map name available) +:+ "].")
  end.

(** Modelled from the spec: the loop of the [AgentExecutor], which is the
    agent library's and not this repository's.  Each iteration asks the
    model once: a final answer ends the loop with that answer as
    ["output"]; an action runs the named tool and adds its observation to
    the scratchpad; a malformed output is, with [handle_parsing_errors],
    fed back as a corrective observation.  When [max_iterations] are used
    up, [early_stopping_method = "force"] ends the loop with the
    library's fixed notice. *)
Definition stopped_response (executor : AgentExecutor) : ST Runtime Response :=
  if String.eqb (early_stopping_method executor) "force"
  then mret {[ "output" := "Agent stopped due to iteration limit or time limit." ]}
  else lift (Raise (Exn ValueError "Got unsupported early_stopping_method")).

Fixpoint run_loop (executor : AgentExecutor) (inputs : AgentInput)
         (iterations_left : nat) (scratchpad : list (ModelOutput * string))
  : ST Runtime Response :=
  match iterations_left with
  | O => stopped_response executor
  | S k =>
      output ← call_llm (llm executor) inputs scratchpad;
      match output with
      | FinalAnswer text => mret {[ "output" := text ]}
      | Action tool tool_input =>
          observation ← run_tool (tools executor) tool tool_input;
          run_loop executor inputs k (scratchpad ++ [(output, observation)])
      | Malformed text =>
          if handle_parsing_errors executor
          then run_loop executor inputs k
                 (scratchpad ++ [(output, "Invalid or incomplete response")])
          else lift (Raise (Exn ValueError ("Could not parse LLM output: " +:+ text)))
      end
  end.

(** [executor.ainvoke(inputs)] *)
Definition ainvoke (executor : AgentExecutor) (inputs : AgentInput)
  : ST Runtime Response :=
  run_loop executor inputs (max_iterations executor) [].

(** ** [AIBookingAgent.process_message] *)

(** The state of the backend process: the runtime, and [self.sessions]. *)
Record State := {
  runtime : Runtime;
  sessions : gmap string (list Message)
}.

(** The turns of a session; none when the session does not exist. *)
Definition transcript (s : State) (session_id : string) : list Message :=
  default [] (sessions s !! session_id).

Definition in_runtime {A} (m : ST Runtime A) : ST State A :=
  fun s =>
    let '(a, r) := m (runtime s) in
    (a, {| runtime := r; sessions := sessions s |}).

Definition update_sessions (f : gmap string (list Message) -> gmap string (list Message))
  : ST State unit :=
  fun s => (Ok (), {| runtime := runtime s; sessions := f (sessions s) |}).

(** [if session_id not in self.sessions:
       self.sessions[session_id] = ChatMessageHistory()] *)
Definition ensure_session (session_id : string) : ST State unit :=
  update_sessions (fun m =>
    match m !! session_id with
    | Some _ => m
    | None => <[session_id := []]> m
    end).

(** [self.sessions[session_id].messages] *)
Definition messages (session_id : string) : ST State (list Message) :=
  fun s => (Ok (default [] (sessions s !! session_id)), s).

(** [chat_history.add_user_message] and [chat_history.add_ai_message]: the
    history object is the one stored in [self.sessions]. *)
Definition add_message (session_id : string) (m : Message) : ST State unit :=
  update_sessions (alter (fun l => l ++ [m]) session_id).

Fixpoint render_history (msgs : list Message) (history_text : string) : string :=
  match msgs with
  | [] => history_text
  | HumanMessage content :: rest =>
      render_history rest (history_text +:+ "Human: " +:+ content +:+ nl)
  | AIMessage content :: rest =>
      render_history rest (history_text +:+ "Assistant: " +:+ content +:+ nl)
  end.

Definition api_key_error_message : string :=
"🔑 API Key Error!

It looks like there's an issue with your API key. Please check your .env file:

- GROQ_API_KEY (Free): https://console.groq.com/
- GOOGLE_API_KEY (Free Tier): https://makersuite.google.com/app/apikey
- OPENAI_API_KEY (Paid): https://platform.openai.com/api-keys

Then restart the backend:
```bash
python run_backend.py
```".

(** The text the [except] clause of [process_message] returns. *)
Definition error_message (e : exn) : string :=
  let error_msg := "I apologize, but I encountered an error: " +:+ exn_str e in
  let lowered := PyString.lower (exn_str e) in
  if PyString.contains "API key" lowered || PyString.contains "invalid_api_key" lowered
  then api_key_error_message
  else if PyString.contains "quota" lowered
  then error_msg +:+ nl +:+ nl
       +:+ "💰 This looks like a quota/billing issue. Consider switching to Groq or Google Gemini."
  else if PyString.contains "rate limit" lowered
  then error_msg +:+ nl +:+ nl
       +:+ "⏱️ Rate limit exceeded. Please wait a moment and try again."
  else error_msg.

Section ProcessMessage.
Context (env : Env).
(** [self.agent.ainvoke] *)
Context (agent : AgentInput -> ST Runtime Response).

(** [if not session_id: session_id = f"session_{datetime.now().timestamp()}"] *)
Definition resolve_session_id (session_id : option string) : ST State string :=
  match session_id with
  | Some s =>
      if String.eqb s ""
      then ts ← in_runtime (in_world (datetime_now_timestamp env));
           mret ("session_" +:+ ts)
      else mret s
  | None =>
      ts ← in_runtime (in_world (datetime_now_timestamp env));
      mret ("session_" +:+ ts)
  end.

Definition process_message (message : string) (session_id : option string)
           (context : option (gmap string string)) : ST State string :=
  try_except
    (session_id ← resolve_session_id session_id;
     ensure_session session_id;;
     chat_history ← messages session_id;
     let history_text :=
       render_history (drop (length chat_history - 6) chat_history) "" in
     today ← in_runtime (in_world (datetime_now env));
     let current_date := strftime_ymd today in
     response ← in_runtime (agent {| input := message;
                                     chat_history := history_text;
                                     current_date := current_date |});
     add_message session_id (HumanMessage message);;
     match response !! "output" with
     | Some output =>
         add_message session_id (AIMessage output);;
         mret output
     | None => mret "⚠️ Unexpected response format from LLM agent."
     end)
    Exception
    (fun e => mret (error_message e)).
End ProcessMessage.

End Agent.

(* ===================================================================== *)
(** * [main.py] *)
(* ===================================================================== *)

Module Api.

(** [booking_models.ChatMessage] *)
Record ChatMessage := {
  message : string;
  session_id : option string;
  context : option (gmap string string)
}.

(** The body of the answer to [POST /chat]; [None] in [reply_session_id]
    is the JSON [null]. *)
Record ChatReply := {
  reply_response : string;
  reply_session_id : option string
}.

(** [booking_models.AvailabilityRequest] *)
Record AvailabilityRequest := {
  start_date : string;
  end_date : string;
  duration_minutes : Z
}.

(** [booking_models.BookingRequest], with a text for [description]. *)
Record BookingRequest := {
  title : string;
  description : string;
  start_time : string;
  end_time : string;
  attendee_email : option string
}.

(** The body of the answer to [POST /book]. *)
Record BookReply := {
  success : bool;
  event_id : option string;
  event : EventResource
}.

Section Endpoints.
Context (env : Env) (calendar_service : CalendarService.t).
Context (agent : Agent.AgentInput -> ST Agent.Runtime Agent.Response).

Definition chat_endpoint (msg : ChatMessage) : ST Agent.State ChatReply :=
  try_except
    (response ← Agent.process_message env agent
                  (message msg) (session_id msg) (context msg);
     mret {| reply_response := response;
             reply_session_id := session_id msg |})
    Exception
    (fun e => lift (Raise (Exn HTTPException (exn_str e)))).

(** [DELETE /events/{event_id}]: the value of ["success"]. *)
Definition cancel_event (event_id : string) : M bool :=
  try_except
    (CalendarService.delete_event env calendar_service event_id)
    Exception
    (fun e => lift (Raise (Exn HTTPException (exn_str e)))).

(** [POST /availability]: the value of ["availability"]. *)
Definition check_availability (request : AvailabilityRequest)
  : M (list CalendarService.Slot) :=
  try_except
    (CalendarService.get_availability env calendar_service
       (start_date request) (end_date request) (duration_minutes request))
    Exception
    (fun e => lift (Raise (Exn HTTPException (exn_str e)))).

(** [POST /book] *)
Definition book_appointment (booking : BookingRequest) : M BookReply :=
  try_except
    (event ← CalendarService.create_event env calendar_service
               (title booking) (description booking)
               (start_time booking) (end_time booking) (attendee_email booking);
     mret {| success := true; event_id := er_id event; event := event |})
    Exception
    (fun e => lift (Raise (Exn HTTPException (exn_str e)))).

(** [GET /events]: the value of ["events"]. *)
Definition get_events (start_date end_date : string)
  : M (list CalendarService.Event) :=
  try_except
    (CalendarService.get_events env calendar_service start_date end_date)
    Exception
    (fun e => lift (Raise (Exn HTTPException (exn_str e)))).
End Endpoints.

End Api.

(* ===================================================================== *)
(** * Start-up: [CalendarService.__init__] and [AIBookingAgent._initialize_llm] *)
(* ===================================================================== *)

Module Startup.

(** The truth value of [os.getenv(name)]: set, and not empty. *)
Definition truthy (value : option string) : bool :=
  match value with
  | Some s => negb (String.eqb s "")
  | None => false
  end.

(** ** The calendar client *)

(** The credentials loaded from the text of a key file, and the client
    built from them. *)
Record Credentials := { service_account_info : string }.
Record Service := { service_credentials : Credentials }.

(** The files: their contents by path. *)
Abbreviation Files := (gmap string string).

(** What start-up meets outside the program: the environment variables,
    and the libraries that decode the key, name a temporary file, read
    credentials from the text of a key file, build the client and ask the
    provider for the calendar; for the last three, the error they raise, if
    any.  Writing the temporary file is taken to succeed. *)
Record Host := {
  getenv : string -> option string;
  b64decode_utf8 : string -> result string;
  temp_name : Files -> string;
  credentials_error : string -> option exn;
  build_error : Credentials -> option exn;
  calendars_get_error : Service -> option string -> option exn
}.

Definition raise_if {S} (error : option exn) : ST S unit :=
  match error with
  | Some e => lift (Raise e)
  | None => mret ()
  end.

Section CalendarClient.
Context (host : Host).

(** [with tempfile.NamedTemporaryFile(mode='w', suffix='.json', delete=False) as f:
    f.write(text); temp_file_path = f.name] *)
Definition write_temporary_file (text : string) : ST Files string :=
  fun files =>
    let path := temp_name host files in
    (Ok path, <[path := text]> files).

(** [service_account.Credentials.from_service_account_file(path, scopes=...)] *)
Definition from_service_account_file (path : string) : ST Files Credentials :=
  fun files =>
    match files !! path with
    | None =>
        (Raise (Exn OtherException
                  ("[Errno 2] No such file or directory: '" +:+ path +:+ "'")),
         files)
    | Some text =>
        match credentials_error host text with
        | Some e => (Raise e, files)
        | None => (Ok {| service_account_info := text |}, files)
        end
    end.

(** [os.unlink(path)] *)
Definition unlink (path : string) : ST Files unit :=
  fun files =>
    match files !! path with
    | None =>
        (Raise (Exn OtherException
                  ("[Errno 2] No such file or directory: '" +:+ path +:+ "'")),
         files)
    | Some _ => (Ok (), delete path files)
    end.

(** [os.path.exists(path)] *)
Definition path_exists (path : string) : ST Files bool :=
  fun files => (Ok (bool_decide (is_Some (files !! path))), files).

(** [service = build('calendar', 'v3', credentials=credentials)], then the
    test of the connection,
    [service.calendars().get(calendarId=self.calendar_id).execute()]. *)
Definition build_and_test (calendar_id : option string) (credentials : Credentials)
  : ST Files Service :=
  _ ← raise_if (build_error host credentials);
  let service := {| service_credentials := credentials |} in
  _ ← raise_if (calendars_get_error host service calendar_id);
  mret service.

(** The [try] block of the base64 method. *)
Definition base64_method (calendar_id : option string) (service_account_b64 : string)
  : ST Files Service :=
  service_account_json ← lift (b64decode_utf8 host service_account_b64);
  temp_file_path ← write_temporary_file service_account_json;
  credentials ← from_service_account_file temp_file_path;
  _ ← unlink temp_file_path;
  build_and_test calendar_id credentials.

Definition file_not_found (service_account_file : string) : exn :=
  Exn OtherException
    ("Service account file not found: " +:+ service_account_file
     +:+ ". Set GOOGLE_SERVICE_ACCOUNT_JSON_BASE64 environment variable or place file at "
     +:+ service_account_file).

(** The fallback of [_authenticate]: the key file. *)
Definition file_method (service_account_file : string) (calendar_id : option string)
  : ST Files Service :=
  found ← path_exists service_account_file;
  if negb found then lift (Raise (file_not_found service_account_file))
  else
    try_except
      (credentials ← from_service_account_file service_account_file;
       build_and_test calendar_id credentials)
      Exception
      (fun e => lift (Raise e)).

Definition _authenticate (service_account_file : string) (calendar_id : option string)
  : ST Files Service :=
  if negb (truthy calendar_id) then
    lift (Raise (Exn ValueError "GOOGLE_CALENDAR_ID not set in environment variables"))
  else
    let service_account_b64 := getenv host "GOOGLE_SERVICE_ACCOUNT_JSON_BASE64" in
    returned ←
      (if truthy service_account_b64 then
         try_except
           (service ← base64_method calendar_id (default "" service_account_b64);
            mret (Some service))
           Exception
           (fun e => mret None)
       else mret None);
    match returned with
    | Some service => mret service
    | None => file_method service_account_file calendar_id
    end.

(** [CalendarService()]: the attributes the methods read, and
    [self.service]. *)
Definition __init__ : ST Files (CalendarService.t * option Service) :=
  let service_account_file :=
    default "./service-account-key.json" (getenv host "GOOGLE_SERVICE_ACCOUNT_FILE") in
  let calendar_id := getenv host "GOOGLE_CALENDAR_ID" in
  try_except
    (service ← _authenticate service_account_file calendar_id;
     mret ({| CalendarService.calendar_id := calendar_id;
              CalendarService.is_available := true |}, Some service))
    Exception
    (fun e => mret ({| CalendarService.calendar_id := calendar_id;
                       CalendarService.is_available := false |}, None)).

End CalendarClient.

(** ** The language model *)

Inductive ChatClass := ChatGroq | ChatGoogleGenerativeAI | ChatOpenAI.

(** A chat model, as the keyword arguments it is made with. *)
Record ChatModel := {
  chat_class : ChatClass;
  model : string;
  temperature : string;
  api_key : option string
}.

(** The packages found when the module is imported, the environment
    variables, and the error the constructor of a chat model raises, if
    any. *)
Record LlmHost := {
  llm_getenv : string -> option string;
  GROQ_AVAILABLE : bool;
  GOOGLE_AVAILABLE : bool;
  OPENAI_AVAILABLE : bool;
  constructor_error : ChatModel -> option exn
}.

Definition construct (host : LlmHost) (llm : ChatModel) : result ChatModel :=
  match constructor_error host llm with
  | Some e => Raise e
  | None => Ok llm
  end.

(** [str(b)] *)
Definition str_bool (b : bool) : string := if b then "True" else "False".

Definition set_or_not (value : option string) : string :=
  if truthy value then "✅ Set" else "❌ Not set".

Definition no_llm_message (host : LlmHost) : string :=
"
🚫 No valid LLM API key found! 

Please set one of the following environment variables in your .env file:

1. GROQ_API_KEY (Recommended, Free) - https://console.groq.com/
2. GOOGLE_API_KEY (Free Tier) - https://makersuite.google.com/app/apikey
3. OPENAI_API_KEY (Paid) - https://platform.openai.com/api-keys

Available packages:
- Groq: " +:+ str_bool (GROQ_AVAILABLE host) +:+ "
- Google: " +:+ str_bool (GOOGLE_AVAILABLE host) +:+ "  
- OpenAI: " +:+ str_bool (OPENAI_AVAILABLE host) +:+ "

Current environment variables:
- GROQ_API_KEY: " +:+ set_or_not (llm_getenv host "GROQ_API_KEY") +:+ "
- GOOGLE_API_KEY: " +:+ set_or_not (llm_getenv host "GOOGLE_API_KEY") +:+ "
- OPENAI_API_KEY: " +:+ set_or_not (llm_getenv host "OPENAI_API_KEY") +:+ "
        ".

(** [try: return <constructor>(...) / except Exception: print(...)], then
    the end of the [if] chain: the [raise] at the end of the method. *)
Definition _initialize_llm (host : LlmHost) : result ChatModel :=
  let no_llm := Raise (Exn ValueError (no_llm_message host)) in
  if GROQ_AVAILABLE host && truthy (llm_getenv host "GROQ_API_KEY") then
    match construct host {| chat_class := ChatGroq;
                            model := "llama3-70b-8192";
                            temperature := "0.7";
                            api_key := llm_getenv host "GROQ_API_KEY" |} with
    | Ok llm => Ok llm
    | Raise e => no_llm
    end
  else if GOOGLE_AVAILABLE host && truthy (llm_getenv host "GOOGLE_API_KEY") then
    match construct host {| chat_class := ChatGoogleGenerativeAI;
                            model := "gemini-pro";
                            temperature := "0.7";
                            api_key := llm_getenv host "GOOGLE_API_KEY" |} with
    | Ok llm => Ok llm
    | Raise e => no_llm
    end
  else if OPENAI_AVAILABLE host && truthy (llm_getenv host "OPENAI_API_KEY") then
    match construct host {| chat_class := ChatOpenAI;
                            model := "gpt-3.5-turbo";
                            temperature := "0.7";
                            api_key := llm_getenv host "OPENAI_API_KEY" |} with
    | Ok llm => Ok llm
    | Raise e => no_llm
    end
  else no_llm.

End Startup.

(* ===================================================================== *)
(** * Scenarios *)
(* ===================================================================== *)

Module Scenario.
Import Datetime CalendarService.

(** 2024-06-03, a Monday, at 08:00. *)
Definition clock_reading : datetime := mk_datetime 739040 8 0 0 0 None.

Definition busy (start_ end_ : string) : GEvent :=
  {| g_id := "evt_1";
     g_summary := Some "Busy";
     g_start := {| g_dateTime := Some start_; g_date := None |};
     g_end := {| g_dateTime := Some end_; g_date := None |};
     g_description := None;
     g_attendees := None |}.

Definition created (body : EventBody) : EventResource :=
  {| er_id := Some "evt_2";
     er_summary := Some (body_summary body);
     er_description := Some (body_description body);
     er_start_dateTime := Some (fst (body_start body));
     er_end_dateTime := Some (fst (body_end body));
     er_status := Some "confirmed" |}.

(** A provider that holds [items] and accepts every request. *)
Definition calendar_with (items : list GEvent) : Env :=
  {| now := fun _ => clock_reading;
     now_timestamp := fun _ => "1717401600.0";
     execute_list := fun _ _ _ _ => Ok items;
     execute_insert := fun _ _ body => Ok (created body);
     execute_delete := fun _ _ _ => Ok () |}.

Definition refusal : exn := Exn HttpError "<HttpError 403 Forbidden>".

(** A provider that refuses every write with an [HttpError]. *)
Definition refusing_provider : Env :=
  {| now := fun _ => clock_reading;
     now_timestamp := fun _ => "1717401600.0";
     execute_list := fun _ _ _ _ => Ok [];
     execute_insert := fun _ _ _ => Raise refusal;
     execute_delete := fun _ _ _ => Raise refusal |}.

(** The busy interval from 09:30 to 10:30 of 2024-06-03. *)
Definition half_past_nine : GEvent := busy "2024-06-03T09:30:00" "2024-06-03T10:30:00".

Definition half_past_nine_interval : datetime * datetime :=
  (mk_datetime 739040 9 30 0 0 None, mk_datetime 739040 10 30 0 0 None).

(** The one-hour slot of 2024-06-03 that starts at the hour [h]. *)
Definition hourly_slot (h : Z) : Slot :=
  {| start_time := "2024-06-03T" +:+ PyString.zfill 2 h +:+ ":00:00";
     end_time := "2024-06-03T" +:+ PyString.zfill 2 (h + 1) +:+ ":00:00";
     available := true |}.

Definition live : CalendarService.t :=
  {| calendar_id := Some "primary"; is_available := true |}.

Definition offline : CalendarService.t :=
  {| calendar_id := None; is_available := false |}.

Definition fresh_world : World := {| requests := []; clock_reads := 0 |}.

Definition fresh_runtime : Agent.Runtime :=
  {| Agent.world := fresh_world; Agent.model_calls := 0 |}.

Definition fresh_state : Agent.State :=
  {| Agent.runtime := fresh_runtime; Agent.sessions := ∅ |}.

(** An agent whose answer has no ["output"]. *)
Definition silent_agent : Agent.AgentInput -> ST Agent.Runtime Agent.Response :=
  fun _ => mret ∅.

(** A model that gives an empty final answer at once. *)
Definition empty_answer_llm : Agent.LLM :=
  fun _ _ => Ok (Agent.FinalAnswer "").

(** A model that asks for the availability over and over. *)
Definition looping_llm : Agent.LLM :=
  fun _ _ => Ok (Agent.Action "check_availability" "2024-06-03 to 2024-06-04").

(** A model that answers after one look at the calendar. *)
Definition helpful_llm : Agent.LLM :=
  fun _ scratchpad =>
    match scratchpad with
    | [] => Ok (Agent.Action "check_availability" "2024-06-03 to 2024-06-04")
    | _ => Ok (Agent.FinalAnswer "Monday at 9 AM is free.")
    end.

(** A request to [POST /chat] without [session_id]. *)
Definition first_message : Api.ChatMessage :=
  {| Api.message := "hi"; Api.session_id := None; Api.context := None |}.

End Scenario.

(* ===================================================================== *)
(** * Vocabulary of the specification *)
(* ===================================================================== *)

Module Spec.
Import Datetime CalendarService.

(** The busy interval [[b0, b1)] an event of the calendar stands for. *)
Definition busy_interval (event : Event) (iv : datetime * datetime) : Prop :=
  event_datetime (ev_start_time event) = Ok (fst iv)
  /\ event_datetime (ev_end_time event) = Ok (snd iv).

(** Overlap of the slot [[s, e)] with the busy interval [[b0, b1)]:
    [slotStart < busyEnd AND slotEnd > busyStart]. *)
Definition overlap (s e : datetime) (iv : datetime * datetime) : Prop :=
  instant s < instant (snd iv) /\ instant e > instant (fst iv).

(** The four ways a busy interval lies across a slot. *)
Definition contains_slot (s e : datetime) (iv : datetime * datetime) : Prop :=
  instant (fst iv) <= instant s /\ instant e <= instant (snd iv).

Definition overlaps_left (s e : datetime) (iv : datetime * datetime) : Prop :=
  instant (fst iv) < instant s /\ instant s < instant (snd iv)
  /\ instant (snd iv) < instant e.

Definition overlaps_right (s e : datetime) (iv : datetime * datetime) : Prop :=
  instant s < instant (fst iv) /\ instant (fst iv) < instant e
  /\ instant e < instant (snd iv).

Definition matches_slot (s e : datetime) (iv : datetime * datetime) : Prop :=
  instant (fst iv) = instant s /\ instant (snd iv) = instant e.

(** Chronological order. *)
Definition earlier (a b : datetime) : Prop := instant a < instant b.

(** The candidate slot starts of one date, and of the dates from [first]
    to [last]: on weekdays, at the full hours from 9 to 16. *)
Definition day_candidates (d : Z) : list datetime :=
  if weekday d <? 5 then combine_hour d <$> range 9 17 else [].

Definition candidates (first last : Z) : list datetime :=
  range first (last + 1) ≫= day_candidates.

Definition is_candidate (first last : Z) (c : datetime) : Prop :=
  exists d h, c = combine_hour d h
              /\ first <= d <= last /\ weekday d < 5 /\ 9 <= h < 17.

(** The slot dictionary of the slot that starts at [c]. *)
Definition slot_of (duration_minutes : Z) (c : datetime) (slot : Slot) : Prop :=
  exists slot_end,
    add_minutes c duration_minutes = Ok slot_end /\ slot = mk_slot c slot_end.

(** The slot that starts at [c] overlaps none of the events. *)
Definition free (duration_minutes : Z) (events : list Event) (c : datetime) : Prop :=
  exists slot_end,
    add_minutes c duration_minutes = Ok slot_end
    /\ Forall (fun event => exists iv, busy_interval event iv
                                      /\ ~ overlap c slot_end iv) events.

(** A slot of the mock computation: on a weekday from [first] to [last], at
    one of the fixed hours. *)
Definition is_mock_slot (first last duration_minutes : Z) (slot : Slot) : Prop :=
  exists d h, slot_of duration_minutes (combine_hour d h) slot
              /\ first <= d <= last /\ weekday d < 5
              /\ h ∈ [9; 11; 14; 16].

(** The check the code makes of the slot that starts at [c]. *)
Definition passes_check (duration_minutes : Z) (events : list Event)
           (c : datetime) : bool :=
  match add_minutes c duration_minutes with
  | Ok slot_end =>
      match slot_is_available c slot_end events with
      | Ok verdict => verdict
      | Raise _ => false
      end
  | Raise _ => false
  end.

End Spec.

(* ===================================================================== *)
(** * Vocabulary of the agent's properties *)
(* ===================================================================== *)

Module AgentSpec.
Import Agent.

(** The session an invocation of [process_message] works on: the one
    named by the caller, or the one named after the next clock reading. *)
Definition session_key (env : Env) (session_id : option string) (s : State) : string :=
  let generated :=
    "session_" +:+ now_timestamp env (clock_reads (world (runtime s))) in
  match session_id with
  | Some given => if String.eqb given "" then generated else given
  | None => generated
  end.

(** The turns [process_message] shows the model: the last 6. *)
Definition recent (turns : list Message) : list Message :=
  drop (length turns - 6) turns.

(** The notice [process_message] returns when the agent's answer has no
    ["output"]. *)
Definition unexpected_format : string :=
  "⚠️ Unexpected response format from LLM agent.".

End AgentSpec.

(* ===================================================================== *)
(** * Vocabulary of the further properties *)
(* ===================================================================== *)

Module Conversation.
Import Datetime Agent AgentSpec.

(** The number of clock readings [process_message] makes before it asks the
    agent: one for the date, and one more when it has to name the session. *)
Definition readings_before_call (session_id : option string) : nat :=
  match session_id with
  | Some given => if String.eqb given "" then 2 else 1
  | None => 2
  end.

(** The runtime in which [process_message] asks the agent. *)
Definition runtime_at_call (session_id : option string) (s : State) : Runtime :=
  {| world := Nat.iter (readings_before_call session_id) tick (world (runtime s));
     model_calls := model_calls (runtime s) |}.

(** What [process_message] asks the agent with. *)
Definition agent_inputs (env : Env) (message : string) (session_id : option string)
           (s : State) : AgentInput :=
  {| input := message;
     chat_history :=
       render_history (recent (transcript s (session_key env session_id s))) "";
     current_date :=
       strftime_ymd
         (now env (clock_reads (world (runtime s))
                   + (readings_before_call session_id - 1))%nat) |}.

(** The sessions once the session [sid] is sure to exist. *)
Definition with_session (sid : string) (store : gmap string (list Message))
  : gmap string (list Message) :=
  match store !! sid with
  | Some _ => store
  | None => <[sid := []]> store
  end.

(** The generic text of an error. *)
Definition apology (e : exn) : string :=
  "I apologize, but I encountered an error: " +:+ exn_str e.

End Conversation.

Module ToolSpec.
Import Datetime CalendarService Agent.

(** A time of a booking as the tool hands it on: with midnight added when it
    has no ["T"]. *)
Definition midnight_padded (t : string) : string :=
  if negb (PyString.contains "T" t) then t +:+ "T00:00:00" else t.

(** The text of a booking made of the given fields. *)
Definition booking_text (fields : list string) : string := PyString.join "|" fields.

(** A field of a booking: a text without the separator. *)
Definition is_field (f : string) : Prop := PyString.find_char "|" f = None.

Definition demo_booking_note : string :=
  nl +:+ nl +:+ "📝 Note: This is a demo booking (Google Calendar not connected)".

(** The text of a booking that went through. *)
Definition booked_text (self : CalendarService.t) (event : EventResource) : string :=
  "✅ Appointment booked successfully! Event ID: " +:+ default "None" (er_id event)
  +:+ (if negb (is_available self) then demo_booking_note else "").

Definition booking_error_text (e : exn) : string :=
  "Error booking appointment: " +:+ exn_str e.

(** An insert request with ISO times. *)
Definition is_iso (t : string) : Prop := exists dt, fromisoformat t = Ok dt.

Definition well_timed (r : Request) : Prop :=
  match r with
  | EventsInsert _ body =>
      is_iso (fst (body_start body)) /\ is_iso (fst (body_end body))
  | _ => False
  end.

Definition no_events_text : string :=
  "No existing events found for the specified date range.".

Definition no_events_note : string :=
  nl +:+ nl +:+ "📝 Note: No events shown (Google Calendar not connected)".

End ToolSpec.

Module MockGrid.
Import Datetime CalendarService.

(** The slot starts of the mock computation on one date, and on the dates
    from [first] to [last]: on weekdays, at 9, 11, 14 and 16. *)
Definition mock_day_candidates (d : Z) : list datetime :=
  if weekday d <? 5 then combine_hour d <$> [9; 11; 14; 16] else [].

Definition mock_candidates (first last : Z) : list datetime :=
  range first (last + 1) ≫= mock_day_candidates.

End MockGrid.

Module ToolText.
Import Datetime CalendarService Agent.

(** The numbered lines of the availability tool for the slots that start
    at [starts], added to [text], the first with the number [i]. *)
Fixpoint slot_lines (i : nat) (starts : list datetime) (text : string) : string :=
  match starts with
  | [] => text
  | c :: rest =>
      slot_lines (S i) rest (text +:+ pretty i +:+ ". " +:+ strftime_slot c +:+ nl)
  end.

Definition demo_availability_note : string :=
  nl +:+ nl +:+ "📝 Note: Showing demo availability (Google Calendar not connected)".

(** The answer of the availability tool for the slots that start at
    [starts]. *)
Definition availability_text (self : CalendarService.t) (starts : list datetime)
  : string :=
  match starts with
  | [] => "No available slots found for the specified date range."
  | _ =>
      slot_lines 1 (take 10 starts) ("Available time slots:" +:+ nl)
      +:+ (if negb (is_available self) then demo_availability_note else "")
  end.

(** A naive [datetime] the library can hold. *)
Definition is_naive_datetime (dt : datetime) : Prop :=
  1 <= toordinal dt <= _MAXORDINAL
  /\ 0 <= hour dt <= 23 /\ 0 <= minute dt <= 59 /\ 0 <= second dt <= 59
  /\ 0 <= microsecond dt <= 999999 /\ tzinfo dt = None.

(** Midnight of a date. *)
Definition midnight (d : Z) : datetime := mk_datetime d 0 0 0 0 None.

End ToolText.

Module StartSpec.
Import Startup.

(** A client that has been built and has passed the test of the
    connection for the calendar. *)
Definition tested (host : Host) (calendar_id : option string) (service : Service)
  : Prop :=
  build_error host (service_credentials service) = None
  /\ calendars_get_error host service calendar_id = None.

End StartSpec.

Module LlmSpec.
Import Startup.

(** The name of the variable that holds the key of a provider. *)
Definition key_name (c : ChatClass) : string :=
  match c with
  | ChatGroq => "GROQ_API_KEY"
  | ChatGoogleGenerativeAI => "GOOGLE_API_KEY"
  | ChatOpenAI => "OPENAI_API_KEY"
  end.

Definition package_found (host : LlmHost) (c : ChatClass) : bool :=
  match c with
  | ChatGroq => GROQ_AVAILABLE host
  | ChatGoogleGenerativeAI => GOOGLE_AVAILABLE host
  | ChatOpenAI => OPENAI_AVAILABLE host
  end.

(** A provider that can be chosen: its package is there and its key is
    set. *)
Definition eligible (host : LlmHost) (c : ChatClass) : bool :=
  package_found host c && truthy (llm_getenv host (key_name c)).

(** The order of preference: Groq, Google, OpenAI. *)
Definition rank (c : ChatClass) : nat :=
  match c with
  | ChatGroq => 0
  | ChatGoogleGenerativeAI => 1
  | ChatOpenAI => 2
  end.

(** The preferred provider among those that can be chosen. *)
Definition first_choice (host : LlmHost) (c : ChatClass) : Prop :=
  eligible host c = true
  /\ forall c', (rank c' < rank c)%nat -> eligible host c' = false.

End LlmSpec.

Module Outage.
Import Datetime CalendarService.

(** A provider whose event list cannot be read: every list request fails
    with an [HttpError]. *)
Definition unreadable_calendar : Env :=
  {| now := fun _ => Scenario.clock_reading;
     now_timestamp := fun _ => "1717401600.0";
     execute_list := fun _ _ _ _ => Raise Scenario.refusal;
     execute_insert := fun _ _ body => Ok (Scenario.created body);
     execute_delete := fun _ _ _ => Ok () |}.

Definition broken_transport : exn := Exn OtherException "Connection reset by peer".

(** A provider that cannot be reached: every list request fails with an
    error of the transport. *)
Definition unreachable_provider : Env :=
  {| now := fun _ => Scenario.clock_reading;
     now_timestamp := fun _ => "1717401600.0";
     execute_list := fun _ _ _ _ => Raise broken_transport;
     execute_insert := fun _ _ body => Ok (Scenario.created body);
     execute_delete := fun _ _ _ => Ok () |}.

(** An agent that greets, whatever it is asked. *)
Definition greeting_agent : Agent.AgentInput -> ST Agent.Runtime Agent.Response :=
  fun _ => mret {["output" := "Hello!"]}.

(** A booking of four fields. *)
Definition standup : list string :=
  ["Standup"; "Daily sync"; "2024-06-03T09:00:00"; "2024-06-03T10:00:00"].

Definition bad_key : exn :=
  Exn ValueError "Service account info was not in the expected format".

(** A host with a calendar identifier and a base64 key that decodes to a
    text that holds no credentials; there is no key file. *)
Definition host_with_bad_key : Startup.Host :=
  {| Startup.getenv := fun name =>
       if String.eqb name "GOOGLE_CALENDAR_ID" then Some "primary"
       else if String.eqb name "GOOGLE_SERVICE_ACCOUNT_JSON_BASE64" then Some "e30="
       else None;
     Startup.b64decode_utf8 := fun _ => Ok "{}";
     Startup.temp_name := fun _ => "/tmp/tmpk3y5a1t2.json";
     Startup.credentials_error := fun _ => Some bad_key;
     Startup.build_error := fun _ => None;
     Startup.calendars_get_error := fun _ _ => None |}.

(** A host with the keys of Groq and of Google, on which the constructor
    of the Groq model fails. *)
Definition groq_fails : Startup.LlmHost :=
  {| Startup.llm_getenv := fun name =>
       if String.eqb name "GROQ_API_KEY" then Some "gsk_1"
       else if String.eqb name "GOOGLE_API_KEY" then Some "AIza_1"
       else None;
     Startup.GROQ_AVAILABLE := true;
     Startup.GOOGLE_AVAILABLE := true;
     Startup.OPENAI_AVAILABLE := true;
     Startup.constructor_error := fun llm =>
       match Startup.chat_class llm with
       | Startup.ChatGroq => Some (Exn OtherException "Invalid API Key")
       | _ => None
       end |}.

(** A provider with a clock whose readings all have different texts. *)
Definition ticking_clock : Env :=
  {| now := fun _ => Scenario.clock_reading;
     now_timestamp := fun n => pretty n;
     execute_list := fun _ _ _ _ => Ok [];
     execute_insert := fun _ _ body => Ok (Scenario.created body);
     execute_delete := fun _ _ _ => Ok () |}.

End Outage.

Module RangeText.
Import Agent.

(** The text of a range as [parse_date_range] looks at it: stripped, and
    without quotes. *)
Definition cleaned (input_str : string) : string :=
  PyString.replace "'" "" (PyString.replace double_quote "" (PyString.strip input_str)).

(** A text that does not hold ["to"]. *)
Definition has_no_to (s : string) : Prop := PyString.contains "to" s = false.

End RangeText.

Module EventText.
Import Datetime CalendarService Agent ToolText.

(** The lines of the events tool for events given by their title and the
    time of their start, added to [text]. *)
Fixpoint event_lines (events : list (string * datetime)) (text : string) : string :=
  match events with
  | [] => text
  | (title, start) :: rest =>
      event_lines rest
        (text +:+ "• " +:+ title +:+ " - " +:+ strftime_slot start +:+ nl)
  end.

(** An item of the provider that starts at the whole second [start] of the
    calendar, written in ISO form with or without the final [Z]. *)
Definition starts_at (item : GEvent) (start : datetime) : Prop :=
  is_naive_datetime start /\ microsecond start = 0
  /\ (g_dateTime (g_start item) = Some (isoformat start +:+ "Z")
      \/ g_dateTime (g_start item) = Some (isoformat start)).

Definition title_of (item : GEvent) : string := default "No Title" (g_summary item).

End EventText.

(* ===================================================================== *)
(** * Properties *)
(* ===================================================================== *)

(** ** The library operations on examples *)

Section LibraryExamples.
Import Datetime.

Example split_on_pipe :
  PyString.split "|" "Standup|Daily sync|2024-06-03|2024-06-03|a@b.com"
  = ["Standup"; "Daily sync"; "2024-06-03"; "2024-06-03"; "a@b.com"].
Proof. reflexivity. Qed.

Example split_on_to :
  PyString.split "to" "2024-06-03 to 2024-06-10" = ["2024-06-03 "; " 2024-06-10"].
Proof. reflexivity. Qed.

Example split_on_every_to :
  PyString.split "to" "today to tomorrow" = [""; "day "; " "; "morrow"].
Proof. reflexivity. Qed.

Example strip_both_ends : PyString.strip "  a b  " = "a b".
Proof. reflexivity. Qed.

Example replace_Z :
  PyString.replace "Z" "+00:00" "2024-06-03T09:30:00Z" = "2024-06-03T09:30:00+00:00".
Proof. reflexivity. Qed.

Example fromisoformat_date :
  fromisoformat "2024-06-03" = Ok (mk_datetime 739040 0 0 0 0 None).
Proof. vm_compute. reflexivity. Qed.

Example fromisoformat_offset :
  fromisoformat "2024-06-03T09:30:00+00:00"
  = Ok (mk_datetime 739040 9 30 0 0 (Some 0)).
Proof. vm_compute. reflexivity. Qed.

Example fromisoformat_rejects_Z :
  fromisoformat "2024-06-03T09:30:00Z"
  = Raise (invalid_isoformat "2024-06-03T09:30:00Z").
Proof. vm_compute. reflexivity. Qed.

Example fromisoformat_rejects_day :
  fromisoformat "2023-02-29" = Raise (invalid_isoformat "2023-02-29").
Proof. vm_compute. reflexivity. Qed.

Example isoformat_slot : isoformat (combine_hour 739040 9) = "2024-06-03T09:00:00".
Proof. vm_compute. reflexivity. Qed.

Example strftime_slot_afternoon :
  strftime_slot (combine_hour 739040 14) = "Monday, June 03 at 02:00 PM".
Proof. vm_compute. reflexivity. Qed.

Example last_day : _ymd2ord 9999 12 31 = _MAXORDINAL /\ _ord2ymd _MAXORDINAL = (9999, 12, 31).
Proof. split; vm_compute; reflexivity. Qed.

Example add_minutes_across_midnight :
  add_minutes (mk_datetime 739040 23 30 0 0 None) 45
  = Ok (mk_datetime 739041 0 15 0 0 None).
Proof. vm_compute. reflexivity. Qed.

End LibraryExamples.

(** ** Arithmetic of [datetime] values *)

Section DatetimeFacts.
Import Datetime.

Lemma instant_combine_hour d h :
  instant (combine_hour d h) = d * US_PER_DAY + h * 3600000000.
Proof. unfold instant, us_of_day, combine_hour; simpl. lia. Qed.

(** Adding a [timedelta] of [m] minutes moves the instant by [m] minutes. *)
Lemma add_minutes_instant dt m dt' :
  add_minutes dt m = Ok dt' -> instant dt' = instant dt + m * 60000000.
Proof.
  unfold add_minutes. set (total := instant dt + m * 60000000).
  case_match; [|discriminate]. intros [= <-].
  unfold instant at 1. unfold us_of_day, US_PER_DAY in *; simpl.
  pose proof (Z.div_mod total 86400000000 ltac:(lia)) as Ht.
  set (rest := total mod 86400000000) in *.
  assert (Hr : rest / 60000000 = rest / 1000000 / 60)
    by (rewrite Z.div_div by lia; reflexivity).
  assert (Hh : rest / 3600000000 = rest / 1000000 / 60 / 60)
    by (rewrite !Z.div_div by lia; reflexivity).
  rewrite Hh, Hr.
  pose proof (Z.div_mod rest 1000000 ltac:(lia)).
  pose proof (Z.div_mod (rest / 1000000) 60 ltac:(lia)).
  pose proof (Z.div_mod (rest / 1000000 / 60) 60 ltac:(lia)).
  assert (0 <= rest < 86400000000) by (apply Z.mod_pos_bound; lia).
  assert (0 <= rest / 1000000 / 60 / 60 < 24).
  { split; [repeat apply Z.div_pos; lia|].
    repeat (apply Z.div_lt_upper_bound; [lia|]). lia. }
  assert (Hm : rest / 1000000 / 60 / 60 mod 60 = rest / 1000000 / 60 / 60)
    by (apply Z.mod_small; lia).
  lia.
Qed.

Lemma date_add_days_Ok d n d' : date_add_days d n = Ok d' -> d' = d + n.
Proof. unfold date_add_days. case_match; congruence. Qed.

Lemma ltb_lt a b : ltb a b = true <-> instant a < instant b.
Proof. unfold ltb. apply Z.ltb_lt. Qed.

Lemma gtb_gt a b : gtb a b = true <-> instant a > instant b.
Proof. unfold gtb. rewrite Z.ltb_lt. lia. Qed.
End DatetimeFacts.

(** ** Conflict detection *)

Section Conflicts.
Import Datetime CalendarService Spec.

Lemma overlaps_overlap s e iv :
  overlaps s e (fst iv) (snd iv) = true <-> overlap s e iv.
Proof.
  unfold overlaps, overlap. rewrite andb_true_iff, ltb_lt, gtb_gt. reflexivity.
Qed.

(** When every event gives a busy interval, the loop over the events
    computes the conjunction of the negated overlap tests. *)
Lemma slot_is_available_parsed s e events intervals :
  Forall2 busy_interval events intervals ->
  slot_is_available s e events
  = Ok (forallb (fun iv => negb (overlaps s e (fst iv) (snd iv))) intervals).
Proof.
  induction 1 as [|event iv events intervals [Hs He] _ IH]; [reflexivity|].
  cbn [slot_is_available forallb]. rewrite Hs, He. cbn.
  destruct (overlaps s e (fst iv) (snd iv)); [reflexivity|exact IH].
Qed.

Lemma forallb_no_overlap s e intervals :
  forallb (fun iv => negb (overlaps s e (fst iv) (snd iv))) intervals = true
  <-> Forall (fun iv => ~ overlap s e iv) intervals.
Proof.
  rewrite forallb_forall, List.Forall_forall.
  split; intros H iv Hin; specialize (H iv Hin).
  - rewrite <- overlaps_overlap. destruct (overlaps _ _ _ _); [discriminate|congruence].
  - rewrite <- overlaps_overlap in H. destruct (overlaps _ _ _ _); [congruence|reflexivity].
Qed.

(** C1: in the availability computation a candidate slot [[s, s+duration)]
    is marked available (appended to the slots) exactly when it overlaps no
    busy interval, the overlap of the slot with [[b0, b1)] being
    [s < b1 /\ s+duration > b0]; so a slot with [s+duration <= b0] or
    [s >= b1] for every busy interval is available, and a busy interval that
    contains the slot, overlaps it on the left or on the right, or matches
    it, makes it unavailable. *)
Theorem slot_available_iff_no_overlap :
  forall (current_date hour duration_minutes : Z) (existing_events : list Event)
         (intervals : list (datetime * datetime)) (slot_end : datetime)
         (available_slots : list Slot),
    let slot_start := combine_hour current_date hour in
    add_minutes slot_start duration_minutes = Ok slot_end ->
    Forall2 busy_interval existing_events intervals ->
    instant slot_end = instant slot_start + duration_minutes * 60000000
    /\ (exists verdict : bool,
          slot_is_available slot_start slot_end existing_events = Ok verdict
          /\ hours_loop [hour] current_date duration_minutes existing_events
                        available_slots
             = Ok (if verdict
                   then available_slots ++ [mk_slot slot_start slot_end]
                   else available_slots)
          /\ (verdict = true
              <-> Forall (fun iv => ~ overlap slot_start slot_end iv) intervals))
    /\ (Forall (fun iv => instant slot_end <= instant (fst iv)
                          \/ instant slot_start >= instant (snd iv)) intervals ->
        slot_is_available slot_start slot_end existing_events = Ok true)
    /\ (forall iv,
          In iv intervals ->
          0 < duration_minutes ->
          contains_slot slot_start slot_end iv
          \/ overlaps_left slot_start slot_end iv
          \/ overlaps_right slot_start slot_end iv
          \/ matches_slot slot_start slot_end iv ->
          slot_is_available slot_start slot_end existing_events = Ok false).
Proof.
  intros current_date hour duration existing intervals slot_end acc slot_start
         Hend Hiv.
  pose proof (add_minutes_instant _ _ _ Hend) as Hinst.
  pose proof (slot_is_available_parsed slot_start slot_end _ _ Hiv) as Hloop.
  split; [exact Hinst|]. split; [|split].
  - eexists. split; [exact Hloop|]. split.
    + cbn [hours_loop]. fold slot_start. rewrite Hend. cbn.
      rewrite Hloop. cbn. reflexivity.
    + apply forallb_no_overlap.
  - intros Hfree. rewrite Hloop. f_equal. apply forallb_no_overlap.
    eapply Forall_impl; [exact Hfree|]. unfold overlap. cbn beta. intros iv. lia.
  - intros iv Hin Hpos Hcase. rewrite Hloop. f_equal.
    apply not_true_is_false. rewrite forallb_no_overlap, List.Forall_forall.
    intros Hall. apply (Hall iv Hin).
    unfold overlap, contains_slot, overlaps_left, overlaps_right, matches_slot in *.
    lia.
Qed.

End Conflicts.

(** ** The sweep over dates and hours *)

Section Sweep.
Import Datetime CalendarService Spec.

Lemma days_loop_eq events dur last cur acc :
  days_loop events dur last cur acc =
  if decide (cur <= last) then
    slots ← day_body cur dur events acc;
    next ← date_add_days cur 1;
    days_loop events dur last next slots
  else Ok acc.
Proof.
  funelim (days_loop events dur last cur acc);
    repeat (match goal with
            | H : decide _ = _ |- _ => rewrite H
            | H : day_body _ _ _ _ = _ |- _ => rewrite H
            | H : date_add_days _ _ = _ |- _ => rewrite H
            end; cbn [mbind result_bind rbind]); reflexivity.
Qed.

Lemma range_nil a b : b <= a -> range a b = [].
Proof. intros. unfold range. apply seqZ_nil. lia. Qed.

Lemma range_cons a b : a < b -> range a b = a :: range (a + 1) b.
Proof.
  intros. unfold range. rewrite seqZ_cons by lia.
  f_equal. f_equal; lia.
Qed.

Lemma elem_of_range a b x : x ∈ range a b <-> a <= x < b.
Proof. unfold range. rewrite elem_of_seqZ. lia. Qed.

Lemma candidates_step first last :
  first <= last ->
  candidates first last = day_candidates first ++ candidates (first + 1) last.
Proof.
  intros. unfold candidates. rewrite (range_cons first) by lia. apply bind_cons.
Qed.

Lemma candidates_empty first last : last < first -> candidates first last = [].
Proof. intros. unfold candidates. rewrite range_nil by lia. reflexivity. Qed.

Lemma elem_of_candidates first last c :
  c ∈ candidates first last <-> is_candidate first last c.
Proof.
  unfold candidates, is_candidate. rewrite list_elem_of_bind. split.
  - intros (d & Hc & Hd). apply elem_of_range in Hd. unfold day_candidates in Hc.
    destruct (Z.ltb_spec (weekday d) 5) as [Hw|Hw]; [|by apply elem_of_nil in Hc].
    apply list_elem_of_fmap in Hc as (h & -> & Hh). apply elem_of_range in Hh.
    exists d, h. repeat split; lia.
  - intros (d & h & -> & Hd & Hw & Hh). exists d. split; [|apply elem_of_range; lia].
    unfold day_candidates. destruct (Z.ltb_spec (weekday d) 5); [|lia].
    apply list_elem_of_fmap. exists h. split; [reflexivity|apply elem_of_range; lia].
Qed.

(** The hours of one date come in chronological order, within the date. *)
Lemma hours_sorted d lo hi :
  0 <= lo -> hi <= 24 ->
  StronglySorted earlier (combine_hour d <$> range lo hi)
  /\ Forall (fun c => d * US_PER_DAY <= instant c < (d + 1) * US_PER_DAY)
            (combine_hour d <$> range lo hi).
Proof.
  intros Hlo Hhi. unfold range.
  remember (Z.to_nat (hi - lo)) as n eqn:Hn.
  revert lo Hlo Hn. induction n as [|n IH]; intros lo Hlo Hn.
  - rewrite seqZ_nil by lia. split; constructor.
  - rewrite seqZ_cons by lia. cbn [fmap list_fmap].
    replace (Z.pred (hi - lo)) with (hi - Z.succ lo) by lia.
    destruct (IH (Z.succ lo)) as [IHs IHb]; [lia|lia|].
    split.
    + constructor; [exact IHs|].
      apply Forall_forall. intros c Hc.
      apply list_elem_of_fmap in Hc as (h & -> & Hh). apply elem_of_seqZ in Hh.
      unfold earlier. rewrite !instant_combine_hour. lia.
    + constructor; [|exact IHb]. rewrite instant_combine_hour. unfold US_PER_DAY. lia.
Qed.


(** The loop over the events says [True] exactly when every event gives a
    busy interval that the slot does not overlap. *)
Lemma slot_is_available_true s e events :
  slot_is_available s e events = Ok true
  <-> Forall (fun event => exists iv, busy_interval event iv /\ ~ overlap s e iv)
             events.
Proof.
  induction events as [|event events IH]; cbn [slot_is_available].
  - split; [constructor|reflexivity].
  - destruct (event_datetime (ev_start_time event)) as [b0|] eqn:H0; cbn;
      [destruct (event_datetime (ev_end_time event)) as [b1|] eqn:H1; cbn|].
    + pose proof (overlaps_overlap s e (b0, b1)) as Hov. cbn [fst snd] in Hov.
      destruct (overlaps s e b0 b1).
      * split; [discriminate|]. intros Hall. inversion Hall as [|? ? (iv & [Hs He] & Hno) _].
        rewrite H0 in Hs. rewrite H1 in He. destruct iv; cbn in *; simplify_eq.
        exfalso. apply Hno, Hov. reflexivity.
      * rewrite IH. split.
        -- intros Hall. constructor; [|exact Hall].
           exists (b0, b1). split; [split; assumption|].
           intros Hbad. apply Hov in Hbad. discriminate.
        -- intros Hall. inversion Hall; assumption.
    + split; [discriminate|]. intros Hall. inversion Hall as [|? ? (iv & [Hs He] & _) _].
      congruence.
    + split; [discriminate|]. intros Hall. inversion Hall as [|? ? (iv & [Hs He] & _) _].
      congruence.
Qed.

Lemma passes_check_free dur events c :
  passes_check dur events c = true <-> free dur events c.
Proof.
  unfold passes_check, free. destruct (add_minutes c dur) as [slot_end|err].
  - split.
    + intros H. exists slot_end. split; [reflexivity|].
      apply slot_is_available_true.
      destruct (slot_is_available c slot_end events); congruence.
    + intros (e & [= <-] & H). apply slot_is_available_true in H. rewrite H.
      reflexivity.
  - split; [discriminate|]. intros (e & ? & _). discriminate.
Qed.

(** What the loop over the hours of one date adds to the slots, when it
    ends without an exception. *)
Lemma hours_loop_Ok hours d dur events acc out :
  hours_loop hours d dur events acc = Ok out ->
  exists slots,
    out = acc ++ slots
    /\ Forall2 (slot_of dur)
         (filter (fun c => passes_check dur events c = true) (combine_hour d <$> hours))
         slots.
Proof.
  revert acc. induction hours as [|h hours IH]; intros acc; cbn [hours_loop].
  - intros [= <-]. exists []. split; [by rewrite app_nil_r|constructor].
  - cbn [fmap list_fmap].
    destruct (add_minutes (combine_hour d h) dur) as [slot_end|] eqn:Hend; cbn [mbind result_bind rbind];
      [|discriminate].
    destruct (slot_is_available (combine_hour d h) slot_end events) as [verdict|] eqn:Hv;
      cbn [mbind result_bind rbind]; [|discriminate].
    intros Hrest. apply IH in Hrest as (slots & -> & Hslots).
    assert (Hcheck : passes_check dur events (combine_hour d h) = verdict)
      by (unfold passes_check; rewrite Hend, Hv; reflexivity).
    destruct verdict.
    + exists (mk_slot (combine_hour d h) slot_end :: slots).
      split; [by rewrite <- app_assoc|].
      rewrite filter_cons_True by exact Hcheck.
      constructor; [|exact Hslots]. exists slot_end. split; [exact Hend|reflexivity].
    + exists slots. split; [reflexivity|].
      rewrite filter_cons_False by (rewrite Hcheck; discriminate). exact Hslots.
Qed.

Lemma day_body_Ok d dur events acc out :
  day_body d dur events acc = Ok out ->
  exists slots,
    out = acc ++ slots
    /\ Forall2 (slot_of dur)
         (filter (fun c => passes_check dur events c = true) (day_candidates d))
         slots.
Proof.
  unfold day_body, day_candidates. destruct (weekday d <? 5).
  - apply hours_loop_Ok.
  - intros [= <-]. exists []. split; [by rewrite app_nil_r|constructor].
Qed.

(** What the sweep over the dates adds to the slots, when it ends without
    an exception: the slots of the candidates that pass the check, in the
    order of the candidates. *)
Lemma days_loop_Ok events dur last cur acc out :
  days_loop events dur last cur acc = Ok out ->
  exists slots,
    out = acc ++ slots
    /\ Forall2 (slot_of dur)
         (filter (fun c => passes_check dur events c = true) (candidates cur last))
         slots.
Proof.
  remember (Z.to_nat (last + 1 - cur)) as n eqn:Hn.
  revert cur acc Hn. induction n as [|n IH]; intros cur acc Hn;
    rewrite days_loop_eq; destruct (decide (cur <= last)) as [Hle|Hgt];
    try lia.
  - intros [= <-]. rewrite candidates_empty by lia.
    exists []. split; [by rewrite app_nil_r|constructor].
  - destruct (day_body cur dur events acc) as [slots0|] eqn:Hday; cbn [mbind result_bind rbind]; [|discriminate].
    destruct (date_add_days cur 1) as [next|] eqn:Hnext; cbn [mbind result_bind rbind]; [|discriminate].
    apply date_add_days_Ok in Hnext as ->.
    apply day_body_Ok in Hday as (today & -> & Htoday).
    intros Hrest. apply IH in Hrest as (later & -> & Hlater); [|lia].
    exists (today ++ later). split; [by rewrite <- app_assoc|].
    rewrite candidates_step, filter_app by lia. by apply Forall2_app.
Qed.

Lemma day_candidates_sorted d :
  StronglySorted earlier (day_candidates d)
  /\ Forall (fun c => d * US_PER_DAY <= instant c < (d + 1) * US_PER_DAY)
            (day_candidates d).
Proof.
  unfold day_candidates. destruct (weekday d <? 5).
  - apply hours_sorted; lia.
  - split; constructor.
Qed.

(** The candidates of a range come in chronological order. *)
Lemma candidates_sorted first last :
  StronglySorted earlier (candidates first last)
  /\ Forall (fun c => first * US_PER_DAY <= instant c) (candidates first last).
Proof.
  remember (Z.to_nat (last + 1 - first)) as n eqn:Hn.
  revert first Hn. induction n as [|n IH]; intros first Hn.
  - rewrite candidates_empty by lia. split; constructor.
  - rewrite candidates_step by lia.
    destruct (day_candidates_sorted first) as [Hs Hb].
    destruct (IH (first + 1)) as [IHs IHb]; [lia|].
    split.
    + apply StronglySorted_app. split; [|split; assumption].
      intros a b Ha Hb'. rewrite Forall_forall in Hb, IHb.
      specialize (Hb a Ha). specialize (IHb b Hb'). unfold earlier. lia.
    + apply Forall_app. split.
      * eapply Forall_impl; [exact Hb|]. cbn. intros; lia.
      * eapply Forall_impl; [exact IHb|]. cbn. unfold US_PER_DAY. intros; lia.
Qed.

Lemma StronglySorted_sublist {A} (R : relation A) (k l : list A) :
  k `sublist_of` l -> StronglySorted R l -> StronglySorted R k.
Proof.
  induction 1 as [|x k l Hsub IH|x k l Hsub IH]; intros Hl.
  - constructor.
  - apply StronglySorted_cons in Hl as [Hx Hl].
    apply StronglySorted_cons. split; [|auto].
    rewrite Forall_forall in *. intros y Hy. apply Hx.
    eapply sublist_subseteq; eassumption.
  - apply StronglySorted_cons in Hl as [_ Hl]. auto.
Qed.

End Sweep.

(** ** The result of the real availability computation *)

Section RealAvailability.
Import Datetime CalendarService Spec.

Lemma get_availability_live env self start_date end_date duration_minutes w slots w' :
  is_available self = true ->
  real_availability env self start_date end_date duration_minutes w = (Ok slots, w') ->
  get_availability env self start_date end_date duration_minutes w = (Ok slots, w').
Proof.
  intros Hlive Hreal. unfold get_availability, _check_availability.
  rewrite Hlive. cbn. unfold try_except. rewrite Hreal. reflexivity.
Qed.

(** The shape of a run of the [try] block that ends without an exception. *)
Lemma real_availability_Ok env self start_date end_date duration_minutes w slots w' :
  real_availability env self start_date end_date duration_minutes w = (Ok slots, w') ->
  exists start_dt end_dt events all_slots,
    fromisoformat start_date = Ok start_dt
    /\ fromisoformat end_date = Ok end_dt
    /\ get_events env self start_date end_date w = (Ok events, w')
    /\ days_loop events duration_minutes (date end_dt) (date start_dt) [] = Ok all_slots
    /\ slots = take 20 all_slots.
Proof.
  unfold real_availability, mbind, ST_bind, lift, mret, ST_ret.
  destruct (get_events env self start_date end_date w) as [[events|] w1]; [|discriminate].
  destruct (fromisoformat start_date) as [start_dt|]; [|discriminate].
  destruct (fromisoformat end_date) as [end_dt|]; [|discriminate].
  destruct (days_loop events duration_minutes (date end_dt) (date start_dt) [])
    as [all_slots|] eqn:Hloop; [|discriminate].
  intros [= <- <-]. exists start_dt, end_dt, events, all_slots. auto.
Qed.

(** C7: when the provider is available and the computation meets no error,
    [get_availability] returns at most 20 slots, and they are the
    chronologically first 20 available slots of the range: the returned
    slots are those of a chronologically ordered list of available
    candidates, and an available candidate that is left out comes after 20
    returned ones. *)
Theorem real_availability_first_twenty :
  forall env self start_date end_date duration_minutes w slots w',
    is_available self = true ->
    real_availability env self start_date end_date duration_minutes w = (Ok slots, w') ->
    get_availability env self start_date end_date duration_minutes w = (Ok slots, w')
    /\ (length slots <= 20)%nat
    /\ exists start_dt end_dt events chosen,
         fromisoformat start_date = Ok start_dt
         /\ fromisoformat end_date = Ok end_dt
         /\ get_events env self start_date end_date w = (Ok events, w')
         /\ Forall2 (slot_of duration_minutes) chosen slots
         /\ StronglySorted earlier chosen
         /\ Forall (fun c => is_candidate (date start_dt) (date end_dt) c
                            /\ free duration_minutes events c) chosen
         /\ forall c,
              is_candidate (date start_dt) (date end_dt) c ->
              free duration_minutes events c ->
              c ∈ chosen
              \/ (length slots = 20%nat /\ Forall (fun a => earlier a c) chosen).
Proof.
  intros env self start_date end_date dur w slots w' Hlive Hreal.
  split; [by apply get_availability_live|].
  apply real_availability_Ok in Hreal
    as (start_dt & end_dt & events & all_slots & Hs & He & Hev & Hloop & ->).
  split; [rewrite length_take; lia|].
  apply days_loop_Ok in Hloop as (found & Hall & Hfound). cbn [app] in Hall. subst found.
  set (passing := filter (fun c => passes_check dur events c = true)
                         (candidates (date start_dt) (date end_dt))) in *.
  assert (Hsorted : StronglySorted earlier passing).
  { eapply StronglySorted_sublist; [apply sublist_filter; apply _|].
    apply candidates_sorted. }
  exists start_dt, end_dt, events, (take 20 passing).
  repeat split; try assumption.
  - by apply Forall2_take.
  - eapply StronglySorted_sublist; [apply sublist_take|exact Hsorted].
  - apply Forall_forall. intros c Hc.
    apply (sublist_subseteq _ _ (sublist_take passing 20)) in Hc.
    apply list_elem_of_filter in Hc as [Hpass Hcand].
    split; [by apply elem_of_candidates|by apply passes_check_free].
  - intros c Hcand Hfree.
    assert (Hin : c ∈ passing).
    { apply list_elem_of_filter. split; [by apply passes_check_free|by apply elem_of_candidates]. }
    rewrite <- (take_drop 20 passing) in Hin, Hsorted.
    apply elem_of_app in Hin as [Hin|Hin]; [by left|right].
    split.
    + apply Forall2_length in Hfound. rewrite !length_take in *.
      assert (length (drop 20 passing) <> 0)%nat
        by (intros H0; apply nil_length_inv in H0; rewrite H0 in Hin; by apply elem_of_nil in Hin).
      rewrite length_drop in *. lia.
    + apply Forall_forall. intros a Ha.
      eapply StronglySorted_app_1_elem_of; eassumption.
Qed.

End RealAvailability.

(** ** The example of Monday 2024-06-03 *)

Section MondayExample.
Import Datetime CalendarService Spec.

(** C2: for [start_date = end_date = "2024-06-03"] (a Monday) and a duration
    of 60 minutes, the real availability computation returns exactly the 8
    slots that start at the hours 9, 10, ..., 16 of 2024-06-03 when the
    calendar holds no event; when it holds one busy interval from 09:30 to
    10:30 of that day, the slots that start at 9 and at 10 are left out, and
    the slot that starts at 11 remains. *)
Theorem monday_example :
  forall env self w,
    is_available self = true ->
    weekday (_ymd2ord 2024 6 3) = 0
    /\ (execute_list env (requests w) (calendar_id self)
          "2024-06-03T00:00:00Z" "2024-06-03T00:00:00Z" = Ok [] ->
        fst (get_availability env self "2024-06-03" "2024-06-03" 60 w)
        = Ok (Scenario.hourly_slot <$> [9; 10; 11; 12; 13; 14; 15; 16]))
    /\ (execute_list env (requests w) (calendar_id self)
          "2024-06-03T00:00:00Z" "2024-06-03T00:00:00Z"
        = Ok [Scenario.half_past_nine] ->
        fst (get_availability env self "2024-06-03" "2024-06-03" 60 w)
        = Ok (Scenario.hourly_slot <$> [11; 12; 13; 14; 15; 16])).
Proof.
  intros env self w Hlive. split; [reflexivity|].
  assert (Hs : fromisoformat "2024-06-03" = Ok (mk_datetime 739040 0 0 0 0 None))
    by (vm_compute; reflexivity).
  assert (Hiso : isoformat (mk_datetime 739040 0 0 0 0 None) +:+ "Z"
                 = "2024-06-03T00:00:00Z") by (vm_compute; reflexivity).
  split; intros Hlist;
    unfold get_availability, real_availability, get_events, _check_availability;
    rewrite Hlive; cbn [negb];
    unfold try_except, mbind, ST_bind, lift, mret, ST_ret, events_list;
    rewrite Hs, Hiso, Hlist; vm_compute; reflexivity.
Qed.

End MondayExample.

(** ** The mock availability computation *)

Section MockAvailability.
Import Datetime CalendarService Spec.

Lemma mock_days_loop_eq dur last cur acc :
  mock_days_loop dur last cur acc =
  if decide (cur <= last /\ (length acc < 10)%nat) then
    slots ← mock_day_body cur dur acc;
    next ← date_add_days cur 1;
    mock_days_loop dur last next slots
  else Ok acc.
Proof.
  funelim (mock_days_loop dur last cur acc);
    repeat (match goal with
            | H : decide _ = _ |- _ => rewrite H
            | H : mock_day_body _ _ _ = _ |- _ => rewrite H
            | H : date_add_days _ _ = _ |- _ => rewrite H
            end; cbn [mbind result_bind rbind]); reflexivity.
Qed.

Lemma mock_hours_loop_Ok first last hours d dur acc out :
  mock_hours_loop hours d dur acc = Ok out ->
  first <= d <= last -> weekday d < 5 ->
  Forall (fun h => h ∈ [9; 11; 14; 16]) hours ->
  Forall (is_mock_slot first last dur) acc ->
  Forall (is_mock_slot first last dur) out.
Proof.
  intros Hrun Hd Hw. revert acc Hrun.
  induction hours as [|h hours IH]; intros acc; cbn [mock_hours_loop].
  - intros [= <-] _ Hacc. exact Hacc.
  - destruct (add_minutes (combine_hour d h) dur) as [slot_end|] eqn:Hend;
      cbn [mbind result_bind rbind]; [|discriminate].
    intros Hrest Hhours Hacc. inversion Hhours as [|? ? Hh Hhours']; subst.
    apply (IH _ Hrest Hhours'). apply Forall_app. split; [exact Hacc|].
    constructor; [|constructor].
    exists d, h. split; [|auto]. exists slot_end. auto.
Qed.

Lemma mock_day_body_Ok first last d dur acc out :
  mock_day_body d dur acc = Ok out ->
  first <= d <= last ->
  Forall (is_mock_slot first last dur) acc ->
  Forall (is_mock_slot first last dur) out.
Proof.
  unfold mock_day_body. destruct (Z.ltb_spec (weekday d) 5) as [Hw|Hw].
  - intros Hrun Hd. eapply mock_hours_loop_Ok; try eassumption.
    repeat constructor; set_solver.
  - intros [= <-] _ Hacc. exact Hacc.
Qed.

Lemma mock_days_loop_Ok first last dur cur acc out :
  mock_days_loop dur last cur acc = Ok out ->
  first <= cur ->
  Forall (is_mock_slot first last dur) acc ->
  Forall (is_mock_slot first last dur) out.
Proof.
  remember (Z.to_nat (last + 1 - cur)) as n eqn:Hn.
  revert cur acc Hn. induction n as [|n IH]; intros cur acc Hn;
    rewrite mock_days_loop_eq;
    destruct (decide (cur <= last /\ (length acc < 10)%nat)) as [[Hle Hlen]|Hstop];
    try lia; try (intros [= <-] _ Hacc; exact Hacc).
  destruct (mock_day_body cur dur acc) as [slots|] eqn:Hday;
    cbn [mbind result_bind rbind]; [|discriminate].
  destruct (date_add_days cur 1) as [next|] eqn:Hnext;
    cbn [mbind result_bind rbind]; [|discriminate].
  apply date_add_days_Ok in Hnext as ->.
  intros Hrest Hfirst Hacc. apply (IH (cur + 1) slots); [lia|exact Hrest|lia|].
  eapply mock_day_body_Ok; try eassumption. lia.
Qed.

(** C6: the mock availability computation is a function of
    [(start_date, end_date, duration_minutes)] alone: it depends neither on
    the service object, nor on the provider, the clock or the state of the
    world, which it leaves untouched; every slot it gives starts at one of
    the hours 9, 11, 14, 16 of a weekday of the range; and it gives at most
    10 slots. *)
Theorem mock_availability_deterministic_capped :
  forall self start_date end_date duration_minutes,
    (forall self',
        _get_mock_availability self' start_date end_date duration_minutes
        = _get_mock_availability self start_date end_date duration_minutes)
    /\ (forall env w,
          is_available self = false ->
          get_availability env self start_date end_date duration_minutes w
          = (_get_mock_availability self start_date end_date duration_minutes, w))
    /\ (forall slots,
          _get_mock_availability self start_date end_date duration_minutes = Ok slots ->
          (length slots <= 10)%nat
          /\ exists start_dt end_dt,
               fromisoformat start_date = Ok start_dt
               /\ fromisoformat end_date = Ok end_dt
               /\ Forall (is_mock_slot (date start_dt) (date end_dt) duration_minutes)
                         slots).
Proof.
  intros self start_date end_date dur. split; [reflexivity|]. split.
  - intros env w Hoff. unfold get_availability, _check_availability.
    rewrite Hoff. reflexivity.
  - intros slots. unfold _get_mock_availability.
    destruct (fromisoformat start_date) as [start_dt|];
      cbn [mbind result_bind rbind]; [|discriminate].
    destruct (fromisoformat end_date) as [end_dt|];
      cbn [mbind result_bind rbind]; [|discriminate].
    destruct (mock_days_loop dur (date end_dt) (date start_dt) []) as [all_slots|] eqn:Hloop;
      cbn [mbind result_bind rbind]; [|discriminate].
    intros [= <-]. split; [rewrite length_take; lia|].
    exists start_dt, end_dt. repeat split.
    apply Forall_take. eapply mock_days_loop_Ok; [exact Hloop|lia|constructor].
Qed.

End MockAvailability.

(** ** Creating and deleting events *)

Section ProviderFailures.
Import Datetime CalendarService.

(** C10: when the provider is unavailable, [delete_event] returns [True]
    for every event id, and sends nothing to any backend: the world is left
    as it was. *)
Theorem delete_event_offline_reports_success :
  forall env self event_id w,
    is_available self = false ->
    delete_event env self event_id w = (Ok true, w).
Proof.
  intros env self event_id w Hoff. unfold delete_event, _check_availability.
  rewrite Hoff. reflexivity.
Qed.

(** C5, as the code has it: with the provider available, an [HttpError] of
    the insert request is raised again by [create_event], to its caller; an
    [HttpError] of the delete request is not: [delete_event] catches it and
    reports the failure by returning [False].  Errors of other classes pass
    through both.  With the provider unavailable from the start, neither
    raises: [create_event] returns a mock event and [delete_event] [True]. *)
Theorem provider_failure_create_raises_delete_returns_false :
  forall env self w e,
    is_available self = true ->
    (forall title description start_time end_time attendee_email,
        let body := insert_body self title description start_time end_time
                                attendee_email in
        execute_insert env (requests w) (calendar_id self) body = Raise e ->
        create_event env self title description start_time end_time attendee_email w
        = (Raise e, sent (EventsInsert (calendar_id self) body) w))
    /\ (forall event_id,
          execute_delete env (requests w) (calendar_id self) event_id = Raise e ->
          delete_event env self event_id w
          = (if is_HttpError e then Ok false else Raise e,
             sent (EventsDelete (calendar_id self) event_id) w))
    /\ (forall offline title description start_time end_time attendee_email event_id,
          is_available offline = false ->
          (exists event,
              create_event env offline title description start_time end_time
                           attendee_email w = (Ok event, tick w)
              /\ er_status event = Some "mock_created")
          /\ delete_event env offline event_id w = (Ok true, w)).
Proof.
  intros env self w e Hlive. split; [|split].
  - intros title description start_time end_time attendee_email body Hfail.
    unfold create_event, _check_availability. rewrite Hlive. cbn [negb].
    unfold try_except, mbind, ST_bind, events_insert. fold body. rewrite Hfail.
    destruct (is_HttpError e); reflexivity.
  - intros event_id Hfail.
    unfold delete_event, _check_availability. rewrite Hlive. cbn [negb].
    unfold try_except, mbind, ST_bind, events_delete. rewrite Hfail.
    destruct (is_HttpError e); reflexivity.
  - intros offline title description start_time end_time attendee_email event_id Hoff.
    split.
    + unfold create_event, _check_availability. rewrite Hoff. cbn [negb].
      eexists. split; reflexivity.
    + unfold delete_event, _check_availability. rewrite Hoff. reflexivity.
Qed.

(** C5 as stated fails for [delete_event]: the provider is available, the
    delete request fails with an [HttpError], and [delete_event] returns
    [False] instead of raising. *)
Lemma delete_event_swallows_HttpError :
  is_available Scenario.live = true
  /\ execute_delete Scenario.refusing_provider (requests Scenario.fresh_world)
       (calendar_id Scenario.live) "evt_1"
     = Raise Scenario.refusal
  /\ is_HttpError Scenario.refusal = true
  /\ fst (delete_event Scenario.refusing_provider Scenario.live "evt_1"
                       Scenario.fresh_world)
     = Ok false
  /\ fst (delete_event Scenario.refusing_provider Scenario.live "evt_1"
                       Scenario.fresh_world)
     <> Raise Scenario.refusal.
Proof. repeat split; try discriminate; vm_compute; reflexivity. Qed.

End ProviderFailures.

(** ** The tool adapters *)

Section ToolBoundary.
Import Datetime CalendarService Agent.

Lemma prefix_append p s : String.prefix p (p +:+ s) = true.
Proof.
  induction p as [|c p IH]; simpl.
  - destruct s; reflexivity.
  - destruct (ascii_dec c c); [exact IH|congruence].
Qed.

(** A [try] block with an [except Exception] clause that returns a value
    gives a value, whatever the block does. *)
Lemma catch_all_returns {S A} (body : ST S A) (handler : exn -> A) (s : S) :
  try_except body Exception (fun e => mret (handler e)) s
  = match body s with
    | (Ok a, s') => (Ok a, s')
    | (Raise e, s') => (Ok (handler e), s')
    end.
Proof. unfold try_except. destruct (body s) as [[a|e] s']; reflexivity. Qed.

Lemma catch_all_never_raises {S A} (body : ST S A) (handler : exn -> A) (s : S) :
  exists a s', try_except body Exception (fun e => mret (handler e)) s = (Ok a, s').
Proof.
  rewrite catch_all_returns. destruct (body s) as [[a|e] s']; eauto.
Qed.

(** C3: each of the three tools returns a text for every input text and in
    every state of the world, and raises nothing; an exception raised inside
    a tool becomes the text that starts with ["Error checking
    availability:"], ["Error booking appointment:"] or ["Error getting
    events:"]; and [book_appointment], given fewer than 4 fields separated
    by [|], as in ["OnlyTitle"], returns a text that starts with ["Invalid
    booking format"]. *)
Theorem tools_never_raise :
  forall env calendar_service (text : string) (w : World),
    (forall tool,
        tool ∈ _create_tools env calendar_service ->
        exists answer w', func tool text w = (Ok answer, w'))
    /\ (forall e w',
          check_availability_try env calendar_service text w = (Raise e, w') ->
          check_availability_tool env calendar_service text w
          = (Ok ("Error checking availability: " +:+ exn_str e), w'))
    /\ (forall e w',
          book_appointment_try env calendar_service text w = (Raise e, w') ->
          book_appointment_tool env calendar_service text w
          = (Ok ("Error booking appointment: " +:+ exn_str e), w'))
    /\ (forall e w',
          get_existing_events_try env calendar_service text w = (Raise e, w') ->
          get_existing_events_tool env calendar_service text w
          = (Ok ("Error getting events: " +:+ exn_str e), w'))
    /\ ((length (PyString.split "|" text) < 4)%nat ->
        exists answer,
          book_appointment_tool env calendar_service text w = (Ok answer, w)
          /\ String.prefix "Invalid booking format" answer = true)
    /\ (exists answer,
          book_appointment_tool env calendar_service "OnlyTitle" w = (Ok answer, w)
          /\ String.prefix "Invalid booking format" answer = true).
Proof.
  intros env cs text w.
  assert (Hshort : forall t,
             (length (PyString.split "|" t) < 4)%nat ->
             exists answer,
               book_appointment_tool env cs t w = (Ok answer, w)
               /\ String.prefix "Invalid booking format" answer = true).
  { intros t Hlen. unfold book_appointment_tool. rewrite catch_all_returns.
    unfold book_appointment_try.
    destruct (Nat.ltb_spec (length (PyString.split "|" t)) 4) as [_|Hge]; [|lia].
    eexists. split; reflexivity. }
  repeat split.
  - intros tool Hin. unfold _create_tools in Hin.
    repeat (apply elem_of_cons in Hin as [->|Hin]);
      [| | |by apply elem_of_nil in Hin]; cbn [func];
      apply (catch_all_never_raises _ (fun e => _ +:+ exn_str e)).
  - intros e w' Hbody. unfold check_availability_tool.
    rewrite catch_all_returns, Hbody. reflexivity.
  - intros e w' Hbody. unfold book_appointment_tool.
    rewrite catch_all_returns, Hbody. reflexivity.
  - intros e w' Hbody. unfold get_existing_events_tool.
    rewrite catch_all_returns, Hbody. reflexivity.
  - apply Hshort.
  - apply Hshort. vm_compute. lia.
Qed.

End ToolBoundary.

(** ** The transcript of a session *)

Section Transcript.
Import Datetime Agent AgentSpec.

(** A run of [process_message]: the agent is asked once, in a runtime in
    which the model has not been called since the start, with the message
    and the recent turns; what is returned and what is stored follow from
    the agent's outcome. *)
Lemma process_message_run env agent message session_id context s :
  let sid := session_key env session_id s in
  let before := transcript s sid in
  exists inputs r store,
    model_calls r = model_calls (runtime s)
    /\ input inputs = message
    /\ chat_history inputs = render_history (recent before) ""
    /\ store !! sid = Some before
    /\ (forall other, other <> sid -> store !! other = sessions s !! other)
    /\ process_message env agent message session_id context s
       = match agent inputs r with
         | (Raise e, r') =>
             (Ok (error_message e), {| runtime := r'; sessions := store |})
         | (Ok response, r') =>
             match response !! "output" with
             | Some output =>
                 (Ok output,
                  {| runtime := r';
                     sessions :=
                       alter (fun l => l ++ [AIMessage output]) sid
                         (alter (fun l => l ++ [HumanMessage message]) sid store) |})
             | None =>
                 (Ok unexpected_format,
                  {| runtime := r';
                     sessions :=
                       alter (fun l => l ++ [HumanMessage message]) sid store |})
             end
         end.
Proof.
  intros sid before.
  unfold process_message. rewrite catch_all_returns.
  assert (Hres : exists s1,
             resolve_session_id env session_id s = (Ok sid, s1)
             /\ sessions s1 = sessions s
             /\ model_calls (runtime s1) = model_calls (runtime s)).
  { unfold resolve_session_id, sid, session_key.
    destruct session_id as [given|]; [destruct (String.eqb given "")|];
      eexists; repeat split; reflexivity. }
  destruct Hres as (s1 & Hres & Hsame & Hcalls).
  unfold mbind at 1. unfold ST_bind at 1. rewrite Hres.
  unfold ensure_session, messages, add_message, update_sessions, in_runtime, in_world,
    datetime_now, mbind, ST_bind, mret, ST_ret. cbn [runtime sessions world].
  set (store := match sessions s1 !! sid with
                | Some _ => sessions s1
                | None => <[sid:=[]]> (sessions s1)
                end).
  assert (Hturns : store !! sid = Some before).
  { unfold store, before, transcript. rewrite Hsame.
    destruct (sessions s !! sid) eqn:Hl; [by rewrite Hl|by rewrite lookup_insert_eq]. }
  assert (Hother : forall other, other <> sid -> store !! other = sessions s !! other).
  { intros other Hne. unfold store. rewrite Hsame.
    destruct (sessions s !! sid); [reflexivity|by rewrite lookup_insert_ne]. }
  rewrite Hturns. cbn [default].
  match goal with
  | |- context [agent ?i ?r] =>
      exists i, r, store; destruct (agent i r) as [[response|e] r'] eqn:Hagent
  end.
  - repeat split; try assumption. destruct (response !! "output"); reflexivity.
  - repeat split; assumption.
Qed.

(** C4, as the code has it: an invocation of [process_message] asks the
    agent once, with the message and the last 6 turns of the session.  When
    the agent raises, the error text is returned and no turn is added; when
    the agent answers with an ["output"] (a final answer, or whatever text
    the executor ends with), that text is returned and exactly two turns are
    added, the user's message then the output; when the agent's answer has no
    ["output"], the notice of the unexpected format is returned and one turn,
    the user's message, is added.  Other sessions are left as they are. *)
Theorem process_message_transcript :
  forall env agent message session_id context s,
    let sid := session_key env session_id s in
    let before := transcript s sid in
    exists inputs r answer s',
      process_message env agent message session_id context s = (Ok answer, s')
      /\ input inputs = message
      /\ chat_history inputs = render_history (recent before) ""
      /\ (forall other, other <> sid -> sessions s' !! other = sessions s !! other)
      /\ match agent inputs r with
         | (Raise e, _) =>
             answer = error_message e /\ transcript s' sid = before
         | (Ok response, _) =>
             match response !! "output" with
             | Some output =>
                 answer = output
                 /\ transcript s' sid
                    = before ++ [HumanMessage message; AIMessage output]
             | None =>
                 answer = "⚠️ Unexpected response format from LLM agent."
                 /\ transcript s' sid = before ++ [HumanMessage message]
             end
         end.
Proof.
  intros env agent message session_id context s sid before.
  destruct (process_message_run env agent message session_id context s)
    as (inputs & r & store & _ & Hin & Hhist & Hturns & Hother & Hrun).
  fold sid in Hturns, Hother, Hrun. fold before in Hhist, Hturns.
  exists inputs, r. rewrite Hrun.
  destruct (agent inputs r) as [[response|e] r'].
  - destruct (response !! "output") as [output|].
    + eexists _, _. split; [reflexivity|]. repeat split; try assumption.
      * intros other Hne. cbn [sessions]. rewrite !lookup_alter_ne by congruence. auto.
      * unfold transcript. cbn [sessions].
        rewrite !lookup_alter_eq, Hturns. cbn. by rewrite <- app_assoc.
    + eexists _, _. split; [reflexivity|]. repeat split; try assumption.
      * intros other Hne. cbn [sessions]. rewrite !lookup_alter_ne by congruence. auto.
      * unfold transcript. cbn [sessions]. by rewrite !lookup_alter_eq, Hturns.
  - eexists _, _. split; [reflexivity|]. repeat split; try assumption.
    unfold transcript. cbn [sessions]. by rewrite Hturns.
Qed.

End Transcript.

Section TranscriptCounterexample.
Import Datetime Agent AgentSpec.

(** C4 as stated fails when the agent's answer has no ["output"]: the
    invocation does not succeed with a final answer, the notice of the
    unexpected format is returned, and yet one turn, the user's message, has
    been added to the transcript. *)
Lemma missing_output_commits_user_turn :
  let run := process_message (Scenario.calendar_with []) Scenario.silent_agent
                             "hi" (Some "s1") None Scenario.fresh_state in
  fst run = Ok unexpected_format
  /\ transcript Scenario.fresh_state "s1" = []
  /\ transcript (snd run) "s1" = [HumanMessage "hi"]
  /\ length (transcript (snd run) "s1")
     <> length (transcript Scenario.fresh_state "s1").
Proof. repeat split; try discriminate; vm_compute; reflexivity. Qed.

End TranscriptCounterexample.

(** ** The agent loop *)

Section AgentLoop.
Import Datetime Agent AgentSpec.

Lemma error_message_not_empty e : error_message e <> "".
Proof.
  unfold error_message.
  repeat match goal with
         | |- context [if ?b then _ else _] => destruct b
         end; discriminate.
Qed.

(** Running a tool does not call the model. *)
Lemma run_tool_model_calls available tool tool_input r :
  model_calls (snd (run_tool available tool tool_input r)) = model_calls r.
Proof.
  unfold run_tool. destruct (find_tool tool available) as [t|]; [|reflexivity].
  unfold in_world. destruct (func t tool_input (world r)). reflexivity.
Qed.

(** One iteration of the loop. *)
Lemma run_loop_step executor inputs k scratchpad r :
  run_loop executor inputs (S k) scratchpad r
  = let asked := {| world := world r; model_calls := S (model_calls r) |} in
    match llm executor inputs scratchpad with
    | Ok (Action tool tool_input) =>
        match run_tool (tools executor) tool tool_input asked with
        | (Ok observation, r1) =>
            run_loop executor inputs k
              (scratchpad ++ [(Action tool tool_input, observation)]) r1
        | (Raise e, r1) => (Raise e, r1)
        end
    | Ok (FinalAnswer text) => (Ok {[ "output" := text ]}, asked)
    | Ok (Malformed text) =>
        if handle_parsing_errors executor
        then run_loop executor inputs k
               (scratchpad ++ [(Malformed text, "Invalid or incomplete response")])
               asked
        else (Raise (Exn ValueError ("Could not parse LLM output: " +:+ text)), asked)
    | Raise e => (Raise e, asked)
    end.
Proof.
  cbn [run_loop]. unfold mbind, ST_bind, call_llm.
  destruct (llm executor inputs scratchpad) as [[tool tool_input|text|text]|e];
    try reflexivity.
  destruct (handle_parsing_errors executor); reflexivity.
Qed.

(** The loop of an executor that handles parsing errors and stops by
    force: it calls the model at most once per iteration left, and its
    ["output"] is empty only if the model gave an empty final answer. *)
Lemma run_loop_bounded executor inputs k scratchpad r :
  handle_parsing_errors executor = true ->
  early_stopping_method executor = "force" ->
  (model_calls (snd (run_loop executor inputs k scratchpad r))
   <= model_calls r + k)%nat
  /\ match fst (run_loop executor inputs k scratchpad r) with
     | Ok response =>
         exists output,
           response = {[ "output" := output ]}
           /\ (output = "" ->
               exists pad, llm executor inputs pad = Ok (FinalAnswer ""))
     | Raise e => True
     end.
Proof.
  intros Hparse Hforce. revert scratchpad r.
  induction k as [|k IH]; intros scratchpad r.
  - cbn [run_loop]. unfold stopped_response. rewrite Hforce. cbn. split; [lia|].
    eexists. split; [reflexivity|discriminate].
  - rewrite run_loop_step. cbn zeta.
    destruct (llm executor inputs scratchpad) as [[tool tool_input|text|text]|e] eqn:Hllm.
    + pose proof (run_tool_model_calls (tools executor) tool tool_input
                    {| world := world r; model_calls := S (model_calls r) |}) as Hcalls.
      destruct (run_tool _ _ _ _) as [[observation|e] r1]; cbn [snd model_calls] in Hcalls.
      * specialize (IH (scratchpad ++ [(Action tool tool_input, observation)]) r1).
        destruct IH as [Hle Hout]. split; [lia|exact Hout].
      * cbn [fst snd]. split; [lia|exact I].
    + cbn [fst snd model_calls]. split; [lia|].
      exists text. split; [reflexivity|]. intros ->. eauto.
    + rewrite Hparse.
      specialize (IH (scratchpad ++ [(Malformed text, "Invalid or incomplete response")])
                     {| world := world r; model_calls := S (model_calls r) |}).
      destruct IH as [Hle Hout]. cbn [model_calls] in Hle. split; [lia|exact Hout].
    + cbn [fst snd model_calls]. split; [lia|exact I].
Qed.

(** C8, as the code and the modelled executor have it: for every language
    model, an invocation of [process_message] through the executor that
    [_create_agent] configures calls the model at most 5 times and returns a
    text; the text is empty only if the model gave an empty final answer, so
    it is not empty when the model never gives a final answer. *)
Theorem agent_loop_terminates_within_five :
  forall env calendar_service the_llm message session_id context s,
    let executor := _create_agent env calendar_service the_llm in
    let run := process_message env (ainvoke executor) message session_id context s in
    (model_calls (runtime (snd run)) <= model_calls (runtime s) + 5)%nat
    /\ exists answer,
         fst run = Ok answer
         /\ (answer = "" ->
             exists inputs pad, the_llm inputs pad = Ok (FinalAnswer ""))
         /\ ((forall inputs pad text, the_llm inputs pad <> Ok (FinalAnswer text)) ->
             answer <> "").
Proof.
  intros env cs the_llm message session_id context s executor run.
  destruct (process_message_run env (ainvoke executor) message session_id context s)
    as (inputs & r & store & Hcalls & _ & _ & _ & _ & Hrun).
  pose proof (run_loop_bounded executor inputs (max_iterations executor) [] r
                eq_refl eq_refl) as [Hle Hout].
  fold (ainvoke executor inputs r) in Hle, Hout.
  change (max_iterations executor) with 5%nat in Hle.
  assert (Hgoal : (model_calls (runtime (snd run)) <= model_calls (runtime s) + 5)%nat
                  /\ exists answer,
                       fst run = Ok answer
                       /\ (answer = "" ->
                           exists inputs pad, the_llm inputs pad = Ok (FinalAnswer ""))).
  { unfold run. rewrite Hrun.
    destruct (ainvoke executor inputs r) as [[response|e] r'];
      cbn [fst snd] in Hle, Hout.
    - destruct Hout as (output & -> & Hempty).
      rewrite lookup_singleton_eq. cbn [fst snd runtime]. split; [lia|].
      exists output. split; [reflexivity|]. intros Hout.
      destruct (Hempty Hout) as (pad & Hpad). eauto.
    - cbn [fst snd runtime]. split; [lia|].
      exists (error_message e). split; [reflexivity|].
      intros Hbad. by apply error_message_not_empty in Hbad. }
  destruct Hgoal as (Hbound & answer & Hans & Hempty).
  split; [exact Hbound|]. exists answer. repeat split; try assumption.
  intros Hnever ->. destruct (Hempty eq_refl) as (i & pad & Hpad).
  by apply Hnever in Hpad.
Qed.

(** C8 as stated fails for a model that gives an empty final answer: the
    loop ends at the first iteration and [process_message] returns the empty
    text. *)
Lemma empty_final_answer_is_returned :
  fst (process_message (Scenario.calendar_with [])
         (ainvoke (_create_agent (Scenario.calendar_with []) Scenario.offline
                                 Scenario.empty_answer_llm))
         "hi" (Some "s1") None Scenario.fresh_state)
  = Ok "".
Proof. vm_compute. reflexivity. Qed.

End AgentLoop.

(** ** The chat endpoint *)

Section ChatEndpoint.
Import Datetime Agent AgentSpec.

(** The answer to [POST /chat] carries the [session_id] of the request as
    it came; the endpoint raises nothing. *)
Lemma chat_endpoint_echoes_session_id env agent msg s :
  exists answer s',
    Api.chat_endpoint env agent msg s
    = (Ok {| Api.reply_response := answer;
             Api.reply_session_id := Api.session_id msg |}, s').
Proof.
  destruct (process_message_run env agent (Api.message msg) (Api.session_id msg)
              (Api.context msg) s) as (inputs & r & store & _ & _ & _ & _ & _ & Hrun).
  unfold Api.chat_endpoint, try_except, mbind, ST_bind. rewrite Hrun.
  destruct (agent inputs r) as [[response|e] r'];
    [destruct (response !! "output")|]; eexists _, _; reflexivity.
Qed.

(** C9 fails on the code: a request without [session_id] creates the
    session ["session_<timestamp>"], in which its two turns are stored, but
    the answer carries [null] where the identifier of that session was to
    be. *)
Theorem chat_without_session_id_answers_null :
  forall env agent message context s,
    let msg := {| Api.message := message; Api.session_id := None;
                  Api.context := context |} in
    let generated := session_key env None s in
    exists answer s',
      Api.chat_endpoint env agent msg s
      = (Ok {| Api.reply_response := answer; Api.reply_session_id := None |}, s')
      /\ generated = "session_" +:+ now_timestamp env (clock_reads (world (runtime s)))
      /\ is_Some (sessions s' !! generated).
Proof.
  intros env agent message context s msg generated.
  destruct (process_message_run env agent message None context s)
    as (inputs & r & store & _ & _ & _ & Hturns & _ & Hrun).
  fold generated in Hturns, Hrun.
  unfold Api.chat_endpoint, try_except, mbind, ST_bind. cbn [Api.message Api.session_id Api.context msg].
  rewrite Hrun.
  destruct (agent inputs r) as [[response|e] r'];
    [destruct (response !! "output")|];
    eexists _, _; (split; [reflexivity|]); (split; [reflexivity|]); cbn [sessions];
    rewrite ?lookup_alter_eq, Hturns; eauto.
Qed.

End ChatEndpoint.

(** ** The computations return *)

Section Returns.
Import Datetime CalendarService Spec.

Lemma month_entry_before_nonneg month :
  1 <= month <= 12 -> 0 <= month_entry _DAYS_BEFORE_MONTH month.
Proof.
  intros H. assert (Hm : month ∈ seqZ 1 12) by (apply elem_of_seqZ; lia).
  vm_compute in Hm. repeat (apply elem_of_cons in Hm as [->|Hm]);
    [vm_compute; discriminate ..|by apply elem_of_nil in Hm].
Qed.

(** The date of a parsed text is day 1 or later. *)
Lemma fromisoformat_ordinal_pos date_string dt :
  fromisoformat date_string = Ok dt -> 0 < toordinal dt.
Proof.
  unfold fromisoformat.
  destruct (_parse_isoformat_date _) as [[[year month] day]|]; cbn; [|discriminate].
  match goal with
  | |- context [?t ≫= _] => destruct t as [[[[[hh mm] ss] ff] tz]|]
  end; cbn; [|discriminate].
  destruct (_check_fields year month day hh mm ss ff) eqn:Hcheck; [|discriminate].
  intros [= <-]. cbn [toordinal].
  unfold _check_fields in Hcheck. repeat rewrite andb_true_iff in Hcheck.
  repeat match goal with H : _ /\ _ |- _ => destruct H end.
  repeat match goal with H : (_ <=? _) = true |- _ => apply Z.leb_le in H end.
  unfold MINYEAR, MAXYEAR in *.
  unfold _ymd2ord, _days_before_month, _days_before_year.
  pose proof (month_entry_before_nonneg month ltac:(lia)).
  assert (0 <= (year - 1) / 400) by (apply Z.div_pos; lia).
  assert ((year - 1) / 100 <= (year - 1) / 4).
  { apply Z.div_le_compat_l; lia. }
  destruct ((2 <? month) && _is_leap year); nia.
Qed.

(** A slot of at most a day that starts on a date before the last one has
    an end. *)
Lemma add_minutes_candidate d h dur :
  0 < d < _MAXORDINAL -> 0 <= h < 24 -> 0 <= dur <= 1440 ->
  exists slot_end, add_minutes (combine_hour d h) dur = Ok slot_end.
Proof.
  intros Hd Hh Hdur. unfold add_minutes. rewrite instant_combine_hour.
  unfold US_PER_DAY, _MAXORDINAL in *.
  set (total := d * 86400000000 + h * 3600000000 + dur * 60000000).
  assert (d <= total / 86400000000 <= d + 1).
  { split.
    - apply Z.div_le_lower_bound; lia.
    - apply Z.lt_succ_r. apply Z.div_lt_upper_bound; lia. }
  destruct (Z.ltb_spec 0 (total / 86400000000)); [|lia].
  destruct (Z.leb_spec (total / 86400000000) 3652059); [|lia].
  cbn. eauto.
Qed.

Lemma slot_is_available_returns s e events intervals :
  Forall2 busy_interval events intervals ->
  exists verdict, slot_is_available s e events = Ok verdict.
Proof. intros H. rewrite (slot_is_available_parsed _ _ _ _ H). eauto. Qed.

Lemma hours_loop_returns hours d dur events intervals acc :
  Forall2 busy_interval events intervals ->
  0 < d < _MAXORDINAL -> 0 <= dur <= 1440 ->
  Forall (fun h => 0 <= h < 24) hours ->
  exists out, hours_loop hours d dur events acc = Ok out.
Proof.
  intros Hiv Hd Hdur Hhours. revert acc.
  induction Hhours as [|h hours Hh _ IH]; intros acc; cbn [hours_loop]; [eauto|].
  destruct (add_minutes_candidate d h dur Hd Hh Hdur) as (slot_end & ->).
  cbn [mbind result_bind rbind].
  destruct (slot_is_available_returns (combine_hour d h) slot_end _ _ Hiv) as (v & ->).
  cbn [mbind result_bind rbind]. apply IH.
Qed.

Lemma range_hours lo hi : 0 <= lo -> hi <= 24 -> Forall (fun h => 0 <= h < 24) (range lo hi).
Proof.
  intros. apply Forall_forall. intros h Hh. apply elem_of_range in Hh. lia.
Qed.

(** The sweep ends without an exception when every event gives a busy
    interval, the range lies before the last date and a slot lasts a day at
    most. *)
Lemma days_loop_returns events intervals dur last cur acc :
  Forall2 busy_interval events intervals ->
  0 < cur -> last < _MAXORDINAL -> 0 <= dur <= 1440 ->
  exists out, days_loop events dur last cur acc = Ok out.
Proof.
  intros Hiv Hcur Hlast Hdur.
  remember (Z.to_nat (last + 1 - cur)) as n eqn:Hn.
  revert cur acc Hcur Hn. induction n as [|n IH]; intros cur acc Hcur Hn;
    rewrite days_loop_eq; destruct (decide (cur <= last)) as [Hle|Hgt];
    try lia; [eauto|].
  assert (Hday : exists slots, day_body cur dur events acc = Ok slots).
  { unfold day_body. destruct (weekday cur <? 5); [|eauto].
    eapply hours_loop_returns; try eassumption; [lia|apply range_hours; lia]. }
  destruct Hday as (slots & ->). cbn [mbind result_bind rbind].
  unfold date_add_days.
  destruct (Z.ltb_spec 0 (cur + 1)); [|lia].
  destruct (Z.leb_spec (cur + 1) _MAXORDINAL); [|lia].
  cbn [andb mbind result_bind rbind]. apply IH; lia.
Qed.

(** [get_availability] takes the real path to its end, whatever the clock
    and the earlier requests, when the provider is available, the two dates
    are ISO texts, the provider lists events with ISO times, and the range
    ends before 9999-12-31. *)
Lemma real_availability_returns env self start_date end_date dur w
      start_dt end_dt items intervals :
  fromisoformat start_date = Ok start_dt ->
  fromisoformat end_date = Ok end_dt ->
  is_available self = true ->
  execute_list env (requests w) (calendar_id self)
               (isoformat start_dt +:+ "Z") (isoformat end_dt +:+ "Z") = Ok items ->
  Forall2 busy_interval (map format_event items) intervals ->
  date end_dt < _MAXORDINAL -> 0 <= dur <= 1440 ->
  exists slots w',
    real_availability env self start_date end_date dur w = (Ok slots, w').
Proof.
  intros Hs He Hlive Hlist Hiv Hlast Hdur.
  pose proof (fromisoformat_ordinal_pos _ _ Hs) as Hpos.
  destruct (days_loop_returns _ _ dur (date end_dt) (date start_dt) [] Hiv Hpos Hlast Hdur)
    as (all_slots & Hloop).
  unfold real_availability, get_events, _check_availability. rewrite Hlive. cbn [negb].
  unfold try_except, mbind, ST_bind, lift, mret, ST_ret, events_list.
  rewrite Hs, He, Hlist, Hloop. eauto.
Qed.

Lemma mock_hours_loop_returns hours d dur acc :
  0 < d < _MAXORDINAL -> 0 <= dur <= 1440 ->
  Forall (fun h => 0 <= h < 24) hours ->
  exists out, mock_hours_loop hours d dur acc = Ok out.
Proof.
  intros Hd Hdur Hhours. revert acc.
  induction Hhours as [|h hours Hh _ IH]; intros acc; cbn [mock_hours_loop]; [eauto|].
  destruct (add_minutes_candidate d h dur Hd Hh Hdur) as (slot_end & ->).
  cbn [mbind result_bind rbind]. apply IH.
Qed.

Lemma mock_days_loop_returns dur last cur acc :
  0 < cur -> last < _MAXORDINAL -> 0 <= dur <= 1440 ->
  exists out, mock_days_loop dur last cur acc = Ok out.
Proof.
  intros Hcur Hlast Hdur.
  remember (Z.to_nat (last + 1 - cur)) as n eqn:Hn.
  revert cur acc Hcur Hn. induction n as [|n IH]; intros cur acc Hcur Hn;
    rewrite mock_days_loop_eq;
    destruct (decide (cur <= last /\ (length acc < 10)%nat)) as [[Hle Hlen]|Hstop];
    try lia; eauto.
  assert (Hday : exists slots, mock_day_body cur dur acc = Ok slots).
  { unfold mock_day_body. destruct (weekday cur <? 5); [|eauto].
    apply mock_hours_loop_returns; [lia|lia|]. repeat constructor; lia. }
  destruct Hday as (slots & ->). cbn [mbind result_bind rbind].
  unfold date_add_days.
  destruct (Z.ltb_spec 0 (cur + 1)); [|lia].
  destruct (Z.leb_spec (cur + 1) _MAXORDINAL); [|lia].
  cbn [andb mbind result_bind rbind]. apply IH; lia.
Qed.

(** The mock computation returns slots when the two dates are ISO texts,
    the range ends before 9999-12-31 and a slot lasts a day at most. *)
Lemma mock_availability_returns self start_date end_date dur start_dt end_dt :
  fromisoformat start_date = Ok start_dt ->
  fromisoformat end_date = Ok end_dt ->
  date end_dt < _MAXORDINAL -> 0 <= dur <= 1440 ->
  exists slots, _get_mock_availability self start_date end_date dur = Ok slots.
Proof.
  intros Hs He Hlast Hdur.
  pose proof (fromisoformat_ordinal_pos _ _ Hs) as Hpos.
  destruct (mock_days_loop_returns dur (date end_dt) (date start_dt) [] Hpos Hlast Hdur)
    as (all_slots & Hloop).
  unfold _get_mock_availability. rewrite Hs, He. cbn [mbind result_bind rbind].
  rewrite Hloop. cbn. eauto.
Qed.

(** On the last date the sweep cannot step to the next day: both
    computations raise. *)
Example last_date_overflows :
  _get_mock_availability Scenario.offline "9999-12-31" "9999-12-31" 60
  = Raise (Exn OverflowError "date value out of range").
Proof. vm_compute. reflexivity. Qed.

End Returns.

Section ForcedStop.
Import Datetime Agent AgentSpec.

(** With the modelled executor a forced stop ends with an ["output"], the
    notice of the stop, which [process_message] stores as the assistant's
    turn after the user's message. *)
Example forced_stop_is_stored :
  let run := process_message (Scenario.calendar_with [])
               (ainvoke (_create_agent (Scenario.calendar_with []) Scenario.offline
                                       Scenario.looping_llm))
               "hi" (Some "s1") None Scenario.fresh_state in
  fst run = Ok "Agent stopped due to iteration limit or time limit."
  /\ model_calls (runtime (snd run)) = 5%nat
  /\ transcript (snd run) "s1"
     = [HumanMessage "hi";
        AIMessage "Agent stopped due to iteration limit or time limit."].
Proof. repeat split; vm_compute; reflexivity. Qed.

(** A model that answers after one look at the calendar: two calls. *)
Example helpful_run :
  let run := process_message (Scenario.calendar_with [])
               (ainvoke (_create_agent (Scenario.calendar_with []) Scenario.offline
                                       Scenario.helpful_llm))
               "When are you free?" None None Scenario.fresh_state in
  fst run = Ok "Monday at 9 AM is free."
  /\ model_calls (runtime (snd run)) = 2%nat
  /\ transcript (snd run) "session_1717401600.0"
     = [HumanMessage "When are you free?"; AIMessage "Monday at 9 AM is free."].
Proof. repeat split; vm_compute; reflexivity. Qed.

End ForcedStop.

(** ** The properties at work on the scenarios *)

Section Witnesses.
Import Datetime CalendarService Agent AgentSpec Spec.

Lemma slot_available_iff_no_overlap_witness :
  let slot_start := combine_hour 739040 9 in
  let slot_end := combine_hour 739040 10 in
  add_minutes slot_start 60 = Ok slot_end
  /\ slot_is_available slot_start slot_end [format_event Scenario.half_past_nine]
     = Ok false.
Proof.
  intros slot_start slot_end.
  assert (Hend : add_minutes slot_start 60 = Ok slot_end) by (vm_compute; reflexivity).
  split; [exact Hend|].
  refine (proj2 (proj2 (proj2
            (slot_available_iff_no_overlap 739040 9 60
               [format_event Scenario.half_past_nine]
               [Scenario.half_past_nine_interval] slot_end [] Hend _)))
            Scenario.half_past_nine_interval _ _ _).
  - repeat constructor; vm_compute; reflexivity.
  - left. reflexivity.
  - lia.
  - right. right. left. repeat split; vm_compute; reflexivity.
Defined.

Lemma monday_example_witness :
  fst (get_availability (Scenario.calendar_with []) Scenario.live
                        "2024-06-03" "2024-06-03" 60 Scenario.fresh_world)
  = Ok (Scenario.hourly_slot <$> [9; 10; 11; 12; 13; 14; 15; 16])
  /\ fst (get_availability (Scenario.calendar_with [Scenario.half_past_nine])
                          Scenario.live "2024-06-03" "2024-06-03" 60
                          Scenario.fresh_world)
     = Ok (Scenario.hourly_slot <$> [11; 12; 13; 14; 15; 16]).
Proof.
  split.
  - apply (proj1 (proj2 (monday_example (Scenario.calendar_with []) Scenario.live
                           Scenario.fresh_world eq_refl))).
    reflexivity.
  - apply (proj2 (proj2 (monday_example
                           (Scenario.calendar_with [Scenario.half_past_nine])
                           Scenario.live Scenario.fresh_world eq_refl))).
    reflexivity.
Defined.

Lemma tools_never_raise_witness :
  exists answer,
    book_appointment_tool (Scenario.calendar_with []) Scenario.offline
                          "Standup|Daily sync" Scenario.fresh_world
    = (Ok answer, Scenario.fresh_world)
    /\ String.prefix "Invalid booking format" answer = true.
Proof.
  apply (proj1 (proj2 (proj2 (proj2 (proj2
           (tools_never_raise (Scenario.calendar_with []) Scenario.offline
              "Standup|Daily sync" Scenario.fresh_world)))))).
  vm_compute. lia.
Defined.

Lemma process_message_transcript_witness :
  exists answer s',
    process_message (Scenario.calendar_with [])
      (ainvoke (_create_agent (Scenario.calendar_with []) Scenario.offline
                              Scenario.helpful_llm))
      "When are you free?" (Some "s1") None Scenario.fresh_state
    = (Ok answer, s').
Proof.
  destruct (process_message_transcript (Scenario.calendar_with [])
              (ainvoke (_create_agent (Scenario.calendar_with []) Scenario.offline
                                      Scenario.helpful_llm))
              "When are you free?" (Some "s1") None Scenario.fresh_state)
    as (_ & _ & answer & s' & Hrun & _).
  exists answer, s'. exact Hrun.
Defined.

Lemma provider_failure_witness :
  create_event Scenario.refusing_provider Scenario.live "Standup" "Daily sync"
               "2024-06-03T09:00:00" "2024-06-03T10:00:00" (Some "a@b.com")
               Scenario.fresh_world
  = (Raise Scenario.refusal,
     sent (EventsInsert (calendar_id Scenario.live)
             (insert_body Scenario.live "Standup" "Daily sync"
                          "2024-06-03T09:00:00" "2024-06-03T10:00:00"
                          (Some "a@b.com")))
          Scenario.fresh_world)
  /\ delete_event Scenario.refusing_provider Scenario.live "evt_1" Scenario.fresh_world
     = (Ok false,
        sent (EventsDelete (calendar_id Scenario.live) "evt_1") Scenario.fresh_world).
Proof.
  destruct (provider_failure_create_raises_delete_returns_false
              Scenario.refusing_provider Scenario.live Scenario.fresh_world
              Scenario.refusal eq_refl) as (Hcreate & Hdelete & _).
  split.
  - apply Hcreate. reflexivity.
  - apply (Hdelete "evt_1"). reflexivity.
Defined.

Lemma mock_availability_witness :
  exists slots,
    get_availability Scenario.refusing_provider Scenario.offline
                     "2024-06-01" "2024-06-30" 60 Scenario.fresh_world
    = (Ok slots, Scenario.fresh_world)
    /\ (length slots <= 10)%nat.
Proof.
  destruct (mock_availability_deterministic_capped Scenario.offline
              "2024-06-01" "2024-06-30" 60) as (_ & Hget & Hcap).
  destruct (_get_mock_availability Scenario.offline "2024-06-01" "2024-06-30" 60)
    as [slots|e] eqn:Hmock.
  - exists slots. split.
    + rewrite (Hget Scenario.refusing_provider Scenario.fresh_world eq_refl).
      reflexivity.
    + apply (Hcap slots eq_refl).
  - exfalso. vm_compute in Hmock. discriminate.
Defined.

Lemma real_availability_first_twenty_witness :
  exists slots w',
    get_availability (Scenario.calendar_with [Scenario.half_past_nine]) Scenario.live
                     "2024-06-03" "2024-06-14" 60 Scenario.fresh_world
    = (Ok slots, w')
    /\ (length slots <= 20)%nat.
Proof.
  destruct (real_availability (Scenario.calendar_with [Scenario.half_past_nine])
              Scenario.live "2024-06-03" "2024-06-14" 60 Scenario.fresh_world)
    as [[slots|e] w'] eqn:Hrun.
  - exists slots, w'.
    destruct (real_availability_first_twenty
                (Scenario.calendar_with [Scenario.half_past_nine]) Scenario.live
                "2024-06-03" "2024-06-14" 60 Scenario.fresh_world slots w'
                eq_refl Hrun)
      as (Hget & Hlen & _).
    split; assumption.
  - exfalso. vm_compute in Hrun. discriminate.
Defined.

Lemma agent_loop_witness :
  let run := process_message (Scenario.calendar_with [])
               (ainvoke (_create_agent (Scenario.calendar_with []) Scenario.offline
                                       Scenario.looping_llm))
               "hi" (Some "s1") None Scenario.fresh_state in
  (model_calls (runtime (snd run)) <= 5)%nat
  /\ exists answer, fst run = Ok answer /\ answer <> "".
Proof.
  destruct (agent_loop_terminates_within_five (Scenario.calendar_with [])
              Scenario.offline Scenario.looping_llm "hi" (Some "s1") None
              Scenario.fresh_state) as (Hcalls & answer & Hans & _ & Hnever).
  split; [exact Hcalls|].
  exists answer. split; [exact Hans|].
  apply Hnever. intros inputs pad text. discriminate.
Defined.

Lemma delete_event_offline_witness :
  delete_event Scenario.refusing_provider Scenario.offline "evt_1" Scenario.fresh_world
  = (Ok true, Scenario.fresh_world).
Proof.
  apply delete_event_offline_reports_success. reflexivity.
Defined.

End Witnesses.


(* ===================================================================== *)
(** * Further properties: texts *)
(* ===================================================================== *)

Section SplitJoin.

Lemma prefix_same s : String.prefix s s = true.
Proof.
  induction s as [|c s IH]; [reflexivity|]. simpl.
  destruct (ascii_dec c c); [exact IH|congruence].
Qed.

Lemma append_assoc' a b c : (a +:+ b) +:+ c = a +:+ (b +:+ c).
Proof.
  induction a as [|x a IH]; [reflexivity|].
  change ((String x (a +:+ b)) +:+ c = String x (a +:+ (b +:+ c))).
  change (String x ((a +:+ b) +:+ c) = String x (a +:+ (b +:+ c))).
  by rewrite IH.
Qed.

Lemma prefix_empty s : String.prefix "" s = true.
Proof. destruct s; reflexivity. Qed.

Lemma append_cons c s t : String c s +:+ t = String c (s +:+ t).
Proof. reflexivity. Qed.

Lemma append_nil t : "" +:+ t = t.
Proof. reflexivity. Qed.

Lemma append_empty s : s +:+ "" = s.
Proof. induction s as [|c s IH]; [reflexivity|]. by rewrite append_cons, IH. Qed.

Lemma append_cons_assoc cur c s : (cur +:+ String c "") +:+ s = cur +:+ String c s.
Proof. by rewrite append_assoc'. Qed.

(** A text that holds no separator is one piece. *)
Lemma split_go_no_char c cur f :
  PyString.find_char c f = None ->
  PyString.split_go (String c "") 0 cur f = [cur +:+ f].
Proof.
  revert cur. induction f as [|a f IH]; intros cur Hno; cbn [PyString.split_go].
  - by rewrite append_empty.
  - cbn [PyString.find_char] in Hno. cbn [String.prefix].
    destruct (ascii_dec c a) as [->|Hne].
    + rewrite Ascii.eqb_refl in Hno. discriminate.
    + destruct (Ascii.eqb c a); [discriminate|].
      rewrite IH, append_cons_assoc; [reflexivity|].
      by destruct (PyString.find_char c f).
Qed.

(** The first separator ends the first piece. *)
Lemma split_go_first_char c cur f rest :
  PyString.find_char c f = None ->
  PyString.split_go (String c "") 0 cur (f +:+ String c rest)
  = (cur +:+ f) :: PyString.split_go (String c "") 0 "" rest.
Proof.
  revert cur. induction f as [|a f IH]; intros cur Hno;
    rewrite ?append_nil, ?append_cons; cbn [PyString.split_go String.prefix].
  - destruct (ascii_dec c c); [|congruence].
    rewrite prefix_empty, append_empty. reflexivity.
  - cbn [PyString.find_char] in Hno.
    destruct (ascii_dec c a) as [->|Hne].
    + rewrite Ascii.eqb_refl in Hno. discriminate.
    + destruct (Ascii.eqb c a); [discriminate|].
      rewrite IH, append_cons_assoc; [reflexivity|].
      by destruct (PyString.find_char c f).
Qed.

(** Fields without the separator, joined and split again, are the fields. *)
Lemma split_join_char c fields :
  fields <> [] ->
  Forall (fun f => PyString.find_char c f = None) fields ->
  PyString.split (String c "") (PyString.join (String c "") fields) = fields.
Proof.
  intros Hne Hall. unfold PyString.split.
  induction Hall as [|f fields Hf Hall IH]; [done|].
  destruct fields as [|g fields].
  - cbn [PyString.join]. rewrite split_go_no_char by exact Hf. reflexivity.
  - change (PyString.join (String c "") (f :: g :: fields))
      with (f +:+ String c "" +:+ PyString.join (String c "") (g :: fields)).
    rewrite (append_cons c ""), append_nil.
    rewrite split_go_first_char by exact Hf. rewrite append_nil.
    rewrite IH by done. reflexivity.
Qed.

End SplitJoin.

(* ===================================================================== *)
(** * Further properties of the calendar service *)
(* ===================================================================== *)

Section ListingEvents.
Import Datetime CalendarService Spec.

(** X1: [get_events] lets no [HttpError] out, and sends the provider at most
    one request, a list request.  Unavailable, it answers the empty list
    and sends nothing, whatever the two texts are.  Available, it raises
    the error of a date text that is not ISO before anything is sent;
    otherwise it sends one list request and answers the provider's items,
    formatted one by one in their order, or the empty list when the
    provider fails with an [HttpError]; another error of the provider is
    raised. *)
Theorem get_events_outcomes :
  forall env self start_date end_date w,
    let run := get_events env self start_date end_date w in
    (forall e, fst run = Raise e -> is_HttpError e = false /\ is_available self = true)
    /\ (is_available self = false -> run = (Ok [], w))
    /\ (is_available self = true ->
        match fromisoformat start_date, fromisoformat end_date with
        | Ok start_dt, Ok end_dt =>
            let request :=
              EventsList (calendar_id self)
                         (isoformat start_dt +:+ "Z") (isoformat end_dt +:+ "Z") in
            snd run = sent request w
            /\ match execute_list env (requests w) (calendar_id self)
                       (isoformat start_dt +:+ "Z") (isoformat end_dt +:+ "Z") with
               | Ok items =>
                   fst run = Ok (map format_event items)
               | Raise e =>
                   fst run = if is_HttpError e then Ok [] else Raise e
               end
        | Raise e, _ => run = (Raise e, w)
        | Ok _, Raise e => run = (Raise e, w)
        end).
Proof.
  intros env self start_date end_date w run. subst run.
  unfold get_events, _check_availability.
  destruct (is_available self) eqn:Hlive; cbn [negb].
  - unfold try_except, mbind, ST_bind, lift, mret, ST_ret, events_list.
    destruct (fromisoformat start_date) as [start_dt|e1] eqn:Hs;
      [destruct (fromisoformat end_date) as [end_dt|e2] eqn:He|].
    + destruct (execute_list env (requests w) (calendar_id self) _ _) as [items|e] eqn:Hl.
      * repeat split; try discriminate; auto.
      * destruct (is_HttpError e) eqn:Hhttp; repeat split; try discriminate; auto.
        cbn in *. congruence.
    + assert (Hv : is_HttpError e2 = false).
      { unfold fromisoformat in He. destruct (_ ≫= _) in He; [discriminate|].
        injection He as <-. reflexivity. }
      rewrite Hv. repeat split; try discriminate; auto.
      cbn in *. congruence.
    + assert (Hv : is_HttpError e1 = false).
      { unfold fromisoformat in Hs. destruct (_ ≫= _) in Hs; [discriminate|].
        injection Hs as <-. reflexivity. }
      rewrite Hv. repeat split; try discriminate; auto.
      cbn in *. congruence.
  - repeat split; try discriminate; auto.
Qed.

End ListingEvents.

Section Degrading.
Import Datetime CalendarService Spec.

(** What [get_availability] does of an exception of the real computation. *)
Lemma get_availability_falls_back env self start_date end_date duration_minutes w e w' :
  is_available self = true ->
  real_availability env self start_date end_date duration_minutes w = (Raise e, w') ->
  get_availability env self start_date end_date duration_minutes w
  = (_get_mock_availability self start_date end_date duration_minutes, w').
Proof.
  intros Hlive Hreal.
  unfold get_availability, _check_availability. rewrite Hlive. cbn [negb].
  unfold try_except. rewrite Hreal. reflexivity.
Qed.

(** X2: with the provider available, when the list request fails with an
    error that is no [HttpError], [get_events] lets it through and
    [get_availability] answers the slots of the mock computation, which knows
    nothing of the calendar, without a sign of the failure; the one list
    request has been sent. *)
Theorem provider_error_degrades_to_mock :
  forall env self start_date end_date duration_minutes w start_dt end_dt e,
    is_available self = true ->
    fromisoformat start_date = Ok start_dt ->
    fromisoformat end_date = Ok end_dt ->
    execute_list env (requests w) (calendar_id self)
                 (isoformat start_dt +:+ "Z") (isoformat end_dt +:+ "Z") = Raise e ->
    is_HttpError e = false ->
    get_events env self start_date end_date w
    = (Raise e, sent (EventsList (calendar_id self) (isoformat start_dt +:+ "Z")
                                 (isoformat end_dt +:+ "Z")) w)
    /\ get_availability env self start_date end_date duration_minutes w
       = (_get_mock_availability self start_date end_date duration_minutes,
          sent (EventsList (calendar_id self) (isoformat start_dt +:+ "Z")
                           (isoformat end_dt +:+ "Z")) w).
Proof.
  intros env self start_date end_date dur w start_dt end_dt e
         Hlive Hs He Hlist Hhttp.
  assert (Hevents : get_events env self start_date end_date w
                    = (Raise e, sent (EventsList (calendar_id self)
                                        (isoformat start_dt +:+ "Z")
                                        (isoformat end_dt +:+ "Z")) w)).
  { unfold get_events, _check_availability. rewrite Hlive. cbn [negb].
    unfold try_except, mbind, ST_bind, lift, mret, ST_ret, events_list.
    rewrite Hs, He, Hlist, Hhttp. reflexivity. }
  split; [exact Hevents|].
  apply get_availability_falls_back with (e := e); [exact Hlive|].
  unfold real_availability, mbind, ST_bind. rewrite Hevents. reflexivity.
Qed.

Lemma passes_check_no_events d h dur :
  0 < d < _MAXORDINAL -> 0 <= h < 24 -> 0 <= dur <= 1440 ->
  passes_check dur [] (combine_hour d h) = true.
Proof.
  intros Hd Hh Hdur. unfold passes_check.
  destruct (add_minutes_candidate d h dur Hd Hh Hdur) as (slot_end & ->).
  reflexivity.
Qed.

Lemma filter_all {A} (P : A -> Prop) `{forall x, Decision (P x)} (l : list A) :
  Forall P l -> filter P l = l.
Proof.
  induction 1 as [|x l Hx _ IH]; [reflexivity|].
  rewrite filter_cons_True by exact Hx. by rewrite IH.
Qed.

Lemma candidates_pass_without_events first last dur :
  0 < first -> last < _MAXORDINAL -> 0 <= dur <= 1440 ->
  filter (fun c => passes_check dur [] c = true) (candidates first last)
  = candidates first last.
Proof.
  intros Hfirst Hlast Hdur. apply filter_all, Forall_forall.
  intros c Hc. apply elem_of_candidates in Hc as (d & h & -> & Hd & _ & Hh).
  apply passes_check_no_events; lia.
Qed.

(** X3: with the provider available, when the list request fails with an
    [HttpError] the busy times are lost without a trace: [get_availability]
    answers the first 20 candidate slots of the range, all of them, as if the
    calendar were empty (for ISO dates, a range that ends before 9999-12-31
    and a slot of a day at most). *)
Theorem listing_failure_reads_as_empty_calendar :
  forall env self start_date end_date duration_minutes w start_dt end_dt e,
    is_available self = true ->
    fromisoformat start_date = Ok start_dt ->
    fromisoformat end_date = Ok end_dt ->
    date end_dt < _MAXORDINAL ->
    0 <= duration_minutes <= 1440 ->
    execute_list env (requests w) (calendar_id self)
                 (isoformat start_dt +:+ "Z") (isoformat end_dt +:+ "Z") = Raise e ->
    is_HttpError e = true ->
    exists slots w',
      get_availability env self start_date end_date duration_minutes w = (Ok slots, w')
      /\ Forall2 (slot_of duration_minutes)
                 (take 20 (candidates (date start_dt) (date end_dt))) slots.
Proof.
  intros env self start_date end_date dur w start_dt end_dt e
         Hlive Hs He Hlast Hdur Hlist Hhttp.
  pose proof (fromisoformat_ordinal_pos _ _ Hs) as Hpos.
  destruct (days_loop_returns [] [] dur (date end_dt) (date start_dt) []
              ltac:(constructor) Hpos Hlast Hdur) as (all_slots & Hloop).
  assert (Hreal : real_availability env self start_date end_date dur w
                  = (Ok (take 20 all_slots),
                     sent (EventsList (calendar_id self) (isoformat start_dt +:+ "Z")
                                      (isoformat end_dt +:+ "Z")) w)).
  { unfold real_availability, get_events, _check_availability. rewrite Hlive. cbn [negb].
    unfold try_except, mbind, ST_bind, lift, mret, ST_ret, events_list.
    rewrite Hs, He, Hlist, Hhttp, Hloop. reflexivity. }
  eexists _, _. split; [apply get_availability_live; eassumption|].
  apply days_loop_Ok in Hloop as (found & Hall & Hfound). cbn [app] in Hall. subst found.
  rewrite (candidates_pass_without_events (date start_dt) _ _ Hpos Hlast Hdur) in Hfound.
  by apply Forall2_take.
Qed.

Lemma days_loop_no_weekday events dur last cur acc :
  0 < cur -> last < _MAXORDINAL ->
  (forall d, cur <= d <= last -> 5 <= weekday d) ->
  days_loop events dur last cur acc = Ok acc.
Proof.
  intros Hcur Hlast.
  remember (Z.to_nat (last + 1 - cur)) as n eqn:Hn.
  revert cur Hcur Hn. induction n as [|n IH]; intros cur Hcur Hn Hweek;
    rewrite days_loop_eq; destruct (decide (cur <= last)) as [Hle|Hgt];
    try lia; try reflexivity.
  unfold day_body. destruct (Z.ltb_spec (weekday cur) 5) as [Hw|_].
  { specialize (Hweek cur ltac:(lia)). lia. }
  cbn [mbind result_bind rbind]. unfold date_add_days.
  destruct (Z.ltb_spec 0 (cur + 1)); [|lia].
  destruct (Z.leb_spec (cur + 1) _MAXORDINAL); [|lia].
  cbn [andb mbind result_bind rbind]. apply IH; [lia|lia|].
  intros d Hd. apply Hweek. lia.
Qed.

Lemma mock_days_loop_no_weekday dur last cur acc :
  0 < cur -> last < _MAXORDINAL ->
  (forall d, cur <= d <= last -> 5 <= weekday d) ->
  mock_days_loop dur last cur acc = Ok acc.
Proof.
  intros Hcur Hlast.
  remember (Z.to_nat (last + 1 - cur)) as n eqn:Hn.
  revert cur Hcur Hn. induction n as [|n IH]; intros cur Hcur Hn Hweek;
    rewrite mock_days_loop_eq;
    destruct (decide (cur <= last /\ (length acc < 10)%nat)) as [[Hle Hlen]|Hstop];
    try lia; try reflexivity.
  unfold mock_day_body. destruct (Z.ltb_spec (weekday cur) 5) as [Hw|_].
  { specialize (Hweek cur ltac:(lia)). lia. }
  cbn [mbind result_bind rbind]. unfold date_add_days.
  destruct (Z.ltb_spec 0 (cur + 1)); [|lia].
  destruct (Z.leb_spec (cur + 1) _MAXORDINAL); [|lia].
  cbn [andb mbind result_bind rbind]. apply IH; [lia|lia|].
  intros d Hd. apply Hweek. lia.
Qed.

(** X4: a range without a weekday (a weekend, or an end date before the
    start date) gives no slot, on the real path and on the mock path alike,
    whatever the provider holds or answers. *)
Theorem no_weekday_no_slot :
  forall env self start_date end_date duration_minutes w start_dt end_dt,
    fromisoformat start_date = Ok start_dt ->
    fromisoformat end_date = Ok end_dt ->
    date end_dt < _MAXORDINAL ->
    (forall d, date start_dt <= d <= date end_dt -> 5 <= weekday d) ->
    fst (get_availability env self start_date end_date duration_minutes w) = Ok []
    /\ _get_mock_availability self start_date end_date duration_minutes = Ok [].
Proof.
  intros env self start_date end_date dur w start_dt end_dt Hs He Hlast Hweek.
  pose proof (fromisoformat_ordinal_pos _ _ Hs) as Hpos.
  assert (Hmock : _get_mock_availability self start_date end_date dur = Ok []).
  { unfold _get_mock_availability. rewrite Hs, He. cbn [mbind result_bind rbind].
    rewrite mock_days_loop_no_weekday by assumption. reflexivity. }
  split; [|exact Hmock].
  unfold get_availability, _check_availability.
  destruct (is_available self) eqn:Hlive; cbn [negb]; [|by rewrite Hmock].
  unfold try_except, real_availability, mbind, ST_bind, lift, mret, ST_ret.
  destruct (get_events env self start_date end_date w) as [[events|e] w1].
  - rewrite Hs, He, days_loop_no_weekday by assumption. reflexivity.
  - cbn. by rewrite Hmock.
Qed.

End Degrading.

(* ===================================================================== *)
(** * Further properties of the agent *)
(* ===================================================================== *)

Section Conversations.
Import Datetime Agent AgentSpec Conversation.

(** What a run of [process_message] is, in terms of the one question it asks
    the agent. *)
Lemma process_message_asks env agent message session_id context s :
  let sid := session_key env session_id s in
  let store := with_session sid (sessions s) in
  process_message env agent message session_id context s
  = match agent (agent_inputs env message session_id s)
                (runtime_at_call session_id s) with
    | (Raise e, r') =>
        (Ok (error_message e), {| runtime := r'; sessions := store |})
    | (Ok response, r') =>
        match response !! "output" with
        | Some output =>
            (Ok output,
             {| runtime := r';
                sessions :=
                  alter (fun l => l ++ [AIMessage output]) sid
                    (alter (fun l => l ++ [HumanMessage message]) sid store) |})
        | None =>
            (Ok unexpected_format,
             {| runtime := r';
                sessions :=
                  alter (fun l => l ++ [HumanMessage message]) sid store |})
        end
    end.
Proof.
  intros sid store. subst store sid.
  unfold process_message. rewrite catch_all_returns.
  unfold agent_inputs, runtime_at_call, session_key, with_session, transcript,
    resolve_session_id, readings_before_call.
  destruct session_id as [given|]; [destruct (String.eqb given "")|];
    unfold ensure_session, messages, add_message, update_sessions, in_runtime, in_world,
      datetime_now, datetime_now_timestamp, mbind, ST_bind, mret, ST_ret;
    cbn [runtime sessions world model_calls Nat.iter nat_rect tick clock_reads requests Nat.sub];
    rewrite ?Nat.add_0_r, ?Nat.add_1_r;
    match goal with
    | |- context [sessions s !! ?key] =>
        destruct (sessions s !! key) eqn:Hl; rewrite ?lookup_insert_eq, ?Hl
    end; cbn [default id]; unfold recent;
    match goal with
    | |- _ = match agent ?i ?r with _ => _ end =>
        destruct (agent i r) as [[response|e] r'];
        [destruct (response !! "output")|]
    end; reflexivity.
Qed.

(** The turns of every session after a run, from those before it. *)
Lemma process_message_turns env agent message session_id context s k :
  let sid := session_key env session_id s in
  let s' := snd (process_message env agent message session_id context s) in
  transcript s' k
  = if decide (sid = k)
    then match agent (agent_inputs env message session_id s)
                     (runtime_at_call session_id s) with
         | (Raise e, _) => transcript s k
         | (Ok response, _) =>
             match response !! "output" with
             | Some output =>
                 transcript s k ++ [HumanMessage message; AIMessage output]
             | None => transcript s k ++ [HumanMessage message]
             end
         end
    else transcript s k.
Proof.
  intros sid s'. subst s'. rewrite process_message_asks. fold sid.
  assert (Hsome : with_session sid (sessions s) !! sid = Some (transcript s sid)).
  { unfold with_session, transcript.
    destruct (sessions s !! sid) eqn:Hl; [by rewrite Hl|by rewrite lookup_insert_eq]. }
  assert (Hother : forall j, sid <> j ->
             with_session sid (sessions s) !! j = sessions s !! j).
  { intros j Hne. unfold with_session.
    destruct (sessions s !! sid); [reflexivity|by rewrite lookup_insert_ne]. }
  destruct (agent _ _) as [[response|e] r']; cbn [snd];
    [destruct (response !! "output") as [output|]|];
    unfold transcript; cbn [sessions];
    destruct (decide (sid = k)) as [<-|Hne]; cbn [snd sessions];
    rewrite ?lookup_alter_eq, ?lookup_alter_ne by congruence;
    rewrite ?Hsome, ?Hother by congruence;
    cbn; rewrite <- ?app_assoc; reflexivity.
Qed.

(** The sessions after a run: that of the run exists, the others are as
    they were. *)
Lemma process_message_sessions env agent message session_id context s k :
  let sid := session_key env session_id s in
  let s' := snd (process_message env agent message session_id context s) in
  sessions s' !! k
  = if decide (sid = k) then Some (transcript s' k) else sessions s !! k.
Proof.
  intros sid s'. subst s'. rewrite process_message_asks. fold sid.
  assert (Hsome : with_session sid (sessions s) !! sid = Some (transcript s sid)).
  { unfold with_session, transcript.
    destruct (sessions s !! sid) eqn:Hl; [by rewrite Hl|by rewrite lookup_insert_eq]. }
  assert (Hother : forall j, sid <> j ->
             with_session sid (sessions s) !! j = sessions s !! j).
  { intros j Hne. unfold with_session.
    destruct (sessions s !! sid); [reflexivity|by rewrite lookup_insert_ne]. }
  destruct (agent _ _) as [[response|e] r'];
    [destruct (response !! "output") as [output|]|];
    unfold transcript;
    destruct (decide (sid = k)) as [<-|Hne]; cbn [snd sessions];
    rewrite ?lookup_alter_eq, ?lookup_alter_ne by congruence;
    rewrite ?Hsome, ?Hother by congruence;
    reflexivity.
Qed.

(** X5: [process_message] only ever appends: after a run, every session
    that existed still exists, the turns each session had are still there,
    in place, and at most two turns have been added, to the one session of
    the run; and that session exists, even when the run ends in an error
    text. *)
Theorem sessions_are_append_only :
  forall env agent message session_id context s k,
    let s' := snd (process_message env agent message session_id context s) in
    transcript s k `prefix_of` transcript s' k
    /\ (length (transcript s' k) <= length (transcript s k) + 2)%nat
    /\ (k <> session_key env session_id s -> sessions s' !! k = sessions s !! k)
    /\ (is_Some (sessions s !! k) -> is_Some (sessions s' !! k))
    /\ is_Some (sessions s' !! session_key env session_id s).
Proof.
  intros env agent message session_id context s k s'.
  pose proof (process_message_turns env agent message session_id context s k) as Hturns.
  pose proof (process_message_sessions env agent message session_id context s) as Hlook.
  cbn zeta in Hturns, Hlook. fold s' in Hturns, Hlook.
  split; [|split; [|split; [|split]]].
  - rewrite Hturns. case_decide; [|reflexivity].
    destruct (agent _ _) as [[response|e] r']; [destruct (response !! "output")|];
      try reflexivity; apply prefix_app_r; reflexivity.
  - rewrite Hturns. case_decide; [|lia].
    destruct (agent _ _) as [[response|e] r']; [destruct (response !! "output")|];
      rewrite ?length_app; cbn [length]; lia.
  - clear Hturns. intros Hne. rewrite (Hlook k). case_decide; [congruence|reflexivity].
  - clear Hturns. intros Hk. rewrite (Hlook k).
    case_decide; [eexists; reflexivity|exact Hk].
  - clear Hturns. rewrite (Hlook (session_key env session_id s)).
    case_decide; [eexists; reflexivity|congruence].
Qed.

(** X6: the memory of a conversation.  After an exchange in a named
    session, in which the agent's output was [o1], the next message sent
    with the same session identifier is put to the agent together with the
    last 6 turns of the session as they are then: the earlier turns, the
    first message and [o1]; in a session that was new, with the two lines of
    that exchange. *)
Theorem conversation_is_remembered :
  forall env agent m1 m2 sid context s response r' o1,
    sid <> "" ->
    agent (agent_inputs env m1 (Some sid) s) (runtime_at_call (Some sid) s)
    = (Ok response, r') ->
    response !! "output" = Some o1 ->
    let s1 := snd (process_message env agent m1 (Some sid) context s) in
    chat_history (agent_inputs env m2 (Some sid) s1)
    = render_history
        (recent (transcript s sid ++ [HumanMessage m1; AIMessage o1])) ""
    /\ (transcript s sid = [] ->
        chat_history (agent_inputs env m2 (Some sid) s1)
        = "Human: " +:+ m1 +:+ nl +:+ "Assistant: " +:+ o1 +:+ nl).
Proof.
  intros env agent m1 m2 sid context s response r' o1 Hsid Hagent Hout s1.
  assert (Hkey : forall st, session_key env (Some sid) st = sid).
  { intros. unfold session_key. destruct (String.eqb_spec sid ""); congruence. }
  assert (Hturns : transcript s1 sid
                   = transcript s sid ++ [HumanMessage m1; AIMessage o1]).
  { subst s1. rewrite process_message_turns. rewrite Hkey.
    case_decide; [|congruence]. by rewrite Hagent, Hout. }
  assert (Hhist : chat_history (agent_inputs env m2 (Some sid) s1)
                  = render_history
                      (recent (transcript s sid ++ [HumanMessage m1; AIMessage o1])) "").
  { unfold agent_inputs. cbn [chat_history]. by rewrite Hkey, Hturns. }
  split; [exact Hhist|].
  intros Hnew. rewrite Hhist, Hnew. unfold recent. cbn [app length Nat.sub drop render_history].
  rewrite append_nil, !append_assoc'. reflexivity.
Qed.

Lemma lower_ascii_not_A c : PyString.lower_ascii c <> "A"%char.
Proof. destruct c as [[] [] [] [] [] [] [] []]; vm_compute; discriminate. Qed.

(** A text in lower case holds no word that starts with a capital A. *)
Lemma contains_A_lower p s :
  PyString.contains (String "A" p) (PyString.lower s) = false.
Proof.
  induction s as [|c s IH]; [reflexivity|].
  cbn [PyString.lower PyString.contains String.prefix].
  destruct (ascii_dec "A" (PyString.lower_ascii c)) as [Heq|_].
  - symmetry in Heq. by apply lower_ascii_not_A in Heq.
  - exact IH.
Qed.

(** X7: the texts [process_message] gives for an error.  The test for
    ["API key"] is made on the lowered text of the error and so never
    holds: the advice on API keys is given exactly when the lowered text
    holds ["invalid_api_key"]; every other error, also one that speaks of
    an "API key", gets the apology that quotes the error, with the advice
    on quotas or on rate limits after it when the text holds ["quota"] or
    ["rate limit"]. *)
Theorem error_message_classes :
  forall e,
    let lowered := PyString.lower (exn_str e) in
    PyString.contains "API key" lowered = false
    /\ (error_message e = api_key_error_message
        <-> PyString.contains "invalid_api_key" lowered = true)
    /\ (PyString.contains "invalid_api_key" lowered = false ->
        String.prefix (apology e) (error_message e) = true
        /\ (PyString.contains "quota" lowered = false ->
            PyString.contains "rate limit" lowered = false ->
            error_message e = apology e)).
Proof.
  intros e lowered.
  assert (Hdead : PyString.contains "API key" lowered = false)
    by apply contains_A_lower.
  split; [exact Hdead|].
  assert (Hother : PyString.contains "invalid_api_key" lowered = false ->
                   String.prefix (apology e) (error_message e) = true
                   /\ error_message e <> api_key_error_message
                   /\ (PyString.contains "quota" lowered = false ->
                       PyString.contains "rate limit" lowered = false ->
                       error_message e = apology e)).
  { intros Hno. unfold error_message. fold lowered. rewrite Hdead, Hno. cbn [orb].
    fold (apology e).
    assert (Hne : forall rest, apology e +:+ rest <> api_key_error_message).
    { intros rest H. unfold apology, api_key_error_message in H. simpl in H.
      discriminate. }
    destruct (PyString.contains "quota" lowered);
      [|destruct (PyString.contains "rate limit" lowered)].
    - rewrite ?append_assoc'. split; [apply prefix_append|].
      split; [apply Hne|discriminate].
    - rewrite ?append_assoc'. split; [apply prefix_append|].
      split; [apply Hne|discriminate].
    - split; [apply prefix_same|]. split; [|reflexivity].
      intros H. unfold apology, api_key_error_message in H. simpl in H. discriminate. }
  split; [|tauto].
  split.
  - intros Hkey. destruct (PyString.contains "invalid_api_key" lowered) eqn:Hc;
      [reflexivity|]. destruct (Hother eq_refl) as (_ & Hne & _). done.
  - intros Hyes. unfold error_message. fold lowered. rewrite Hyes, orb_true_r.
    reflexivity.
Qed.

End Conversations.

(* ===================================================================== *)
(** * Further properties of the endpoints and of the tools *)
(* ===================================================================== *)

Section EndpointOutcomes.
Import Datetime CalendarService.

(** X8: [POST /availability] answers with slots whenever the mock
    computation has an answer for the request, whatever the provider does;
    when it fails (HTTP 500), the mock computation has failed, and the
    detail of the failure is the text of the mock computation's error, not
    that of the error met on the real path. *)
Theorem availability_endpoint_fails_only_with_mock :
  forall env self request w,
    let mock := _get_mock_availability self (Api.start_date request)
                  (Api.end_date request) (Api.duration_minutes request) in
    match fst (Api.check_availability env self request w) with
    | Ok slots => True
    | Raise failure =>
        exists e, mock = Raise e /\ failure = Exn HTTPException (exn_str e)
    end.
Proof.
  intros env self request w mock.
  unfold Api.check_availability, get_availability, _check_availability.
  destruct (is_available self); cbn [negb]; unfold try_except, lift.
  - destruct (real_availability env self _ _ _ w) as [[slots|e] w1]; [exact I|].
    cbn. fold mock. destruct mock as [slots|e']; cbn; eauto.
  - fold mock. destruct mock as [slots|e']; cbn; eauto.
Qed.

(** X9: [DELETE /events/{id}].  With the provider unavailable the answer
    is a success for every identifier, and nothing is sent.  With the
    provider available one delete request is sent: the answer is a success
    when the provider accepts it, a plain [success: false] (no HTTP failure)
    when the provider fails with an [HttpError], and an HTTP 500 that
    quotes the error for an error of another class. *)
Theorem delete_endpoint_outcomes :
  forall env self event_id w,
    Api.cancel_event env self event_id w
    = if is_available self then
        (match execute_delete env (requests w) (calendar_id self) event_id with
         | Ok _ => Ok true
         | Raise e =>
             if is_HttpError e then Ok false
             else Raise (Exn HTTPException (exn_str e))
         end,
         sent (EventsDelete (calendar_id self) event_id) w)
      else (Ok true, w).
Proof.
  intros env self event_id w.
  unfold Api.cancel_event, delete_event, _check_availability.
  destruct (is_available self); cbn [negb]; [|reflexivity].
  unfold try_except, mbind, ST_bind, events_delete, lift.
  destruct (execute_delete env (requests w) (calendar_id self) event_id) as [[]|e];
    [reflexivity|].
  destruct (is_HttpError e); reflexivity.
Qed.

(** X10: [POST /book] checks nothing of the request.  With the provider
    unavailable every booking, also one whose times are no ISO texts, is
    answered as a success, with an identifier made of ["mock_event_"] and
    the reading of the clock, and nothing is sent.  With the provider
    available one insert request is sent with the request's fields as they
    came: the answer carries the identifier of the provider's event, and
    any error of the provider is an HTTP 500 that quotes it. *)
Theorem book_endpoint_outcomes :
  forall env self booking w,
    let body := insert_body self (Api.title booking) (Api.description booking)
                  (Api.start_time booking) (Api.end_time booking)
                  (Api.attendee_email booking) in
    if is_available self then
      snd (Api.book_appointment env self booking w)
      = sent (EventsInsert (calendar_id self) body) w
      /\ match execute_insert env (requests w) (calendar_id self) body with
         | Ok created =>
             fst (Api.book_appointment env self booking w)
             = Ok {| Api.success := true;
                     Api.event_id := er_id created;
                     Api.event := created |}
         | Raise e =>
             fst (Api.book_appointment env self booking w)
             = Raise (Exn HTTPException (exn_str e))
         end
    else
      exists event,
        Api.book_appointment env self booking w
        = (Ok {| Api.success := true;
                 Api.event_id := Some ("mock_event_" +:+ now_timestamp env (clock_reads w));
                 Api.event := event |},
           tick w)
        /\ er_start_dateTime event = Some (Api.start_time booking)
        /\ er_end_dateTime event = Some (Api.end_time booking)
        /\ er_status event = Some "mock_created".
Proof.
  intros env self booking w body.
  unfold Api.book_appointment, create_event, _check_availability.
  destruct (is_available self); cbn [negb].
  - unfold try_except, mbind, ST_bind, mret, ST_ret, events_insert, lift. fold body.
    destruct (execute_insert env (requests w) (calendar_id self) body) as [created|e].
    + split; reflexivity.
    + destruct (is_HttpError e); split; reflexivity.
  - eexists. split; [reflexivity|]. repeat split.
Qed.

End EndpointOutcomes.

Section BookingTool.
Import Datetime CalendarService Agent ToolSpec.

(** What the [try] block of the booking tool does with at least 4 fields. *)
Lemma book_appointment_fields env cs title description start_ end_ rest w :
  Forall is_field (title :: description :: start_ :: end_ :: rest) ->
  let start_time := midnight_padded (PyString.strip start_) in
  let end_time := midnight_padded (PyString.strip end_) in
  book_appointment_try env cs
    (booking_text (title :: description :: start_ :: end_ :: rest)) w
  = match fromisoformat start_time, fromisoformat end_time with
    | Ok _, Ok _ =>
        match create_event env cs (PyString.strip title) (PyString.strip description)
                start_time end_time (PyString.strip <$> head rest) w with
        | (Ok event, w') =>
            (Ok ("✅ Appointment booked successfully! Event ID: "
                 +:+ default "None" (er_id event)
                 +:+ (if negb (is_available cs) then demo_booking_note else "")), w')
        | (Raise e, w') => (Raise e, w')
        end
    | Raise e, _ => (Raise e, w)
    | Ok _, Raise e => (Raise e, w)
    end.
Proof.
  intros Hfields start_time end_time. unfold book_appointment_try, booking_text.
  rewrite (split_join_char "|") by (exact Hfields || discriminate).
  destruct rest as [|email rest];
    cbn [length Nat.ltb Nat.leb nth head fmap option_fmap option_map];
    fold (midnight_padded (PyString.strip start_)); fold start_time;
    fold (midnight_padded (PyString.strip end_)); fold end_time;
    unfold mbind, ST_bind, lift, mret, ST_ret;
    (destruct (fromisoformat start_time); [|reflexivity]);
    (destruct (fromisoformat end_time); [|reflexivity]);
    destruct (create_event _ _ _ _ _ _ _ _) as [[event|e] w']; reflexivity.
Qed.

(** X11: a booking text is read back field by field.  For fields without
    [|], the tool given [title|description|start|end] (and an email, and
    whatever follows, which is ignored) answers the error of the first of the
    two times that is no ISO text once stripped and padded with midnight,
    leaving the world as it was; otherwise it calls [create_event] with the
    stripped title and description, the two times and the stripped email,
    and answers the text of the booking with the event's identifier, or the
    text of the error [create_event] raises. *)
Theorem booking_text_is_read_back :
  forall env cs title description start_ end_ rest w,
    Forall is_field (title :: description :: start_ :: end_ :: rest) ->
    let start_time := midnight_padded (PyString.strip start_) in
    let end_time := midnight_padded (PyString.strip end_) in
    book_appointment_tool env cs
      (booking_text (title :: description :: start_ :: end_ :: rest)) w
    = match fromisoformat start_time, fromisoformat end_time with
      | Ok _, Ok _ =>
          match create_event env cs (PyString.strip title)
                  (PyString.strip description) start_time end_time
                  (PyString.strip <$> head rest) w with
          | (Ok event, w') => (Ok (booked_text cs event), w')
          | (Raise e, w') => (Ok (booking_error_text e), w')
          end
      | Raise e, _ => (Ok (booking_error_text e), w)
      | Ok _, Raise e => (Ok (booking_error_text e), w)
      end.
Proof.
  intros env cs title description start_ end_ rest w Hfields start_time end_time.
  unfold book_appointment_tool. rewrite catch_all_returns.
  rewrite book_appointment_fields by exact Hfields. cbn zeta.
  fold start_time end_time.
  destruct (fromisoformat start_time); [|reflexivity].
  destruct (fromisoformat end_time); [|reflexivity].
  destruct (create_event _ _ _ _ _ _ _ _) as [[event|e] w']; reflexivity.
Qed.

(** X12: a booking made while the provider is unavailable.  For fields
    without [|] and two ISO times, the tool answers that the appointment is
    booked, with the identifier ["mock_event_"] followed by the reading of
    the clock, and the note that this is a demo booking; nothing is sent to
    the provider. *)
Theorem offline_booking_is_a_demo :
  forall env cs title description start_ end_ rest w,
    is_available cs = false ->
    Forall is_field (title :: description :: start_ :: end_ :: rest) ->
    is_iso (midnight_padded (PyString.strip start_)) ->
    is_iso (midnight_padded (PyString.strip end_)) ->
    book_appointment_tool env cs
      (booking_text (title :: description :: start_ :: end_ :: rest)) w
    = (Ok ("✅ Appointment booked successfully! Event ID: mock_event_"
           +:+ now_timestamp env (clock_reads w) +:+ demo_booking_note),
       tick w).
Proof.
  intros env cs title description start_ end_ rest w Hoff Hfields [s Hs] [e He].
  unfold book_appointment_tool. rewrite catch_all_returns.
  rewrite book_appointment_fields by exact Hfields. cbn zeta. rewrite Hs, He.
  unfold create_event, _check_availability. rewrite Hoff. cbn.
  rewrite ?append_assoc'. reflexivity.
Qed.

(** X13: whatever text the booking tool is given, it sends the provider at
    most one request, an insert request whose two times are ISO texts: a
    time that is no ISO text never reaches the provider. *)
Theorem booking_tool_sends_iso_times_only :
  forall env cs text w,
    let w' := snd (book_appointment_tool env cs text w) in
    requests w' = requests w
    \/ exists r, requests w' = requests w ++ [r] /\ well_timed r.
Proof.
  intros env cs text w w'. subst w'.
  unfold book_appointment_tool. rewrite catch_all_returns.
  unfold book_appointment_try.
  destruct (length (PyString.split "|" text) <? 4)%nat; [left; reflexivity|].
  unfold mbind, ST_bind, lift, mret, ST_ret.
  match goal with
  | |- context [fromisoformat ?t] =>
      destruct (fromisoformat t) as [start_dt|] eqn:Hs; [|left; reflexivity]
  end.
  match goal with
  | |- context [match fromisoformat ?t with _ => _ end] =>
      destruct (fromisoformat t) as [end_dt|] eqn:He; [|left; reflexivity]
  end.
  unfold create_event, _check_availability.
  destruct (is_available cs); cbn [negb].
  - right. unfold try_except, mbind, ST_bind, events_insert, lift, mret, ST_ret.
    eexists (EventsInsert _ _).
    split.
    + destruct (execute_insert _ _ _ _) as [created|e]; [reflexivity|].
      destruct (is_HttpError e); reflexivity.
    + cbn. split; eexists; eassumption.
  - left. reflexivity.
Qed.

End BookingTool.

Section EventsTool.
Import Datetime CalendarService Agent ToolSpec.

(** X14: what the events tool makes of a calendar it cannot read, for a
    text that gives the two dates.  With the provider unavailable it
    answers that there are no events, with the note that the calendar is not
    connected, and sends nothing.  With the provider available and two ISO
    dates it sends one list request; when the provider fails with an
    [HttpError] the answer is the plain "no events" text, the very answer
    of an empty calendar; an error of another class is told. *)
Theorem events_tool_on_unreadable_calendar :
  forall env cs text w start_date end_date,
    explicit_date_range text = Some (start_date, end_date) ->
    (is_available cs = false ->
     get_existing_events_tool env cs text w
     = (Ok (no_events_text +:+ no_events_note), w))
    /\ (is_available cs = true ->
        forall start_dt end_dt,
          fromisoformat start_date = Ok start_dt ->
          fromisoformat end_date = Ok end_dt ->
          let timeMin := isoformat start_dt +:+ "Z" in
          let timeMax := isoformat end_dt +:+ "Z" in
          match execute_list env (requests w) (calendar_id cs) timeMin timeMax with
          | Ok [] =>
              get_existing_events_tool env cs text w
              = (Ok no_events_text,
                 sent (EventsList (calendar_id cs) timeMin timeMax) w)
          | Ok (_ :: _) => True
          | Raise e =>
              get_existing_events_tool env cs text w
              = (Ok (if is_HttpError e then no_events_text
                     else "Error getting events: " +:+ exn_str e),
                 sent (EventsList (calendar_id cs) timeMin timeMax) w)
          end).
Proof.
  intros env cs text w start_date end_date Hrange.
  unfold get_existing_events_tool. rewrite catch_all_returns.
  unfold get_existing_events_try, parse_date_range. rewrite Hrange.
  unfold get_events, _check_availability. split.
  - intros ->. reflexivity.
  - intros -> start_dt end_dt Hs He. cbn [negb].
    unfold try_except, mbind, ST_bind, lift, mret, ST_ret, events_list.
    rewrite Hs, He. cbn.
    destruct (execute_list env (requests w) (calendar_id cs)
                (isoformat start_dt +:+ "Z") (isoformat end_dt +:+ "Z"))
      as [[|item items]|e]; [reflexivity|exact I|].
    cbn. destruct (is_HttpError e); reflexivity.
Qed.

End EventsTool.

Section MockGridResult.
Import Datetime CalendarService Spec MockGrid.

Lemma mock_hours_loop_exact hours d dur acc out :
  mock_hours_loop hours d dur acc = Ok out ->
  exists found, out = acc ++ found
                /\ Forall2 (slot_of dur) (combine_hour d <$> hours) found.
Proof.
  revert acc. induction hours as [|h hours IH]; intros acc; cbn [mock_hours_loop].
  - intros [= <-]. exists []. split; [by rewrite app_nil_r|constructor].
  - destruct (add_minutes (combine_hour d h) dur) as [slot_end|] eqn:Hend;
      cbn [mbind result_bind rbind]; [|discriminate].
    intros Hrest. apply IH in Hrest as (found & -> & Hfound).
    exists (mk_slot (combine_hour d h) slot_end :: found).
    split; [by rewrite <- app_assoc|].
    cbn [fmap list_fmap]. constructor; [|exact Hfound].
    exists slot_end. auto.
Qed.

Lemma mock_day_body_exact d dur acc out :
  mock_day_body d dur acc = Ok out ->
  exists found, out = acc ++ found
                /\ Forall2 (slot_of dur) (mock_day_candidates d) found.
Proof.
  unfold mock_day_body, mock_day_candidates. destruct (weekday d <? 5).
  - apply mock_hours_loop_exact.
  - intros [= <-]. exists []. split; [by rewrite app_nil_r|constructor].
Qed.

Lemma mock_candidates_step first last :
  first <= last ->
  mock_candidates first last
  = mock_day_candidates first ++ mock_candidates (first + 1) last.
Proof.
  intros. unfold mock_candidates. rewrite (range_cons first) by lia. apply bind_cons.
Qed.

(** The loop stops on the grid of the range: it has gone through all of it,
    or through a first part of it that gave 10 slots or more. *)
Lemma mock_days_loop_exact dur last cur acc out :
  mock_days_loop dur last cur acc = Ok out ->
  exists cands found,
    out = acc ++ found
    /\ Forall2 (slot_of dur) cands found
    /\ cands `prefix_of` mock_candidates cur last
    /\ (cands = mock_candidates cur last \/ (10 <= length out)%nat).
Proof.
  remember (Z.to_nat (last + 1 - cur)) as n eqn:Hn.
  revert cur acc Hn. induction n as [|n IH]; intros cur acc Hn;
    rewrite mock_days_loop_eq;
    destruct (decide (cur <= last /\ (length acc < 10)%nat)) as [[Hle Hlen]|Hstop];
    try lia.
  - intros [= <-]. exists [], []. rewrite app_nil_r.
    split; [reflexivity|]. split; [constructor|]. split; [apply prefix_nil|].
    destruct (decide (cur <= last)) as [Hle|Hgt]; [right; lia|left].
    unfold mock_candidates. by rewrite range_nil by lia.
  - destruct (mock_day_body cur dur acc) as [slots|] eqn:Hday;
      cbn [mbind result_bind rbind]; [|discriminate].
    destruct (date_add_days cur 1) as [next|] eqn:Hnext;
      cbn [mbind result_bind rbind]; [|discriminate].
    apply date_add_days_Ok in Hnext as ->.
    apply mock_day_body_exact in Hday as (today & -> & Htoday).
    intros Hrest. apply IH in Hrest as (cands & found & -> & Hfound & Hpre & Hend);
      [|lia].
    exists (mock_day_candidates cur ++ cands), (today ++ found).
    split; [by rewrite <- app_assoc|].
    split; [by apply Forall2_app|].
    rewrite (mock_candidates_step cur last) by lia.
    split; [by apply prefix_app|].
    destruct Hend as [->|Hlong]; [by left|right; exact Hlong].
  - intros [= <-]. exists [], []. rewrite app_nil_r.
    split; [reflexivity|]. split; [constructor|]. split; [apply prefix_nil|].
    destruct (decide (cur <= last)) as [Hle|Hgt]; [right; lia|left].
    unfold mock_candidates. by rewrite range_nil by lia.
Qed.

(** X15: the slots of the mock computation are exactly the first 10 of the
    grid of the range, in order: the slots that start at 9, 11, 14 and 16
    on each weekday from the start date to the end date (for ISO dates, a
    range that ends before 9999-12-31 and a slot of a day at most).  That the
    loop stops once it holds 10 slots changes nothing of the answer. *)
Theorem mock_availability_is_first_ten_of_grid :
  forall self start_date end_date duration_minutes start_dt end_dt,
    fromisoformat start_date = Ok start_dt ->
    fromisoformat end_date = Ok end_dt ->
    date end_dt < _MAXORDINAL ->
    0 <= duration_minutes <= 1440 ->
    exists slots,
      _get_mock_availability self start_date end_date duration_minutes = Ok slots
      /\ Forall2 (slot_of duration_minutes)
                 (take 10 (mock_candidates (date start_dt) (date end_dt))) slots.
Proof.
  intros self start_date end_date dur start_dt end_dt Hs He Hlast Hdur.
  pose proof (fromisoformat_ordinal_pos _ _ Hs) as Hpos.
  destruct (mock_days_loop_returns dur (date end_dt) (date start_dt) [] Hpos Hlast Hdur)
    as (all_slots & Hloop).
  exists (take 10 all_slots). split.
  { unfold _get_mock_availability. rewrite Hs, He. cbn [mbind result_bind rbind].
    rewrite Hloop. reflexivity. }
  apply mock_days_loop_exact in Hloop as (cands & found & Hout & Hfound & Hpre & Hend).
  cbn [app] in Hout. subst found.
  destruct Hend as [->|Hlong]; [by apply Forall2_take|].
  destruct Hpre as (more & ->).
  rewrite take_app_le by (rewrite (Forall2_length _ _ _ Hfound); exact Hlong).
  by apply Forall2_take.
Qed.

End MockGridResult.

Section CivilDates.
Import Datetime.

Lemma checked_below (P : Z -> bool) (b : Z) :
  forallb P (range 0 b) = true -> forall n, 0 <= n < b -> P n = true.
Proof.
  intros Hall n Hn. rewrite forallb_forall in Hall. apply Hall.
  apply list_elem_of_In, elem_of_range. lia.
Qed.

(** The month and the day of the [n]-th day of a year, as [_ord2ymd] finds
    them from the estimate [(n + 50) >> 5]. *)
Lemma month_of_day_of_year (leapyear : bool) (n : Z) :
  0 <= n < 365 ->
  let valid m d :=
    1 <= m <= 12
    /\ 1 <= d <= (if (m =? 2) && leapyear then 29 else month_entry _DAYS_IN_MONTH m)
    /\ month_entry _DAYS_BEFORE_MONTH m
       + (if (2 <? m) && leapyear then 1 else 0) + d = n + 1 in
  let month := Z.shiftr (n + 50) 5 in
  let preceding :=
    month_entry _DAYS_BEFORE_MONTH month
    + (if (2 <? month) && leapyear then 1 else 0) in
  if n <? preceding then
    valid (month - 1)
          (n - (preceding
                - (month_entry _DAYS_IN_MONTH (month - 1)
                   + (if (month - 1 =? 2) && leapyear then 1 else 0))) + 1)
  else valid month (n - preceding + 1).
Proof.
  intros Hn.
  pose (valid := fun m d =>
    (1 <=? m) && (m <=? 12) && (1 <=? d)
    && (d <=? (if (m =? 2) && leapyear then 29 else month_entry _DAYS_IN_MONTH m))
    && (month_entry _DAYS_BEFORE_MONTH m
        + (if (2 <? m) && leapyear then 1 else 0) + d =? n + 1)).
  pose (check := fun n =>
    let valid m d :=
      (1 <=? m) && (m <=? 12) && (1 <=? d)
      && (d <=? (if (m =? 2) && leapyear then 29 else month_entry _DAYS_IN_MONTH m))
      && (month_entry _DAYS_BEFORE_MONTH m
          + (if (2 <? m) && leapyear then 1 else 0) + d =? n + 1) in
    let month := Z.shiftr (n + 50) 5 in
    let preceding :=
      month_entry _DAYS_BEFORE_MONTH month
      + (if (2 <? month) && leapyear then 1 else 0) in
    if n <? preceding then
      valid (month - 1)
            (n - (preceding
                  - (month_entry _DAYS_IN_MONTH (month - 1)
                     + (if (month - 1 =? 2) && leapyear then 1 else 0))) + 1)
    else valid month (n - preceding + 1)).
  assert (Hall : forallb check (range 0 365) = true)
    by (destruct leapyear; vm_compute; reflexivity).
  pose proof (checked_below check 365 Hall n Hn) as Hc.
  subst check. cbv beta zeta in Hc. cbv zeta.
  destruct (n <? _);
    repeat rewrite andb_true_iff in Hc; destruct Hc as ((((H1 & H2) & H3) & H4) & H5);
    lia.
Qed.

Lemma is_leap_split a b c e :
  0 <= b <= 3 -> 0 <= c <= 24 -> 0 <= e <= 3 ->
  _is_leap (a * 400 + 1 + b * 100 + c * 4 + e)
  = (e =? 3) && (negb (c =? 24) || (b =? 3)).
Proof.
  intros Hb Hc He. unfold _is_leap.
  set (y := a * 400 + 1 + b * 100 + c * 4 + e).
  pose proof (Z.div_mod y 4 ltac:(lia)) as E4.
  pose proof (Z.mod_pos_bound y 4 ltac:(lia)) as B4.
  pose proof (Z.div_mod y 100 ltac:(lia)) as E100.
  pose proof (Z.mod_pos_bound y 100 ltac:(lia)) as B100.
  pose proof (Z.div_mod y 400 ltac:(lia)) as E400.
  pose proof (Z.mod_pos_bound y 400 ltac:(lia)) as B400.
  generalize dependent (y / 4). generalize dependent (y mod 4).
  generalize dependent (y / 100). generalize dependent (y mod 100).
  generalize dependent (y / 400). generalize dependent (y mod 400).
  subst y. intros r400 q400 E400 B400 r100 q100 E100 B100 r4 q4 E4 B4.
  destruct (Z.eqb_spec r4 0), (Z.eqb_spec r100 0), (Z.eqb_spec r400 0),
    (Z.eqb_spec e 3), (Z.eqb_spec c 24), (Z.eqb_spec b 3);
    cbn; try reflexivity; exfalso; lia.
Qed.

Lemma days_before_year_split a b c e :
  0 <= b <= 3 -> 0 <= c <= 24 -> 0 <= e <= 3 ->
  _days_before_year (a * 400 + 1 + b * 100 + c * 4 + e)
  = a * _DI400Y + b * _DI100Y + c * _DI4Y + e * 365.
Proof.
  intros Hb Hc He. unfold _days_before_year, _DI400Y, _DI100Y, _DI4Y. cbv zeta.
  set (y := a * 400 + 1 + b * 100 + c * 4 + e - 1).
  assert (H4 : y / 4 = a * 100 + b * 25 + c).
  { symmetry. apply (Z.div_unique y 4 _ e); [lia|subst y; lia]. }
  assert (H100 : y / 100 = a * 4 + b).
  { symmetry. apply (Z.div_unique y 100 _ (c * 4 + e)); [lia|subst y; lia]. }
  assert (H400 : y / 400 = a).
  { symmetry. apply (Z.div_unique y 400 _ (b * 100 + c * 4 + e)); [lia|subst y; lia]. }
  rewrite H4, H100, H400. subst y. lia.
Qed.

(** The civil date of an ordinal is a date of the calendar, and it has that
    ordinal. *)
Lemma ord2ymd_ymd2ord n :
  1 <= n <= _MAXORDINAL ->
  exists y m d,
    _ord2ymd n = (y, m, d)
    /\ 1 <= y <= 9999 /\ 1 <= m <= 12 /\ 1 <= d <= _days_in_month y m
    /\ _ymd2ord y m d = n.
Proof.
  intros Hn. unfold _ord2ymd, _MAXORDINAL in *. cbv zeta.
  pose proof (Z.div_mod (n - 1) _DI400Y ltac:(discriminate)) as E400.
  pose proof (Z.mod_pos_bound (n - 1) _DI400Y ltac:(reflexivity)) as B400.
  set (a := (n - 1) / _DI400Y) in *. set (r400 := (n - 1) mod _DI400Y) in *.
  pose proof (Z.div_mod r400 _DI100Y ltac:(discriminate)) as E100.
  pose proof (Z.mod_pos_bound r400 _DI100Y ltac:(reflexivity)) as B100.
  set (b := r400 / _DI100Y) in *. set (r100 := r400 mod _DI100Y) in *.
  pose proof (Z.div_mod r100 _DI4Y ltac:(discriminate)) as E4.
  pose proof (Z.mod_pos_bound r100 _DI4Y ltac:(reflexivity)) as B4.
  set (c := r100 / _DI4Y) in *. set (r4 := r100 mod _DI4Y) in *.
  pose proof (Z.div_mod r4 365 ltac:(discriminate)) as E1.
  pose proof (Z.mod_pos_bound r4 365 ltac:(reflexivity)) as B1.
  set (e := r4 / 365) in *. set (r1 := r4 mod 365) in *.
  clearbody a r400 b r100 c r4 e r1. unfold _DI400Y, _DI100Y, _DI4Y in *.
  assert (Ha : 0 <= a <= 24) by lia.
  assert (Hb : 0 <= b <= 4) by lia.
  assert (Hc : 0 <= c <= 24) by lia.
  assert (He : 0 <= e <= 4) by lia.
  destruct (Z.eqb_spec e 4) as [He4|He4]; [|destruct (Z.eqb_spec b 4) as [Hb4|Hb4]];
    cbn [orb].
  - (* the last day of a leap year that ends a cycle of 4 years *)
    exists (a * 400 + 1 + b * 100 + c * 4 + e - 1), 12, 31.
    split; [reflexivity|].
    assert (Hb3 : b <= 3) by lia. assert (Hc23 : c <= 23) by lia.
    replace (a * 400 + 1 + b * 100 + c * 4 + e - 1)
      with (a * 400 + 1 + b * 100 + c * 4 + 3) by lia.
    unfold _ymd2ord, _days_before_month, _days_in_month.
    rewrite days_before_year_split, is_leap_split by lia.
    unfold _DI400Y, _DI100Y, _DI4Y.
    change (month_entry _DAYS_BEFORE_MONTH 12) with 334.
    change (month_entry _DAYS_IN_MONTH 12) with 31.
    change (12 =? 2) with false. change (2 <? 12) with true.
    destruct (Z.eqb_spec c 24); [lia|]. cbn [andb orb negb Z.eqb Pos.eqb]. lia.
  - (* the last day of a cycle of 400 years *)
    exists (a * 400 + 1 + b * 100 + c * 4 + e - 1), 12, 31.
    split; [reflexivity|].
    replace (a * 400 + 1 + b * 100 + c * 4 + e - 1)
      with (a * 400 + 1 + 3 * 100 + 24 * 4 + 3) by lia.
    unfold _ymd2ord, _days_before_month, _days_in_month.
    rewrite days_before_year_split, is_leap_split by lia.
    unfold _DI400Y, _DI100Y, _DI4Y.
    change (month_entry _DAYS_BEFORE_MONTH 12) with 334.
    change (month_entry _DAYS_IN_MONTH 12) with 31.
    change (12 =? 2) with false. change (2 <? 12) with true.
    cbn [andb orb negb Z.eqb Pos.eqb]. lia.
  - set (leapyear := (e =? 3) && (negb (c =? 24) || (b =? 3))).
    pose proof (month_of_day_of_year leapyear r1 B1) as Hmd. cbv zeta in Hmd.
    assert (Hleap : _is_leap (a * 400 + 1 + b * 100 + c * 4 + e) = leapyear)
      by (apply is_leap_split; lia).
    assert (Hdby : _days_before_year (a * 400 + 1 + b * 100 + c * 4 + e)
                   = a * 146097 + b * 36524 + c * 1461 + e * 365)
      by (apply days_before_year_split; lia).
    assert (Hy : 1 <= a * 400 + 1 + b * 100 + c * 4 + e <= 9999) by lia.
    destruct (r1 <? _); eexists _, _, _; (split; [reflexivity|]);
      destruct Hmd as (Hm & Hd & Hsum);
      unfold _ymd2ord, _days_before_month, _days_in_month;
      rewrite Hleap, Hdby; repeat split; try lia.
Qed.

End CivilDates.

Section IsoTexts.
Import Datetime.

Lemma digit_of_ascii_of_digit x :
  PyString.digit_of_ascii (PyString.ascii_of_digit x) = Some (x mod 10).
Proof.
  unfold PyString.ascii_of_digit.
  pose proof (Z.mod_pos_bound x 10 ltac:(lia)) as Hb.
  assert (Hk : x mod 10 ∈ seqZ 0 10) by (apply elem_of_seqZ; lia).
  generalize dependent (x mod 10). intros k _ Hk.
  vm_compute in Hk. repeat (apply elem_of_cons in Hk as [->|Hk]);
    [reflexivity ..|by apply elem_of_nil in Hk].
Qed.

(** A digit is none of the signs that separate the fields of an ISO text. *)
Lemma digit_is_no_sign c v :
  PyString.digit_of_ascii c = Some v ->
  Ascii.eqb "-" c = false /\ Ascii.eqb "+" c = false.
Proof.
  destruct c as [[] [] [] [] [] [] [] []]; vm_compute; intros H;
    (discriminate H || (split; reflexivity)).
Qed.

Lemma parse_date_chars y1 y2 y3 y4 m1 m2 d1 d2 a1 a2 a3 a4 b1 b2 c1 c2 :
  PyString.digit_of_ascii y1 = Some a1 -> PyString.digit_of_ascii y2 = Some a2 ->
  PyString.digit_of_ascii y3 = Some a3 -> PyString.digit_of_ascii y4 = Some a4 ->
  PyString.digit_of_ascii m1 = Some b1 -> PyString.digit_of_ascii m2 = Some b2 ->
  PyString.digit_of_ascii d1 = Some c1 -> PyString.digit_of_ascii d2 = Some c2 ->
  _parse_isoformat_date
    (String y1 (String y2 (String y3 (String y4 (String "-"
      (String m1 (String m2 (String "-" (String d1 (String d2 EmptyString))))))))))
  = Some ((((0 * 10 + a1) * 10 + a2) * 10 + a3) * 10 + a4,
          (0 * 10 + b1) * 10 + b2, (0 * 10 + c1) * 10 + c2).
Proof.
  intros Hy1 Hy2 Hy3 Hy4 Hm1 Hm2 Hd1 Hd2.
  unfold _parse_isoformat_date.
  cbn -[PyString.digit_of_ascii Z.mul Z.add].
  rewrite Hy1, Hy2, Hy3, Hy4, Hm1, Hm2, Hd1, Hd2. reflexivity.
Qed.

Lemma parse_time_chars h1 h2 i1 i2 s1 s2 a1 a2 b1 b2 c1 c2 :
  PyString.digit_of_ascii h1 = Some a1 -> PyString.digit_of_ascii h2 = Some a2 ->
  PyString.digit_of_ascii i1 = Some b1 -> PyString.digit_of_ascii i2 = Some b2 ->
  PyString.digit_of_ascii s1 = Some c1 -> PyString.digit_of_ascii s2 = Some c2 ->
  _parse_isoformat_time
    (String h1 (String h2 (String ":" (String i1 (String i2 (String ":"
      (String s1 (String s2 EmptyString))))))))
  = Some ((0 * 10 + a1) * 10 + a2, (0 * 10 + b1) * 10 + b2,
          (0 * 10 + c1) * 10 + c2, 0, None).
Proof.
  intros Hh1 Hh2 Hi1 Hi2 Hs1 Hs2.
  destruct (digit_is_no_sign _ _ Hh1) as [Mh1 Ph1].
  destruct (digit_is_no_sign _ _ Hh2) as [Mh2 Ph2].
  destruct (digit_is_no_sign _ _ Hi1) as [Mi1 Pi1].
  destruct (digit_is_no_sign _ _ Hi2) as [Mi2 Pi2].
  destruct (digit_is_no_sign _ _ Hs1) as [Ms1 Ps1].
  destruct (digit_is_no_sign _ _ Hs2) as [Ms2 Ps2].
  unfold _parse_isoformat_time.
  cbn -[PyString.digit_of_ascii Z.mul Z.add Ascii.eqb _parse_hh_mm_ss_ff].
  rewrite Mh1, Mh2, Mi1, Mi2, Ms1, Ms2, Ph1, Ph2, Pi1, Pi2, Ps1, Ps2.
  change (Ascii.eqb "-" ":") with false. change (Ascii.eqb "+" ":") with false.
  cbn -[PyString.digit_of_ascii Z.mul Z.add Ascii.eqb].
  rewrite Hh1, Hh2, Hi1, Hi2, Hs1, Hs2. reflexivity.
Qed.

Lemma parse_time_micro_chars h1 h2 i1 i2 s1 s2 f1 f2 f3 f4 f5 f6
      a1 a2 b1 b2 c1 c2 e1 e2 e3 e4 e5 e6 :
  PyString.digit_of_ascii h1 = Some a1 -> PyString.digit_of_ascii h2 = Some a2 ->
  PyString.digit_of_ascii i1 = Some b1 -> PyString.digit_of_ascii i2 = Some b2 ->
  PyString.digit_of_ascii s1 = Some c1 -> PyString.digit_of_ascii s2 = Some c2 ->
  PyString.digit_of_ascii f1 = Some e1 -> PyString.digit_of_ascii f2 = Some e2 ->
  PyString.digit_of_ascii f3 = Some e3 -> PyString.digit_of_ascii f4 = Some e4 ->
  PyString.digit_of_ascii f5 = Some e5 -> PyString.digit_of_ascii f6 = Some e6 ->
  _parse_isoformat_time
    (String h1 (String h2 (String ":" (String i1 (String i2 (String ":"
      (String s1 (String s2 (String "."
        (String f1 (String f2 (String f3 (String f4 (String f5 (String f6
          EmptyString)))))))))))))))
  = Some ((0 * 10 + a1) * 10 + a2, (0 * 10 + b1) * 10 + b2,
          (0 * 10 + c1) * 10 + c2,
          (((((0 * 10 + e1) * 10 + e2) * 10 + e3) * 10 + e4) * 10 + e5) * 10 + e6,
          None).
Proof.
  intros Hh1 Hh2 Hi1 Hi2 Hs1 Hs2 Hf1 Hf2 Hf3 Hf4 Hf5 Hf6.
  destruct (digit_is_no_sign _ _ Hh1) as [Mh1 Ph1].
  destruct (digit_is_no_sign _ _ Hh2) as [Mh2 Ph2].
  destruct (digit_is_no_sign _ _ Hi1) as [Mi1 Pi1].
  destruct (digit_is_no_sign _ _ Hi2) as [Mi2 Pi2].
  destruct (digit_is_no_sign _ _ Hs1) as [Ms1 Ps1].
  destruct (digit_is_no_sign _ _ Hs2) as [Ms2 Ps2].
  destruct (digit_is_no_sign _ _ Hf1) as [Mf1 Pf1].
  destruct (digit_is_no_sign _ _ Hf2) as [Mf2 Pf2].
  destruct (digit_is_no_sign _ _ Hf3) as [Mf3 Pf3].
  destruct (digit_is_no_sign _ _ Hf4) as [Mf4 Pf4].
  destruct (digit_is_no_sign _ _ Hf5) as [Mf5 Pf5].
  destruct (digit_is_no_sign _ _ Hf6) as [Mf6 Pf6].
  unfold _parse_isoformat_time.
  cbn -[PyString.digit_of_ascii Z.mul Z.add Ascii.eqb _parse_hh_mm_ss_ff].
  rewrite Mh1, Mh2, Mi1, Mi2, Ms1, Ms2, Ph1, Ph2, Pi1, Pi2, Ps1, Ps2,
    Mf1, Mf2, Mf3, Mf4, Mf5, Mf6, Pf1, Pf2, Pf3, Pf4, Pf5, Pf6.
  change (Ascii.eqb "-" ":") with false. change (Ascii.eqb "+" ":") with false.
  change (Ascii.eqb "-" ".") with false. change (Ascii.eqb "+" ".") with false.
  cbn -[PyString.digit_of_ascii Z.mul Z.add Ascii.eqb].
  rewrite Hh1, Hh2, Hi1, Hi2, Hs1, Hs2.
  change (Ascii.eqb ":" ":") with true.
  cbn -[PyString.digit_of_ascii Z.mul Z.add Ascii.eqb].
  change (Ascii.eqb "." ".") with true.
  cbn -[PyString.digit_of_ascii Z.mul Z.add Ascii.eqb].
  rewrite Hf1, Hf2, Hf3, Hf4, Hf5, Hf6. reflexivity.
Qed.

(** The text [YYYY-MM-DDTHH:MM:SS] read digit by digit. *)
Lemma fromisoformat_chars y1 y2 y3 y4 m1 m2 d1 d2 h1 h2 i1 i2 s1 s2
      year month day hh mm ss :
  _parse_isoformat_date
    (String y1 (String y2 (String y3 (String y4 (String "-"
      (String m1 (String m2 (String "-" (String d1 (String d2 EmptyString))))))))))
  = Some (year, month, day) ->
  _parse_isoformat_time
    (String h1 (String h2 (String ":" (String i1 (String i2 (String ":"
      (String s1 (String s2 EmptyString))))))))
  = Some (hh, mm, ss, 0, None) ->
  _check_fields year month day hh mm ss 0 = true ->
  fromisoformat
    (String y1 (String y2 (String y3 (String y4 (String "-"
      (String m1 (String m2 (String "-" (String d1 (String d2 (String "T"
        (String h1 (String h2 (String ":" (String i1 (String i2 (String ":"
          (String s1 (String s2 EmptyString)))))))))))))))))))
  = Ok (mk_datetime (_ymd2ord year month day) hh mm ss 0 None).
Proof.
  intros Hdate Htime Hcheck. unfold fromisoformat.
  cbn [PyString.slice PyString.slice_from String.length Nat.sub substring].
  rewrite Hdate, Htime. cbn [mbind option_bind]. rewrite Hcheck. reflexivity.
Qed.

Lemma fromisoformat_micro_chars y1 y2 y3 y4 m1 m2 d1 d2 h1 h2 i1 i2 s1 s2
      f1 f2 f3 f4 f5 f6 year month day hh mm ss ff :
  _parse_isoformat_date
    (String y1 (String y2 (String y3 (String y4 (String "-"
      (String m1 (String m2 (String "-" (String d1 (String d2 EmptyString))))))))))
  = Some (year, month, day) ->
  _parse_isoformat_time
    (String h1 (String h2 (String ":" (String i1 (String i2 (String ":"
      (String s1 (String s2 (String "."
        (String f1 (String f2 (String f3 (String f4 (String f5 (String f6
          EmptyString)))))))))))))))
  = Some (hh, mm, ss, ff, None) ->
  _check_fields year month day hh mm ss ff = true ->
  fromisoformat
    (String y1 (String y2 (String y3 (String y4 (String "-"
      (String m1 (String m2 (String "-" (String d1 (String d2 (String "T"
        (String h1 (String h2 (String ":" (String i1 (String i2 (String ":"
          (String s1 (String s2 (String "."
            (String f1 (String f2 (String f3 (String f4 (String f5 (String f6
              EmptyString))))))))))))))))))))))))))
  = Ok (mk_datetime (_ymd2ord year month day) hh mm ss ff None).
Proof.
  intros Hdate Htime Hcheck. unfold fromisoformat.
  cbn [PyString.slice PyString.slice_from String.length Nat.sub substring].
  rewrite Hdate, Htime. cbn [mbind option_bind]. rewrite Hcheck. reflexivity.
Qed.


Lemma two_digits n :
  0 <= n < 100 -> (0 * 10 + (n / 10) mod 10) * 10 + n mod 10 = n.
Proof. intros. Z.div_mod_to_equations. lia. Qed.

Lemma four_digits n :
  0 <= n < 10000 ->
  (((0 * 10 + (n / 10 / 10 / 10) mod 10) * 10 + (n / 10 / 10) mod 10) * 10
   + (n / 10) mod 10) * 10 + n mod 10 = n.
Proof. intros. Z.div_mod_to_equations. lia. Qed.

Lemma six_digits n :
  0 <= n < 1000000 ->
  (((((0 * 10 + (n / 10 / 10 / 10 / 10 / 10) mod 10) * 10
      + (n / 10 / 10 / 10 / 10) mod 10) * 10
     + (n / 10 / 10 / 10) mod 10) * 10 + (n / 10 / 10) mod 10) * 10
   + (n / 10) mod 10) * 10 + n mod 10 = n.
Proof. intros. Z.div_mod_to_equations. lia. Qed.

Lemma check_fields_true year month day hh mm ss ff :
  1 <= year <= 9999 -> 1 <= month <= 12 -> 1 <= day <= _days_in_month year month ->
  0 <= hh <= 23 -> 0 <= mm <= 59 -> 0 <= ss <= 59 -> 0 <= ff <= 999999 ->
  _check_fields year month day hh mm ss ff = true.
Proof.
  intros. unfold _check_fields, MINYEAR, MAXYEAR.
  repeat (apply andb_true_intro; split); apply Z.leb_le; lia.
Qed.

(** The date text of an ordinal, digit by digit. *)
Lemma format_date_chars n y m d :
  _ord2ymd n = (y, m, d) ->
  format_date n
  = String (PyString.ascii_of_digit (y / 10 / 10 / 10))
      (String (PyString.ascii_of_digit (y / 10 / 10))
        (String (PyString.ascii_of_digit (y / 10))
          (String (PyString.ascii_of_digit y)
            (String "-"
              (String (PyString.ascii_of_digit (m / 10))
                (String (PyString.ascii_of_digit m)
                  (String "-"
                    (String (PyString.ascii_of_digit (d / 10))
                      (String (PyString.ascii_of_digit d) EmptyString))))))))).
Proof. intros H. unfold format_date. rewrite H. reflexivity. Qed.


(** The ISO text of a naive [datetime] is read back as that [datetime]. *)
Lemma isoformat_is_read_back dt :
  1 <= toordinal dt <= _MAXORDINAL ->
  0 <= hour dt <= 23 -> 0 <= minute dt <= 59 -> 0 <= second dt <= 59 ->
  0 <= microsecond dt <= 999999 -> tzinfo dt = None ->
  fromisoformat (isoformat dt) = Ok dt.
Proof.
  destruct dt as [n hh mm ss ff tz]. cbn [toordinal hour minute second microsecond tzinfo].
  intros Hn Hhh Hmm Hss Hff ->.
  destruct (ord2ymd_ymd2ord n Hn) as (y & m & d & Hymd & Hy & Hm & Hd & Hord).
  assert (Hdm : _days_in_month y m <= 31).
  { unfold _days_in_month. destruct ((m =? 2) && _is_leap y); [lia|].
    assert (Hk : m ∈ seqZ 1 12) by (apply elem_of_seqZ; lia).
    vm_compute in Hk. repeat (apply elem_of_cons in Hk as [->|Hk]);
      [vm_compute; discriminate ..|by apply elem_of_nil in Hk]. }
  unfold isoformat. cbn [toordinal hour minute second microsecond tzinfo].
  rewrite (format_date_chars _ _ _ _ Hymd).
  destruct (Z.eqb_spec ff 0) as [->|Hnz]; cbv [String.append PyString.zfill].
  - erewrite (fromisoformat_chars _ _ _ _ _ _ _ _
                (PyString.ascii_of_digit (hh / 10)) (PyString.ascii_of_digit hh)
                (PyString.ascii_of_digit (mm / 10)) (PyString.ascii_of_digit mm)
                (PyString.ascii_of_digit (ss / 10)) (PyString.ascii_of_digit ss));
      [rewrite Hord; reflexivity| | |].
    + erewrite parse_date_chars by apply digit_of_ascii_of_digit.
      rewrite four_digits, !two_digits by lia. reflexivity.
    + erewrite parse_time_chars by apply digit_of_ascii_of_digit.
      rewrite !two_digits by lia. reflexivity.
    + apply check_fields_true; lia.
  - erewrite (fromisoformat_micro_chars _ _ _ _ _ _ _ _
                (PyString.ascii_of_digit (hh / 10)) (PyString.ascii_of_digit hh)
                (PyString.ascii_of_digit (mm / 10)) (PyString.ascii_of_digit mm)
                (PyString.ascii_of_digit (ss / 10)) (PyString.ascii_of_digit ss)
                (PyString.ascii_of_digit (ff / 10 / 10 / 10 / 10 / 10))
                (PyString.ascii_of_digit (ff / 10 / 10 / 10 / 10))
                (PyString.ascii_of_digit (ff / 10 / 10 / 10))
                (PyString.ascii_of_digit (ff / 10 / 10))
                (PyString.ascii_of_digit (ff / 10))
                (PyString.ascii_of_digit ff));
      [rewrite Hord; reflexivity| | |].
    + erewrite parse_date_chars by apply digit_of_ascii_of_digit.
      rewrite four_digits, !two_digits by lia. reflexivity.
    + erewrite parse_time_micro_chars by apply digit_of_ascii_of_digit.
      rewrite six_digits, !two_digits by lia. reflexivity.
    + apply check_fields_true; lia.
Qed.

End IsoTexts.

Section AvailabilityTool.
Import Datetime CalendarService Agent Spec MockGrid ToolText.

Lemma elem_of_mock_candidates first last c :
  c ∈ mock_candidates first last ->
  exists d h, c = combine_hour d h /\ first <= d <= last /\ 9 <= h < 17.
Proof.
  unfold mock_candidates. rewrite list_elem_of_bind.
  intros (d & Hc & Hd). apply elem_of_range in Hd. unfold mock_day_candidates in Hc.
  destruct (weekday d <? 5); [|by apply elem_of_nil in Hc].
  apply list_elem_of_fmap in Hc as (h & -> & Hh).
  exists d, h. split; [reflexivity|]. split; [lia|].
  repeat (apply elem_of_cons in Hh as [->|Hh]; [lia|]). by apply elem_of_nil in Hh.
Qed.

(** The start of a slot is read back from the slot. *)
Lemma slot_start_is_read_back dur d h slot :
  slot_of dur (combine_hour d h) slot ->
  1 <= d <= _MAXORDINAL -> 0 <= h <= 23 ->
  fromisoformat (start_time slot) = Ok (combine_hour d h).
Proof.
  intros (slot_end & _ & ->) Hd Hh. cbn [start_time mk_slot].
  apply isoformat_is_read_back; unfold combine_hour;
    cbn [toordinal hour minute second microsecond tzinfo]; (reflexivity || lia).
Qed.

Lemma format_slots_lines dur first last starts slots i text :
  Forall2 (slot_of dur) starts slots ->
  Forall (fun c => exists d h, c = combine_hour d h
                               /\ first <= d <= last /\ 9 <= h < 17) starts ->
  0 < first -> last <= _MAXORDINAL ->
  format_slots i slots text = Ok (slot_lines i starts text).
Proof.
  intros Hslots Hstarts Hfirst Hlast. revert i text Hstarts.
  induction Hslots as [|c slot starts slots Hslot _ IH]; intros i text Hstarts;
    [reflexivity|].
  inversion Hstarts as [|? ? (d & h & -> & Hd & Hh) Hrest]; subst.
  cbn [format_slots slot_lines].
  rewrite (slot_start_is_read_back dur d h slot Hslot) by lia.
  cbn [mbind result_bind rbind]. apply IH. exact Hrest.
Qed.

(** The slots [get_availability] answers with, on either path, are slots
    of hours of the dates of the range. *)
Lemma get_availability_slots env self start_date end_date dur w start_dt end_dt :
  fromisoformat start_date = Ok start_dt ->
  fromisoformat end_date = Ok end_dt ->
  date end_dt < _MAXORDINAL -> 0 <= dur <= 1440 ->
  exists starts slots w',
    get_availability env self start_date end_date dur w = (Ok slots, w')
    /\ Forall2 (slot_of dur) starts slots
    /\ Forall (fun c => exists d h, c = combine_hour d h
                                    /\ date start_dt <= d <= date end_dt
                                    /\ 9 <= h < 17) starts.
Proof.
  intros Hs He Hlast Hdur.
  pose proof (fromisoformat_ordinal_pos _ _ Hs) as Hpos.
  assert (Hmock : exists starts slots,
             _get_mock_availability self start_date end_date dur = Ok slots
             /\ Forall2 (slot_of dur) starts slots
             /\ Forall (fun c => exists d h, c = combine_hour d h
                                             /\ date start_dt <= d <= date end_dt
                                             /\ 9 <= h < 17) starts).
  { destruct (mock_days_loop_returns dur (date end_dt) (date start_dt) [] Hpos Hlast Hdur)
      as (all_slots & Hloop).
    pose proof Hloop as Hexact.
    apply mock_days_loop_exact in Hexact
      as (cands & found & Hout & Hfound & Hpre & _).
    cbn [app] in Hout. subst found.
    exists (take 10 cands), (take 10 all_slots). split; [|split].
    - unfold _get_mock_availability. rewrite Hs, He. cbn [mbind result_bind rbind].
      rewrite Hloop. reflexivity.
    - by apply Forall2_take.
    - apply Forall_take, Forall_forall. intros c Hc.
      apply elem_of_mock_candidates. destruct Hpre as (more & ->).
      apply elem_of_app. by left. }
  unfold get_availability, _check_availability.
  destruct (is_available self) eqn:Hlive; cbn [negb].
  - unfold try_except.
    destruct (real_availability env self start_date end_date dur w)
      as [[slots|e] w1] eqn:Hreal.
    + apply real_availability_Ok in Hreal
        as (start_dt' & end_dt' & events & all_slots & Hs' & He' & _ & Hloop & ->).
      rewrite Hs in Hs'. rewrite He in He'. injection Hs' as <-. injection He' as <-.
      apply days_loop_Ok in Hloop as (found & Hall & Hfound).
      cbn [app] in Hall. subst found.
      eexists _, _, _. split; [reflexivity|]. split; [apply Forall2_take, Hfound|].
      apply Forall_take, Forall_forall. intros c Hc.
      apply list_elem_of_filter in Hc as [_ Hc].
      apply elem_of_candidates in Hc as (d & h & -> & Hd & _ & Hh). eauto.
    + destruct Hmock as (starts & slots & -> & Hslots & Hstarts). cbn.
      eexists _, _, _. split; [reflexivity|]. split; eassumption.
  - destruct Hmock as (starts & slots & -> & Hslots & Hstarts).
    eexists _, _, _. split; [reflexivity|]. split; eassumption.
Qed.

(** X16: the availability tool can read every slot it is given.  For a
    text whose range has two ISO dates and ends before 9999-12-31,
    [get_availability] answers with slots, on the real path or on the mock
    path, and the tool answers with the numbered list of the first 10 of
    them, each with the weekday, the date and the hour of its start (or with
    the text that there is none): never with an error text. *)
Theorem availability_tool_lists_the_slots :
  forall env cs text w start_date end_date w0 start_dt end_dt,
    parse_date_range env text w = (Ok (start_date, end_date), w0) ->
    fromisoformat start_date = Ok start_dt ->
    fromisoformat end_date = Ok end_dt ->
    date end_dt < _MAXORDINAL ->
    exists starts slots w',
      get_availability env cs start_date end_date 60 w0 = (Ok slots, w')
      /\ Forall2 (slot_of 60) starts slots
      /\ check_availability_tool env cs text w
         = (Ok (availability_text cs starts), w').
Proof.
  intros env cs text w start_date end_date w0 start_dt end_dt Hrange Hs He Hlast.
  pose proof (fromisoformat_ordinal_pos _ _ Hs) as Hpos.
  destruct (get_availability_slots env cs start_date end_date 60 w0 start_dt end_dt
              Hs He Hlast ltac:(lia)) as (starts & slots & w' & Hget & Hslots & Hstarts).
  exists starts, slots, w'. split; [exact Hget|]. split; [exact Hslots|].
  unfold check_availability_tool. rewrite catch_all_returns.
  unfold check_availability_try, mbind, ST_bind. rewrite Hrange, Hget.
  destruct Hslots as [|c slot starts slots Hslot Hslots]; [reflexivity|].
  unfold lift, mret, ST_ret.
  rewrite (format_slots_lines 60 (date start_dt) (date end_dt)
             (take 10 (c :: starts)) (take 10 (slot :: slots)));
    [reflexivity| | |exact Hpos|lia].
  - apply Forall2_take. by constructor.
  - by apply Forall_take.
Qed.

End AvailabilityTool.

Section DefaultRange.
Import Datetime CalendarService Agent ToolText.


End DefaultRange.

Section EventTimes.
Import Datetime CalendarService ToolText.

Lemma digit_is_no_Z c v :
  PyString.digit_of_ascii c = Some v -> Ascii.eqb "Z" c = false.
Proof.
  destruct c as [[] [] [] [] [] [] [] []]; vm_compute; intros H;
    (discriminate H || reflexivity).
Qed.

Lemma prefix_char c d rest :
  String.prefix (String c "") (String d rest) = Ascii.eqb c d.
Proof.
  cbn [String.prefix]. destruct (ascii_dec c d) as [->|Hne].
  - rewrite Ascii.eqb_refl. by destruct rest.
  - symmetry. by apply Ascii.eqb_neq.
Qed.

(** Replacing a character a text does not hold changes nothing, and goes
    on behind such a text. *)
Lemma replace_behind c new s t :
  PyString.find_char c s = None ->
  PyString.replace (String c "") new (s +:+ t)
  = s +:+ PyString.replace (String c "") new t.
Proof.
  unfold PyString.replace. induction s as [|d s IH]; [reflexivity|].
  cbn [PyString.find_char]. destruct (Ascii.eqb c d) eqn:Hcd; [discriminate|].
  intros Hs. destruct (PyString.find_char c s) eqn:Hfind; [discriminate|].
  change (String d s +:+ t) with (String d (s +:+ t)).
  cbn [PyString.replace_go]. rewrite prefix_char, Hcd.
  rewrite IH by reflexivity. reflexivity.
Qed.

Lemma parse_time_offset_chars sg h1 h2 i1 i2 s1 s2 o1 o2 p1 p2
      a1 a2 b1 b2 c1 c2 e1 e2 g1 g2 :
  sg = "+"%char \/ sg = "-"%char ->
  PyString.digit_of_ascii h1 = Some a1 -> PyString.digit_of_ascii h2 = Some a2 ->
  PyString.digit_of_ascii i1 = Some b1 -> PyString.digit_of_ascii i2 = Some b2 ->
  PyString.digit_of_ascii s1 = Some c1 -> PyString.digit_of_ascii s2 = Some c2 ->
  PyString.digit_of_ascii o1 = Some e1 -> PyString.digit_of_ascii o2 = Some e2 ->
  PyString.digit_of_ascii p1 = Some g1 -> PyString.digit_of_ascii p2 = Some g2 ->
  (0 * 10 + e1) * 10 + e2 <= 23 ->
  0 <= (0 * 10 + g1) * 10 + g2 <= 59 ->
  exists off,
    _parse_isoformat_time
      (String h1 (String h2 (String ":" (String i1 (String i2 (String ":"
        (String s1 (String s2 (String sg
          (String o1 (String o2 (String ":" (String p1 (String p2
            EmptyString))))))))))))))
    = Some ((0 * 10 + a1) * 10 + a2, (0 * 10 + b1) * 10 + b2,
            (0 * 10 + c1) * 10 + c2, 0, Some off).
Proof.
  intros Hsg Hh1 Hh2 Hi1 Hi2 Hs1 Hs2 Ho1 Ho2 Hp1 Hp2 Hoh Hom.
  destruct (digit_is_no_sign _ _ Hh1) as [Mh1 Ph1].
  destruct (digit_is_no_sign _ _ Hh2) as [Mh2 Ph2].
  destruct (digit_is_no_sign _ _ Hi1) as [Mi1 Pi1].
  destruct (digit_is_no_sign _ _ Hi2) as [Mi2 Pi2].
  destruct (digit_is_no_sign _ _ Hs1) as [Ms1 Ps1].
  destruct (digit_is_no_sign _ _ Hs2) as [Ms2 Ps2].
  destruct (digit_is_no_sign _ _ Ho1) as [Mo1 Po1].
  destruct (digit_is_no_sign _ _ Ho2) as [Mo2 Po2].
  destruct (digit_is_no_sign _ _ Hp1) as [Mp1 Pp1].
  destruct (digit_is_no_sign _ _ Hp2) as [Mp2 Pp2].
  assert (Hoff : (((((0 * 10 + e1) * 10 + e2) * 60 + ((0 * 10 + g1) * 10 + g2)) * 60 + 0)
                  * 1000000 + 0 <? US_PER_DAY) = true)
    by (apply Z.ltb_lt; unfold US_PER_DAY; lia).
  unfold _parse_isoformat_time.
  destruct Hsg as [-> | ->].
  - eexists.
    cbn -[PyString.digit_of_ascii Z.mul Z.add Ascii.eqb _parse_hh_mm_ss_ff Z.ltb].
    rewrite Mh1, Mh2, Mi1, Mi2, Ms1, Ms2, Mo1, Mo2, Mp1, Mp2, Ph1, Ph2, Pi1, Pi2, Ps1, Ps2.
    change (Ascii.eqb "-" ":") with false. change (Ascii.eqb "+" ":") with false.
    change (Ascii.eqb "-" "+") with false. change (Ascii.eqb "+" "+") with true.
    cbn -[PyString.digit_of_ascii Z.mul Z.add Ascii.eqb Z.ltb].
    rewrite Hh1, Hh2, Hi1, Hi2, Hs1, Hs2, Ho1, Ho2, Hp1, Hp2.
    change (Ascii.eqb ":" ":") with true.
    cbn -[PyString.digit_of_ascii Z.mul Z.add Ascii.eqb Z.ltb].
    rewrite Hoff. reflexivity.
  - eexists.
    cbn -[PyString.digit_of_ascii Z.mul Z.add Ascii.eqb _parse_hh_mm_ss_ff Z.ltb].
    rewrite Mh1, Mh2, Mi1, Mi2, Ms1, Ms2.
    change (Ascii.eqb "-" ":") with false. change (Ascii.eqb "-" "-") with true.
    cbn -[PyString.digit_of_ascii Z.mul Z.add Ascii.eqb Z.ltb].
    rewrite Hh1, Hh2, Hi1, Hi2, Hs1, Hs2, Ho1, Ho2, Hp1, Hp2.
    change (Ascii.eqb ":" ":") with true.
    cbn -[PyString.digit_of_ascii Z.mul Z.add Ascii.eqb Z.ltb].
    rewrite Hoff. reflexivity.
Qed.

Lemma fromisoformat_offset_chars y1 y2 y3 y4 m1 m2 d1 d2 h1 h2 i1 i2 s1 s2
      sg o1 o2 p1 p2 year month day hh mm ss off :
  _parse_isoformat_date
    (String y1 (String y2 (String y3 (String y4 (String "-"
      (String m1 (String m2 (String "-" (String d1 (String d2 EmptyString))))))))))
  = Some (year, month, day) ->
  _parse_isoformat_time
    (String h1 (String h2 (String ":" (String i1 (String i2 (String ":"
      (String s1 (String s2 (String sg
        (String o1 (String o2 (String ":" (String p1 (String p2
          EmptyString))))))))))))))
  = Some (hh, mm, ss, 0, Some off) ->
  _check_fields year month day hh mm ss 0 = true ->
  fromisoformat
    (String y1 (String y2 (String y3 (String y4 (String "-"
      (String m1 (String m2 (String "-" (String d1 (String d2 (String "T"
        (String h1 (String h2 (String ":" (String i1 (String i2 (String ":"
          (String s1 (String s2 (String sg
            (String o1 (String o2 (String ":" (String p1 (String p2
              EmptyString)))))))))))))))))))))))))
  = Ok (mk_datetime (_ymd2ord year month day) hh mm ss 0 (Some off)).
Proof.
  intros Hdate Htime Hcheck. unfold fromisoformat.
  cbn [PyString.slice PyString.slice_from String.length Nat.sub substring].
  rewrite Hdate, Htime. cbn [mbind option_bind]. rewrite Hcheck. reflexivity.
Qed.

(** X19: the offset of an event's time is dropped, not applied.  For a
    whole second [dt] of the calendar, the time of an event written as the
    ISO text of [dt], alone, followed by [Z], or followed by an offset
    [+HH:MM] or [-HH:MM], is read by [get_availability] as [dt] itself: an
    event at 10:00+05:30 blocks the slots an event at 10:00Z blocks. *)
Theorem event_offsets_are_dropped :
  forall dt sign oh om,
    is_naive_datetime dt -> microsecond dt = 0 ->
    sign = "+"%char \/ sign = "-"%char ->
    0 <= oh <= 23 -> 0 <= om <= 59 ->
    event_datetime (Some (isoformat dt)) = Ok dt
    /\ event_datetime (Some (isoformat dt +:+ "Z")) = Ok dt
    /\ event_datetime
         (Some (isoformat dt
                +:+ String sign (PyString.zfill 2 oh +:+ ":" +:+ PyString.zfill 2 om)))
       = Ok dt.
Proof.
  intros [n hh mm ss ff tz] sign oh om (Hn & Hhh & Hmm & Hss & _ & Htz) Hff Hsign Hoh Hom.
  cbn [toordinal hour minute second microsecond tzinfo] in *. subst ff tz.
  destruct (ord2ymd_ymd2ord n Hn) as (y & m & d & Hymd & Hy & Hm & Hd & Hord).
  assert (Hdm : _days_in_month y m <= 31).
  { unfold _days_in_month. destruct ((m =? 2) && _is_leap y); [lia|].
    assert (Hk : m ∈ seqZ 1 12) by (apply elem_of_seqZ; lia).
    vm_compute in Hk. repeat (apply elem_of_cons in Hk as [->|Hk]);
      [vm_compute; discriminate ..|by apply elem_of_nil in Hk]. }
  set (dt := mk_datetime n hh mm ss 0 None).
  assert (Hplain : fromisoformat (isoformat dt) = Ok dt)
    by (apply isoformat_is_read_back; cbn; (reflexivity || lia)).
  assert (HnoZ : PyString.find_char "Z" (isoformat dt) = None).
  { unfold isoformat, dt. cbn [toordinal hour minute second microsecond tzinfo].
    rewrite (format_date_chars _ _ _ _ Hymd).
    cbv [String.append PyString.zfill Z.eqb].
    cbn -[Ascii.eqb PyString.ascii_of_digit].
    rewrite !(digit_is_no_Z _ _ (digit_of_ascii_of_digit _)). reflexivity. }
  assert (Hoffset : forall sg o1 o2 p1 p2 e1 e2 g1 g2,
             sg = "+"%char \/ sg = "-"%char ->
             PyString.digit_of_ascii o1 = Some e1 ->
             PyString.digit_of_ascii o2 = Some e2 ->
             PyString.digit_of_ascii p1 = Some g1 ->
             PyString.digit_of_ascii p2 = Some g2 ->
             (0 * 10 + e1) * 10 + e2 <= 23 ->
             0 <= (0 * 10 + g1) * 10 + g2 <= 59 ->
             event_datetime
               (Some (isoformat dt
                      +:+ String sg (String o1 (String o2 (String ":"
                            (String p1 (String p2 EmptyString)))))))
             = Ok dt).
  { intros sg o1 o2 p1 p2 e1 e2 g1 g2 Hsg Ho1 Ho2 Hp1 Hp2 He Hg.
    unfold event_datetime.
    rewrite replace_behind by exact HnoZ.
    assert (Htail : PyString.replace "Z" "+00:00"
                      (String sg (String o1 (String o2 (String ":"
                         (String p1 (String p2 EmptyString))))))
                    = String sg (String o1 (String o2 (String ":"
                         (String p1 (String p2 EmptyString)))))).
    { unfold PyString.replace. cbn [PyString.replace_go]. rewrite !prefix_char.
      rewrite (digit_is_no_Z _ _ Ho1), (digit_is_no_Z _ _ Ho2),
        (digit_is_no_Z _ _ Hp1), (digit_is_no_Z _ _ Hp2).
      change (Ascii.eqb "Z" ":") with false.
      destruct Hsg as [-> | ->]; reflexivity. }
    rewrite Htail.
    unfold isoformat, dt. cbn [toordinal hour minute second microsecond tzinfo].
    rewrite (format_date_chars _ _ _ _ Hymd).
    cbv [String.append PyString.zfill Z.eqb].
    destruct (parse_time_offset_chars sg
                (PyString.ascii_of_digit (hh / 10)) (PyString.ascii_of_digit hh)
                (PyString.ascii_of_digit (mm / 10)) (PyString.ascii_of_digit mm)
                (PyString.ascii_of_digit (ss / 10)) (PyString.ascii_of_digit ss)
                o1 o2 p1 p2 _ _ _ _ _ _ e1 e2 g1 g2 Hsg
                (digit_of_ascii_of_digit _) (digit_of_ascii_of_digit _)
                (digit_of_ascii_of_digit _) (digit_of_ascii_of_digit _)
                (digit_of_ascii_of_digit _) (digit_of_ascii_of_digit _)
                Ho1 Ho2 Hp1 Hp2 He Hg) as (off & Htime).
    rewrite !two_digits in Htime by lia.
    erewrite fromisoformat_offset_chars; [| |exact Htime|].
    - cbn [mbind result_bind rbind mret result_ret tzinfo replace_tzinfo_None
           toordinal hour minute second microsecond].
      rewrite Hord. reflexivity.
    - erewrite parse_date_chars by apply digit_of_ascii_of_digit.
      rewrite four_digits, !two_digits by lia. reflexivity.
    - apply check_fields_true; lia. }
  split; [|split].
  - unfold event_datetime.
    rewrite <- (append_empty (isoformat dt)) at 1.
    rewrite replace_behind by exact HnoZ.
    change (PyString.replace "Z" "+00:00" "") with "".
    rewrite append_empty, Hplain. reflexivity.
  - unfold event_datetime. rewrite replace_behind by exact HnoZ.
    change (PyString.replace "Z" "+00:00" "Z") with "+00:00".
    specialize (Hoffset "+"%char "0"%char "0"%char "0"%char "0"%char 0 0 0 0
                  ltac:(by left) eq_refl eq_refl eq_refl eq_refl ltac:(lia) ltac:(lia)).
    unfold event_datetime in Hoffset.
    rewrite replace_behind in Hoffset by exact HnoZ.
    exact Hoffset.
  - cbv [PyString.zfill]. 
    change ((("" +:+ String (PyString.ascii_of_digit (oh / 10)) "")
             +:+ String (PyString.ascii_of_digit oh) "")
            +:+ ":" +:+ ("" +:+ String (PyString.ascii_of_digit (om / 10)) "")
            +:+ String (PyString.ascii_of_digit om) "")
      with (String (PyString.ascii_of_digit (oh / 10))
              (String (PyString.ascii_of_digit oh)
                 (String ":" (String (PyString.ascii_of_digit (om / 10))
                    (String (PyString.ascii_of_digit om) EmptyString))))).
    eapply Hoffset; try apply digit_of_ascii_of_digit; try exact Hsign;
      rewrite two_digits; lia.
Qed.

End EventTimes.

Section EventsEndpoint.
Import Datetime CalendarService.

(** X18: [GET /events] cannot tell a failing provider from an empty
    calendar.  It answers the empty list, and no failure, when the provider
    is unavailable (whatever the two texts are) and when the list request
    fails with an [HttpError]; it fails (HTTP 500, quoting the error) only
    with the provider available, for a date that is no ISO text, before
    anything is sent, or for a provider error of another class. *)
Theorem events_endpoint_hides_provider_failures :
  forall env self start_date end_date w,
    Api.get_events env self start_date end_date w
    = if is_available self then
        match fromisoformat start_date, fromisoformat end_date with
        | Ok start_dt, Ok end_dt =>
            (match execute_list env (requests w) (calendar_id self)
                     (isoformat start_dt +:+ "Z") (isoformat end_dt +:+ "Z") with
             | Ok items => Ok (map format_event items)
             | Raise e =>
                 if is_HttpError e then Ok []
                 else Raise (Exn HTTPException (exn_str e))
             end,
             sent (EventsList (calendar_id self) (isoformat start_dt +:+ "Z")
                              (isoformat end_dt +:+ "Z")) w)
        | Raise e, _ => (Raise (Exn HTTPException (exn_str e)), w)
        | Ok _, Raise e => (Raise (Exn HTTPException (exn_str e)), w)
        end
      else (Ok [], w).
Proof.
  intros env self start_date end_date w.
  unfold Api.get_events, get_events, _check_availability.
  destruct (is_available self); cbn [negb]; [|reflexivity].
  unfold try_except, mbind, ST_bind, lift, mret, ST_ret, events_list.
  destruct (fromisoformat start_date) as [start_dt|e1] eqn:Hs.
  - destruct (fromisoformat end_date) as [end_dt|e2] eqn:He.
    + destruct (execute_list env (requests w) (calendar_id self) _ _) as [items|e];
        [reflexivity|]. destruct (is_HttpError e); reflexivity.
    + assert (Hv : is_HttpError e2 = false).
      { unfold fromisoformat in He. destruct (_ ≫= _) in He; [discriminate|].
        injection He as <-. reflexivity. }
      rewrite Hv. reflexivity.
  - assert (Hv : is_HttpError e1 = false).
    { unfold fromisoformat in Hs. destruct (_ ≫= _) in Hs; [discriminate|].
      injection Hs as <-. reflexivity. }
    rewrite Hv. reflexivity.
Qed.

End EventsEndpoint.

(* ===================================================================== *)
(** * Further properties: start-up *)
(* ===================================================================== *)

Section CalendarStart.
Import CalendarService Startup StartSpec.

Lemma raise_if_run {S} (error : option exn) (s : S) :
  raise_if error s = match error with
                     | Some e => (Raise e, s)
                     | None => (Ok (), s)
                     end.
Proof. by destruct error. Qed.

(** What the build and the test of the connection give, and that they
    touch no file. *)
Lemma build_and_test_run host calendar_id credentials files :
  build_and_test host calendar_id credentials files
  = (match build_error host credentials with
     | Some e => Raise e
     | None =>
         match calendars_get_error host {| service_credentials := credentials |}
                                   calendar_id with
         | Some e => Raise e
         | None => Ok {| service_credentials := credentials |}
         end
     end, files).
Proof.
  unfold build_and_test, mbind, ST_bind. rewrite raise_if_run.
  destruct (build_error host credentials); [reflexivity|].
  rewrite raise_if_run. by destruct (calendars_get_error host _ calendar_id).
Qed.

Lemma build_and_test_Ok host calendar_id credentials files service files' :
  build_and_test host calendar_id credentials files = (Ok service, files') ->
  files' = files /\ tested host calendar_id service.
Proof.
  rewrite build_and_test_run. unfold tested.
  destruct (build_error host credentials) eqn:Hb; [discriminate|].
  destruct (calendars_get_error host _ calendar_id) eqn:Hc; [discriminate|].
  intros [= <- <-]. auto.
Qed.

Lemma file_method_files host service_account_file calendar_id files :
  snd (file_method host service_account_file calendar_id files) = files.
Proof.
  unfold file_method, mbind, ST_bind, path_exists.
  destruct (bool_decide _); cbn [negb]; [|reflexivity].
  unfold try_except, mbind, ST_bind, from_service_account_file, Exception, lift.
  destruct (files !! service_account_file) as [text|]; [|reflexivity].
  destruct (credentials_error host text); [reflexivity|].
  rewrite build_and_test_run.
  destruct (build_error host _); [reflexivity|].
  destruct (calendars_get_error host _ calendar_id); reflexivity.
Qed.

Lemma file_method_Ok host service_account_file calendar_id files service files' :
  file_method host service_account_file calendar_id files = (Ok service, files') ->
  tested host calendar_id service.
Proof.
  unfold file_method, mbind, ST_bind, path_exists.
  destruct (bool_decide _); cbn [negb]; [|discriminate].
  unfold try_except, mbind, ST_bind, from_service_account_file, Exception, lift.
  destruct (files !! service_account_file) as [text|]; [|discriminate].
  destruct (credentials_error host text); [discriminate|].
  destruct (build_and_test host calendar_id _ files) as [[svc|e] files1] eqn:Hb;
    [|discriminate].
  intros [= <- <-]. by apply build_and_test_Ok in Hb as [_ Ht].
Qed.

Lemma base64_method_Ok host calendar_id key files service files' :
  base64_method host calendar_id key files = (Ok service, files') ->
  tested host calendar_id service.
Proof.
  unfold base64_method, mbind, ST_bind, lift, write_temporary_file,
    from_service_account_file, unlink.
  destruct (b64decode_utf8 host key) as [json|]; [|discriminate].
  rewrite lookup_insert_eq.
  destruct (credentials_error host json); [discriminate|].
  rewrite lookup_insert_eq.
  intros Hb. by apply build_and_test_Ok in Hb as [_ Ht].
Qed.

(** The base64 method, once the key is decoded. *)
Lemma base64_method_run host calendar_id key json files :
  b64decode_utf8 host key = Ok json ->
  base64_method host calendar_id key files
  = match credentials_error host json with
    | Some e => (Raise e, <[temp_name host files := json]> files)
    | None =>
        (match build_error host {| service_account_info := json |} with
         | Some e => Raise e
         | None =>
             match calendars_get_error host
                     {| service_credentials := {| service_account_info := json |} |}
                     calendar_id with
             | Some e => Raise e
             | None =>
                 Ok {| service_credentials := {| service_account_info := json |} |}
             end
         end,
         delete (temp_name host files) (<[temp_name host files := json]> files))
    end.
Proof.
  intros Hjson.
  unfold base64_method, mbind, ST_bind, lift, write_temporary_file,
    from_service_account_file, unlink.
  rewrite Hjson, lookup_insert_eq.
  destruct (credentials_error host json); [reflexivity|].
  rewrite lookup_insert_eq. apply build_and_test_run.
Qed.

Lemma authenticate_Ok host service_account_file calendar_id files service files' :
  _authenticate host service_account_file calendar_id files = (Ok service, files') ->
  truthy calendar_id = true /\ tested host calendar_id service.
Proof.
  unfold _authenticate. destruct (truthy calendar_id); cbn [negb]; [|discriminate].
  intros Hrun. split; [reflexivity|]. revert Hrun.
  unfold mbind, ST_bind at 1.
  destruct (truthy (getenv host "GOOGLE_SERVICE_ACCOUNT_JSON_BASE64")).
  - unfold try_except, mbind, ST_bind at 1, mret, ST_ret, Exception.
    destruct (base64_method host calendar_id _ files) as [[svc|e] files1] eqn:Hb.
    + intros [= <- <-]. by apply base64_method_Ok in Hb.
    + apply file_method_Ok.
  - apply file_method_Ok.
Qed.

(** X20: [CalendarService()] never raises, and what it concludes can be
    relied on: the service is available exactly when it holds a client, and
    then the calendar identifier is set and not empty, and the client has
    been built and has passed the test of the connection for that calendar.
    Without a calendar identifier the service is unavailable, whatever keys
    there are, and no file is touched. *)
Theorem calendar_service_start :
  forall host files,
    exists self service files',
      __init__ host files = (Ok (self, service), files')
      /\ calendar_id self = getenv host "GOOGLE_CALENDAR_ID"
      /\ (is_available self = true <-> is_Some service)
      /\ (forall client, service = Some client ->
            truthy (calendar_id self) = true
            /\ tested host (calendar_id self) client)
      /\ (truthy (getenv host "GOOGLE_CALENDAR_ID") = false ->
          is_available self = false /\ files' = files).
Proof.
  intros host files. unfold __init__, try_except, mbind, ST_bind at 1, Exception.
  destruct (_authenticate host _ (getenv host "GOOGLE_CALENDAR_ID") files)
    as [[client|e] files1] eqn:Hauth.
  - apply authenticate_Ok in Hauth as [Hid Htested].
    eexists _, _, _. split; [reflexivity|]. cbn [calendar_id is_available].
    split; [reflexivity|]. split; [split; eauto|].
    split; [intros ? [= <-]; auto|]. rewrite Hid. discriminate.
  - eexists _, _, _. split; [reflexivity|]. cbn [calendar_id is_available].
    split; [reflexivity|]. split; [split; [discriminate|intros [? [=]]]|].
    split; [discriminate|]. intros Hunset. split; [reflexivity|].
    unfold _authenticate in Hauth. rewrite Hunset in Hauth. cbn [negb] in Hauth.
    unfold lift in Hauth. by injection Hauth as _ <-.
Qed.

(** X21: the decoded key on disk.  With a calendar identifier and a base64
    key that decodes, the key is written to a temporary file of a new name.
    When the credentials can be read from it, the file is removed, and the
    files are as they were, whatever the build, the test of the connection
    and the fallback to the key file do.  When they cannot, the file is not
    removed: the decoded key stays on disk, also when the service then starts
    from the key file. *)
Theorem decoded_key_file :
  forall host files key json,
    truthy (getenv host "GOOGLE_CALENDAR_ID") = true ->
    getenv host "GOOGLE_SERVICE_ACCOUNT_JSON_BASE64" = Some key ->
    key <> "" ->
    b64decode_utf8 host key = Ok json ->
    files !! temp_name host files = None ->
    snd (__init__ host files)
    = match credentials_error host json with
      | Some _ => <[temp_name host files := json]> files
      | None => files
      end.
Proof.
  intros host files key json Hid Hkey Hne Hjson Hfresh.
  assert (Hset : truthy (Some key) = true).
  { cbn. by destruct (String.eqb_spec key ""). }
  assert (Hauth : snd (_authenticate host
                         (default "./service-account-key.json"
                                  (getenv host "GOOGLE_SERVICE_ACCOUNT_FILE"))
                         (getenv host "GOOGLE_CALENDAR_ID") files)
                  = match credentials_error host json with
                    | Some _ => <[temp_name host files := json]> files
                    | None => files
                    end).
  { unfold _authenticate. rewrite Hid, Hkey, Hset. cbn [negb default].
    unfold mbind, ST_bind, try_except, Exception, mret, ST_ret.
    rewrite (base64_method_run _ _ _ _ _ Hjson).
    destruct (credentials_error host json) as [e|]; [apply file_method_files|].
    rewrite delete_insert_eq, (delete_id _ _ Hfresh).
    destruct (build_error host _); [apply file_method_files|].
    destruct (calendars_get_error host _ _); [apply file_method_files|reflexivity]. }
  unfold __init__, try_except, mbind, ST_bind at 1, Exception.
  destruct (_authenticate host _ _ files) as [[client|e] files1]; exact Hauth.
Qed.

End CalendarStart.

Section LanguageModel.
Import Startup LlmSpec.

(** X22: the choice of the language model is final.  The model
    [_initialize_llm] returns is of the preferred provider (Groq, then
    Google, then OpenAI) among those whose package is there and whose key
    is set, made with that key.  The only error is the [ValueError] that
    says no valid key was found, and it is also what comes out when the
    constructor of the preferred provider fails: no other provider is
    tried, whatever keys are set. *)
Theorem llm_choice_is_final :
  forall host,
    (forall llm,
        _initialize_llm host = Ok llm ->
        first_choice host (chat_class llm)
        /\ api_key llm = llm_getenv host (key_name (chat_class llm))
        /\ constructor_error host llm = None)
    /\ (forall e,
          _initialize_llm host = Raise e ->
          e = Exn ValueError (no_llm_message host))
    /\ (forall c,
          first_choice host c ->
          (forall llm, chat_class llm = c -> constructor_error host llm <> None) ->
          _initialize_llm host = Raise (Exn ValueError (no_llm_message host))).
Proof.
  intros host.
  assert (Hok : forall llm,
             _initialize_llm host = Ok llm ->
             first_choice host (chat_class llm)
             /\ api_key llm = llm_getenv host (key_name (chat_class llm))
             /\ constructor_error host llm = None).
  { intros llm. unfold _initialize_llm, construct, first_choice, eligible.
    destruct (GROQ_AVAILABLE host && truthy (llm_getenv host "GROQ_API_KEY")) eqn:Hgroq.
    { destruct (constructor_error host _) eqn:Hc; [discriminate|].
      intros [= <-]. cbn [chat_class api_key key_name package_found rank].
      repeat split; try assumption. intros c' Hlt. lia. }
    destruct (GOOGLE_AVAILABLE host && truthy (llm_getenv host "GOOGLE_API_KEY"))
      eqn:Hgoogle.
    { destruct (constructor_error host _) eqn:Hc; [discriminate|].
      intros [= <-]. cbn [chat_class api_key key_name package_found rank].
      repeat split; try assumption.
      intros [] Hlt; cbn in Hlt; try lia. exact Hgroq. }
    destruct (OPENAI_AVAILABLE host && truthy (llm_getenv host "OPENAI_API_KEY"))
      eqn:Hopenai; [|discriminate].
    destruct (constructor_error host _) eqn:Hc; [discriminate|].
    intros [= <-]. cbn [chat_class api_key key_name package_found rank].
    repeat split; try assumption.
    intros [] Hlt; cbn in Hlt; try lia; assumption. }
  assert (Hraise : forall e,
             _initialize_llm host = Raise e ->
             e = Exn ValueError (no_llm_message host)).
  { intros e. unfold _initialize_llm, construct.
    repeat (destruct (_ && _); [destruct (constructor_error host _)|]);
      congruence. }
  split; [exact Hok|]. split; [exact Hraise|].
  intros c [Hc Hfirst] Hfails.
  destruct (_initialize_llm host) as [llm|e] eqn:Hrun.
  - exfalso. destruct (Hok llm eq_refl) as ([Hc' Hfirst'] & _ & Hnone).
    assert (chat_class llm = c).
    { destruct (Nat.lt_trichotomy (rank (chat_class llm)) (rank c)) as [Hlt|[Heq|Hgt]].
      - rewrite (Hfirst _ Hlt) in Hc'. discriminate.
      - destruct (chat_class llm), c; cbn in Heq; congruence.
      - rewrite (Hfirst' _ Hgt) in Hc. discriminate. }
    by apply (Hfails llm).
  - by rewrite (Hraise e eq_refl).
Qed.

End LanguageModel.

(* ===================================================================== *)
(** * The further properties at work on the scenarios *)
(* ===================================================================== *)

Section FurtherWitnesses.
Import Datetime CalendarService Agent AgentSpec Spec Conversation ToolSpec MockGrid
  ToolText.

Lemma provider_error_degrades_to_mock_witness :
  get_availability Outage.unreachable_provider Scenario.live
                   "2024-06-03" "2024-06-04" 60 Scenario.fresh_world
  = (_get_mock_availability Scenario.live "2024-06-03" "2024-06-04" 60,
     sent (EventsList (calendar_id Scenario.live)
             (isoformat (midnight 739040) +:+ "Z")
             (isoformat (midnight 739041) +:+ "Z")) Scenario.fresh_world).
Proof.
  apply (proj2 (provider_error_degrades_to_mock Outage.unreachable_provider
                  Scenario.live "2024-06-03" "2024-06-04" 60 Scenario.fresh_world
                  (midnight 739040) (midnight 739041) Outage.broken_transport
                  eq_refl eq_refl eq_refl eq_refl eq_refl)).
Defined.

Lemma listing_failure_reads_as_empty_calendar_witness :
  exists slots w',
    get_availability Outage.unreadable_calendar Scenario.live
                     "2024-06-03" "2024-06-03" 60 Scenario.fresh_world
    = (Ok slots, w')
    /\ Forall2 (slot_of 60) (take 20 (candidates 739040 739040)) slots.
Proof.
  apply (listing_failure_reads_as_empty_calendar Outage.unreadable_calendar
           Scenario.live "2024-06-03" "2024-06-03" 60 Scenario.fresh_world
           (midnight 739040) (midnight 739040) Scenario.refusal
           eq_refl eq_refl eq_refl);
    [vm_compute; reflexivity|lia|reflexivity|reflexivity].
Defined.

Lemma no_weekday_no_slot_witness :
  fst (get_availability (Scenario.calendar_with [Scenario.half_past_nine])
         Scenario.live "2024-06-08" "2024-06-09" 60 Scenario.fresh_world) = Ok []
  /\ _get_mock_availability Scenario.live "2024-06-08" "2024-06-09" 60 = Ok [].
Proof.
  apply (no_weekday_no_slot (Scenario.calendar_with [Scenario.half_past_nine])
           Scenario.live "2024-06-08" "2024-06-09" 60 Scenario.fresh_world
           (midnight 739045) (midnight 739046) eq_refl eq_refl).
  - vm_compute. reflexivity.
  - intros d Hd. cbn in Hd. assert (Hcases : d = 739045 \/ d = 739046) by lia.
    destruct Hcases as [-> | ->]; vm_compute; discriminate.
Defined.

Lemma conversation_is_remembered_witness :
  let s1 := snd (process_message (Scenario.calendar_with []) Outage.greeting_agent
                   "Hi" (Some "s1") None Scenario.fresh_state) in
  chat_history (agent_inputs (Scenario.calendar_with []) "Any slot on Monday?"
                             (Some "s1") s1)
  = "Human: Hi" +:+ nl +:+ "Assistant: Hello!" +:+ nl.
Proof.
  apply (proj2 (conversation_is_remembered (Scenario.calendar_with [])
                  Outage.greeting_agent "Hi" "Any slot on Monday?" "s1" None
                  Scenario.fresh_state {["output" := "Hello!"]}
                  (runtime_at_call (Some "s1") Scenario.fresh_state) "Hello!"
                  ltac:(discriminate) eq_refl ltac:(vm_compute; reflexivity))).
  reflexivity.
Defined.

Lemma booking_text_is_read_back_witness :
  book_appointment_tool (Scenario.calendar_with []) Scenario.live
    "Standup|Daily sync|2024-06-03T09:00:00|2024-06-03T10:00:00" Scenario.fresh_world
  = (Ok "✅ Appointment booked successfully! Event ID: evt_2",
     sent (EventsInsert (calendar_id Scenario.live)
             (insert_body Scenario.live "Standup" "Daily sync"
                "2024-06-03T09:00:00" "2024-06-03T10:00:00" None))
          Scenario.fresh_world).
Proof.
  assert (Hfields : Forall is_field Outage.standup)
    by (repeat constructor).
  pose proof (booking_text_is_read_back (Scenario.calendar_with []) Scenario.live
                "Standup" "Daily sync" "2024-06-03T09:00:00" "2024-06-03T10:00:00" []
                Scenario.fresh_world Hfields) as Hrun.
  vm_compute in Hrun |- *. exact Hrun.
Defined.

Lemma offline_booking_is_a_demo_witness :
  book_appointment_tool (Scenario.calendar_with []) Scenario.offline
    "Standup|Daily sync|2024-06-03T09:00:00|2024-06-03T10:00:00" Scenario.fresh_world
  = (Ok ("✅ Appointment booked successfully! Event ID: mock_event_1717401600.0"
         +:+ demo_booking_note),
     tick Scenario.fresh_world).
Proof.
  assert (Hfields : Forall is_field Outage.standup)
    by (repeat constructor).
  apply (offline_booking_is_a_demo (Scenario.calendar_with []) Scenario.offline
           "Standup" "Daily sync" "2024-06-03T09:00:00" "2024-06-03T10:00:00" []
           Scenario.fresh_world eq_refl Hfields);
    eexists; vm_compute; reflexivity.
Defined.

Lemma events_tool_on_unreadable_calendar_witness :
  get_existing_events_tool Outage.unreadable_calendar Scenario.offline
    "2024-06-03 to 2024-06-04" Scenario.fresh_world
  = (Ok (no_events_text +:+ no_events_note), Scenario.fresh_world).
Proof.
  apply (proj1 (events_tool_on_unreadable_calendar Outage.unreadable_calendar
                  Scenario.offline "2024-06-03 to 2024-06-04" Scenario.fresh_world
                  "2024-06-03" "2024-06-04" ltac:(vm_compute; reflexivity))).
  reflexivity.
Defined.

Lemma mock_availability_is_first_ten_of_grid_witness :
  exists slots,
    _get_mock_availability Scenario.offline "2024-06-03" "2024-06-30" 60 = Ok slots
    /\ Forall2 (slot_of 60) (take 10 (mock_candidates 739040 739067)) slots.
Proof.
  apply (mock_availability_is_first_ten_of_grid Scenario.offline
           "2024-06-03" "2024-06-30" 60 (midnight 739040) (midnight 739067)
           eq_refl eq_refl);
    [vm_compute; reflexivity|lia].
Defined.

Lemma availability_tool_lists_the_slots_witness :
  exists starts slots w',
    get_availability (Scenario.calendar_with [Scenario.half_past_nine]) Scenario.live
                     "2024-06-03" "2024-06-04" 60 Scenario.fresh_world
    = (Ok slots, w')
    /\ Forall2 (slot_of 60) starts slots
    /\ check_availability_tool (Scenario.calendar_with [Scenario.half_past_nine])
         Scenario.live "2024-06-03 to 2024-06-04" Scenario.fresh_world
       = (Ok (availability_text Scenario.live starts), w').
Proof.
  apply (availability_tool_lists_the_slots
           (Scenario.calendar_with [Scenario.half_past_nine]) Scenario.live
           "2024-06-03 to 2024-06-04" Scenario.fresh_world
           "2024-06-03" "2024-06-04" Scenario.fresh_world
           (midnight 739040) (midnight 739041));
    vm_compute; reflexivity.
Defined.


Lemma event_offsets_are_dropped_witness :
  event_datetime (Some (isoformat (combine_hour 739040 10) +:+ "+05:30"))
  = Ok (combine_hour 739040 10).
Proof.
  apply (proj2 (proj2 (event_offsets_are_dropped (combine_hour 739040 10) "+" 5 30
                         ltac:(vm_compute; intuition discriminate) eq_refl
                         ltac:(by left) ltac:(lia) ltac:(lia)))).
Defined.

Lemma decoded_key_file_witness :
  snd (Startup.__init__ Outage.host_with_bad_key ∅)
  = {["/tmp/tmpk3y5a1t2.json" := "{}"]}.
Proof.
  apply (decoded_key_file Outage.host_with_bad_key ∅ "e30=" "{}"
           eq_refl eq_refl ltac:(discriminate) eq_refl eq_refl).
Defined.

Lemma llm_choice_is_final_witness :
  Startup._initialize_llm Outage.groq_fails
  = Raise (Exn ValueError (Startup.no_llm_message Outage.groq_fails)).
Proof.
  apply (proj2 (proj2 (llm_choice_is_final Outage.groq_fails)) Startup.ChatGroq).
  - split; [reflexivity|]. intros c' Hlt. cbn in Hlt. lia.
  - intros llm Hclass. cbn. rewrite Hclass. discriminate.
Defined.

End FurtherWitnesses.

Section AnonymousMessages.
Import Datetime Agent AgentSpec Conversation.

(** X23: without a session identifier there is no memory.  When the clock
    never gives the same text twice, the agent never turns the clock back,
    and no session is named after a reading to come, a message sent without
    [session_id] opens a session of its own: the next message sent without
    [session_id] works on another session and is put to the agent with an
    empty history, whatever was said before. *)
Theorem anonymous_messages_share_no_history :
  forall env agent m1 m2 context s,
    (forall j k, now_timestamp env j = now_timestamp env k -> j = k) ->
    (forall inputs r,
        (clock_reads (world r) <= clock_reads (world (snd (agent inputs r))))%nat) ->
    (forall j, (clock_reads (world (runtime s)) <= j)%nat ->
               sessions s !! ("session_" +:+ now_timestamp env j) = None) ->
    let s1 := snd (process_message env agent m1 None context s) in
    session_key env None s1 <> session_key env None s
    /\ chat_history (agent_inputs env m2 None s1) = "".
Proof.
  intros env agent m1 m2 context s Hclock Hagent Hfree s1.
  assert (Hlater : (clock_reads (world (runtime s)) + 2
                    <= clock_reads (world (runtime s1)))%nat).
  { subst s1. rewrite process_message_asks.
    pose proof (Hagent (agent_inputs env m1 None s) (runtime_at_call None s)) as Hmono.
    destruct (agent _ _) as [[response|e] r']; [destruct (response !! "output")|];
      cbn [snd runtime] in *;
      unfold runtime_at_call, readings_before_call in Hmono;
      cbn [world Nat.iter nat_rect tick clock_reads] in Hmono; lia. }
  assert (Hkeys : session_key env None s1 <> session_key env None s).
  { unfold session_key. intros Heq. apply String.app_inj in Heq.
    apply Hclock in Heq. lia. }
  split; [exact Hkeys|].
  unfold agent_inputs. cbn [chat_history].
  assert (Hempty : transcript s1 (session_key env None s1) = []).
  { subst s1. rewrite process_message_turns. fold (snd (process_message env agent m1 None context s)).
    case_decide as Hsame.
    - exfalso. apply Hkeys. symmetry. exact Hsame.
    - unfold transcript, session_key at 1. rewrite Hfree; [reflexivity|]. lia. }
  rewrite Hempty. reflexivity.
Qed.

End AnonymousMessages.

Section RangeTexts.
Import Datetime Agent RangeText.

Lemma prefix_to c s :
  String.prefix "to" (String c s)
  = Ascii.eqb "t" c && match s with
                       | String d _ => Ascii.eqb "o" d
                       | EmptyString => false
                       end.
Proof.
  cbn [String.prefix]. destruct (ascii_dec "t" c) as [<-|Hne].
  - rewrite Ascii.eqb_refl. destruct s as [|d s]; [reflexivity|].
    cbn [andb]. apply prefix_char.
  - apply Ascii.eqb_neq in Hne. by rewrite Hne.
Qed.

Lemma contains_to_cons c s :
  PyString.contains "to" (String c s)
  = String.prefix "to" (String c s) || PyString.contains "to" s.
Proof. reflexivity. Qed.

(** The scan of a text up to its first ["to"]. *)
Lemma split_to_first cur before rest :
  has_no_to before ->
  PyString.split_go "to" 0 cur (before +:+ "to" +:+ rest)
  = (cur +:+ before) :: PyString.split_go "to" 0 "" rest.
Proof.
  unfold has_no_to. revert cur. induction before as [|c before IH]; intros cur Hno.
  - rewrite append_nil, append_empty.
    change ("to" +:+ rest) with (String "t" (String "o" rest)).
    cbn [PyString.split_go]. rewrite prefix_to.
    change (Ascii.eqb "t" "t" && Ascii.eqb "o" "o") with true. reflexivity.
  - rewrite contains_to_cons in Hno. apply orb_false_elim in Hno as [Hhere Hno].
    rewrite append_cons. cbn [PyString.split_go].
    assert (Hnot : String.prefix "to" (String c (before +:+ "to" +:+ rest)) = false).
    { rewrite prefix_to in *. destruct (Ascii.eqb "t" c); [|reflexivity].
      destruct before as [|d before]; [reflexivity|exact Hhere]. }
    rewrite Hnot, IH by exact Hno. by rewrite append_cons_assoc.
Qed.

(** A text without ["to"] is one piece. *)
Lemma split_to_none cur s :
  has_no_to s -> PyString.split_go "to" 0 cur s = [cur +:+ s].
Proof.
  unfold has_no_to. revert cur. induction s as [|c s IH]; intros cur Hno.
  - by rewrite append_empty.
  - rewrite contains_to_cons in Hno. apply orb_false_elim in Hno as [Hhere Hno].
    cbn [PyString.split_go]. rewrite Hhere, IH by exact Hno.
    by rewrite append_cons_assoc.
Qed.

Lemma split_go_not_nil sep skip cur s : PyString.split_go sep skip cur s <> [].
Proof.
  revert skip cur. induction s as [|c s IH]; intros skip cur; cbn [PyString.split_go];
    [discriminate|].
  destruct skip; [|apply IH]. destruct (String.prefix sep _); [discriminate|apply IH].
Qed.

(** A text that holds ["to"] is two pieces or more. *)
Lemma split_to_some cur s :
  PyString.contains "to" s = true ->
  (2 <= length (PyString.split_go "to" 0 cur s))%nat.
Proof.
  revert cur. induction s as [|c s IH]; intros cur Hyes; [discriminate|].
  rewrite contains_to_cons in Hyes. cbn [PyString.split_go].
  destruct (String.prefix "to" (String c s)) eqn:Hhere.
  - cbn [length]. pose proof (split_go_not_nil "to" (String.length "to" - 1) "" s).
    destruct (PyString.split_go _ _ _ s); [congruence|cbn [length]; lia].
  - apply IH. exact Hyes.
Qed.

(** The first ["to"] of a text that holds one. *)
Lemma first_to s :
  PyString.contains "to" s = true ->
  exists before rest, s = before +:+ "to" +:+ rest /\ has_no_to before.
Proof.
  induction s as [|c s IH]; [discriminate|]. rewrite contains_to_cons.
  destruct (String.prefix "to" (String c s)) eqn:Hhere.
  - intros _. exists "", (PyString.slice_from 1 s). split; [|reflexivity].
    rewrite prefix_to in Hhere. apply andb_prop in Hhere as [Ht Ho].
    apply Ascii.eqb_eq in Ht as <-. destruct s as [|d s]; [discriminate|].
    apply Ascii.eqb_eq in Ho as <-.
    unfold PyString.slice_from. cbn [String.length Nat.sub substring].
    change ("" +:+ "to" +:+ ?r) with (String "t" (String "o" r)).
    rewrite Nat.sub_0_r. f_equal. f_equal. symmetry.
    clear. induction s as [|e s IHs]; [reflexivity|]. cbn. by rewrite IHs.
  - cbn [orb]. intros Hlater. destruct (IH Hlater) as (before & rest & -> & Hno).
    exists (String c before), rest. split; [reflexivity|].
    unfold has_no_to. rewrite contains_to_cons, Hno, orb_false_r.
    rewrite prefix_to in *. destruct (Ascii.eqb "t" c); [|reflexivity].
    cbn [andb] in *. destruct before as [|d before]; [reflexivity|exact Hhere].
Qed.

(** X24: the range texts [parse_date_range] understands are those that,
    once stripped and without their quotes, hold ["to"] exactly once: the
    two dates are then the parts before and after it, stripped, and the
    clock is not read.  A text in which a date itself holds ["to"] (as
    in "October" or "tomorrow") is not among them, and gets the default
    range. *)
Theorem range_text_holds_one_to :
  forall env text start_date end_date,
    (explicit_date_range text = Some (start_date, end_date)
     <-> text <> ""
         /\ exists before after,
              cleaned text = before +:+ "to" +:+ after
              /\ has_no_to before /\ has_no_to after
              /\ start_date = PyString.strip before
              /\ end_date = PyString.strip after)
    /\ (explicit_date_range text = Some (start_date, end_date) ->
        forall w, parse_date_range env text w = (Ok (start_date, end_date), w)).
Proof.
  intros env text start_date end_date. split; [split|].
  - unfold explicit_date_range. fold (cleaned text).
    destruct (String.eqb_spec text ""); [discriminate|].
    destruct (PyString.contains "to" (cleaned text)) eqn:Hto; [|discriminate].
    destruct (first_to _ Hto) as (before & rest & Hclean & Hbefore).
    rewrite Hclean. unfold PyString.split. rewrite split_to_first by exact Hbefore.
    rewrite append_nil.
    destruct (PyString.contains "to" rest) eqn:Hrest.
    + pose proof (split_to_some "" rest Hrest) as Hlen.
      destruct (PyString.split_go "to" 0 "" rest) as [|p [|q l]];
        cbn [length] in Hlen; try lia. discriminate.
    + rewrite (split_to_none "" rest Hrest), append_nil.
      intros [= <- <-]. split; [assumption|]. exists before, rest. auto.
  - intros (Hne & before & after & Hclean & Hbefore & Hafter & -> & ->).
    unfold explicit_date_range. fold (cleaned text).
    destruct (String.eqb_spec text ""); [contradiction|].
    rewrite Hclean. unfold PyString.split.
    rewrite split_to_first, (split_to_none "" after), !append_nil by assumption.
    assert (Hto : PyString.contains "to" (before +:+ "to" +:+ after) = true).
    { clear -Hbefore. induction before as [|c before IH].
      { change ("" +:+ "to" +:+ after) with (String "t" (String "o" after)).
        rewrite contains_to_cons, prefix_to. reflexivity. }
      rewrite append_cons, contains_to_cons. apply orb_true_intro. right. apply IH.
      unfold has_no_to in *. rewrite contains_to_cons in Hbefore.
      by apply orb_false_elim in Hbefore as [_ ?]. }
    rewrite Hto. reflexivity.
  - intros Hsome w. unfold parse_date_range. rewrite Hsome. reflexivity.
Qed.

End RangeTexts.

Section EventsListing.
Import Datetime CalendarService Agent ToolText EventText.

Lemma isoformat_has_no_Z dt :
  is_naive_datetime dt -> microsecond dt = 0 ->
  PyString.find_char "Z" (isoformat dt) = None.
Proof.
  destruct dt as [n hh mm ss ff tz]. intros (Hn & _ & _ & _ & _ & Htz) Hff.
  cbn [toordinal hour minute second microsecond tzinfo] in *. subst ff tz.
  destruct (ord2ymd_ymd2ord n Hn) as (y & m & d & Hymd & _).
  unfold isoformat. cbn [toordinal hour minute second microsecond tzinfo].
  rewrite (format_date_chars _ _ _ _ Hymd).
  cbv [String.append PyString.zfill Z.eqb].
  cbn -[Ascii.eqb PyString.ascii_of_digit].
  rewrite !(digit_is_no_Z _ _ (digit_of_ascii_of_digit _)). reflexivity.
Qed.

Lemma replace_Z_none dt z :
  is_naive_datetime dt -> microsecond dt = 0 ->
  z = "Z" \/ z = "" ->
  PyString.replace "Z" "" (isoformat dt +:+ z) = isoformat dt.
Proof.
  intros Hdt Hff Hz. rewrite replace_behind by (by apply isoformat_has_no_Z).
  destruct Hz as [-> | ->]; by rewrite append_empty.
Qed.

Lemma format_events_lines items starts text :
  Forall2 starts_at items starts ->
  format_events (map format_event items) text
  = Ok (event_lines (zip (title_of <$> items) starts) text).
Proof.
  intros Hitems. revert text.
  induction Hitems as [|item start items starts (Hdt & Hff & Hstart) _ IH]; intros text;
    [reflexivity|].
  cbn [map format_events fmap list_fmap zip zip_with event_lines].
  assert (Hparse : match ev_start_time (format_event item) with
                   | Some s => fromisoformat (PyString.replace "Z" "" s)
                   | None => Raise (Exn AttributeError
                                      "'NoneType' object has no attribute 'replace'")
                   end = Ok start).
  { unfold format_event, get_dateTime_or_date. cbn [ev_start_time].
    destruct Hstart as [-> | ->].
    - rewrite (replace_Z_none start "Z") by auto.
      destruct Hdt as (? & ? & ? & ? & ? & ?). apply isoformat_is_read_back; auto; lia.
    - rewrite <- (append_empty (isoformat start)) at 1.
      rewrite (replace_Z_none start "") by auto.
      destruct Hdt as (? & ? & ? & ? & ? & ?). apply isoformat_is_read_back; auto; lia. }
  rewrite Hparse. cbn [mbind result_bind rbind]. apply IH.
Qed.

(** X25: the events tool lists what the provider lists.  With the
    provider available and a range of two ISO dates, when the provider
    answers the list request with items that start at whole seconds written
    in ISO form, with or without the final [Z], the tool answers one line
    for each item, in the provider's order, with the title (or "No Title")
    and the weekday, date and hour of the start as written, not moved to
    another time zone. *)
Theorem events_tool_lists_the_events :
  forall env cs text w start_date end_date w0 start_dt end_dt item items starts,
    parse_date_range env text w = (Ok (start_date, end_date), w0) ->
    is_available cs = true ->
    fromisoformat start_date = Ok start_dt ->
    fromisoformat end_date = Ok end_dt ->
    execute_list env (requests w0) (calendar_id cs)
                 (isoformat start_dt +:+ "Z") (isoformat end_dt +:+ "Z")
    = Ok (item :: items) ->
    Forall2 starts_at (item :: items) starts ->
    get_existing_events_tool env cs text w
    = (Ok (event_lines (zip (title_of <$> item :: items) starts)
                       ("Existing events:" +:+ nl)),
       sent (EventsList (calendar_id cs) (isoformat start_dt +:+ "Z")
                        (isoformat end_dt +:+ "Z")) w0).
Proof.
  intros env cs text w start_date end_date w0 start_dt end_dt item items starts
         Hrange Hlive Hs He Hlist Hstarts.
  unfold get_existing_events_tool. rewrite catch_all_returns.
  unfold get_existing_events_try, mbind, ST_bind at 1. rewrite Hrange.
  unfold get_events, _check_availability. rewrite Hlive. cbn [negb].
  unfold mbind, ST_bind, try_except, lift, mret, ST_ret, events_list.
  rewrite Hs, He, Hlist.
  rewrite (format_events_lines (item :: items) starts _ Hstarts). reflexivity.
Qed.

End EventsListing.

Section MoreWitnesses.
Import Datetime CalendarService Agent AgentSpec Spec Conversation ToolSpec ToolText
  RangeText EventText.

Lemma anonymous_messages_share_no_history_witness :
  let s1 := snd (process_message Outage.ticking_clock Outage.greeting_agent
                   "Hi" None None Scenario.fresh_state) in
  chat_history (agent_inputs Outage.ticking_clock "And on Tuesday?" None s1) = "".
Proof.
  apply (proj2 (anonymous_messages_share_no_history Outage.ticking_clock
                  Outage.greeting_agent "Hi" "And on Tuesday?" None
                  Scenario.fresh_state
                  ltac:(intros j k H; exact (pretty_nat_inj j k H))
                  ltac:(intros inputs r; cbn; lia)
                  ltac:(intros j H; reflexivity))).
Defined.

Lemma range_text_holds_one_to_witness :
  explicit_date_range "2024-06-03 to 2024-06-07" = Some ("2024-06-03", "2024-06-07").
Proof.
  apply (proj1 (range_text_holds_one_to (Scenario.calendar_with [])
                  "2024-06-03 to 2024-06-07" "2024-06-03" "2024-06-07")).
  split; [discriminate|].
  exists "2024-06-03 ", " 2024-06-07". repeat split; vm_compute; reflexivity.
Defined.

Lemma events_tool_lists_the_events_witness :
  get_existing_events_tool (Scenario.calendar_with [Scenario.half_past_nine])
    Scenario.live "2024-06-03 to 2024-06-04" Scenario.fresh_world
  = (Ok (event_lines [("Busy", mk_datetime 739040 9 30 0 0 None)]
                     ("Existing events:" +:+ nl)),
     sent (EventsList (calendar_id Scenario.live)
             (isoformat (midnight 739040) +:+ "Z")
             (isoformat (midnight 739041) +:+ "Z")) Scenario.fresh_world).
Proof.
  assert (Hstarts : Forall2 starts_at [Scenario.half_past_nine]
                            [mk_datetime 739040 9 30 0 0 None]).
  { constructor; [|constructor]. split; [vm_compute; intuition discriminate|].
    split; [reflexivity|]. right. vm_compute. reflexivity. }
  apply (events_tool_lists_the_events
           (Scenario.calendar_with [Scenario.half_past_nine]) Scenario.live
           "2024-06-03 to 2024-06-04" Scenario.fresh_world
           "2024-06-03" "2024-06-04" Scenario.fresh_world
           (midnight 739040) (midnight 739041) Scenario.half_past_nine []
           [mk_datetime 739040 9 30 0 0 None]);
    [vm_compute; reflexivity|reflexivity|vm_compute; reflexivity
    |vm_compute; reflexivity|reflexivity|exact Hstarts].
Defined.

End MoreWitnesses.
